(** * BDMP: Blanko's Data Managing Protocol -- a model of [core.py]

    The archive engine of the repository: items, sections, the document
    ([Data]), the resource index ([Info]) and the archive handle
    ([BDMFile]) with its staged-edit model and its save protocol.

    Python objects are modelled by value: a method is a computation over
    the state of the object it is called on, in a small state-and-exception
    monad, so that what a method has changed when it raises is part of its
    result.  Nothing below depends on two containers holding the same node.
    Dictionaries keep their insertion order and are association lists.  The
    structured-value codec ([pickle]) is a parameter of the model, and so
    are the errors with which the operating system may answer the calls of
    the write phase of [save]; the container codec ([zipfile]) is kept
    abstract by keeping containers in decoded form.  The file system is that
    of POSIX: [rename] replaces its destination and a file that is open can
    be removed.  The directories that are modelled are those of the staging
    area, which the handle makes and removes itself; the paths that a caller
    gives, the archive and the sources of resources, name files or
    nothing. *)

From stdpp Require Import base option list strings gmap.
From Stdlib Require Import ZArith Strings.Ascii Strings.Byte Lia.

Set Warnings "-register-all".
Set Default Proof Using "Type".

Open Scope Z_scope.
Open Scope string_scope.

(** ** Python values *)

Definition bytes : Type := list Byte.byte.

(** The values that the document tree and its payloads are made of: [None],
    integers, text and dictionaries with text keys (in insertion order). *)
Inductive value : Type :=
| VNone
| VInt (z : Z)
| VStr (s : string)
| VDict (kvs : list (string * value)).

Definition is_None (v : value) : bool :=
  match v with VNone => true | _ => false end.

(** ** Archive handles as seen from the nodes

    Every node of the tree keeps a reference to the [BDMFile] it was built
    under and reads [path], [readable] and [writable] through it.  [BDMFile]
    defines no [__eq__]: two references are equal when they are the same
    object, which [hid] stands for. *)
Record Handle : Type := mkHandle {
  hid : nat;
  path : string;
  mode : string
}.

(** [needle in hay] on text. *)
Fixpoint str_in (needle hay : string) : bool :=
  String.prefix needle hay ||
  match hay with
  | EmptyString => false
  | String _ hay' => str_in needle hay'
  end.

(** [BDMFile.__init__]: [self.readable = "r" in mode] and
    [self.writable = mode in ("w", "r+")]. *)
Definition readable (h : Handle) : bool := str_in "r" (mode h).
Definition writable (h : Handle) : bool :=
  String.eqb (mode h) "w" || String.eqb (mode h) "r+".

(** [BDMFile.__init__] accepts these modes only. *)
Definition valid_mode (m : string) : bool :=
  String.eqb m "w" || String.eqb m "r" || String.eqb m "r+".

Definition Handle_mode : Handle → string := mode.

(** [a != b] on handles is identity. *)
Definition same_handle (a b : Handle) : bool := Nat.eqb (hid a) (hid b).

(** ** Exceptions *)

Inductive exn : Type :=
| UnsupportedOperation (msg : string)
| ValueError (msg : string)
| TypeError
| KeyError (key : string)
| AttributeError (attr : string)
| FileNotFoundError (p : string)
| FileExistsError (p : string)
| IsADirectoryError (p : string)
| NotADirectoryError (p : string)
| BadZipFile
| PicklingError
| UnpicklingError
| OSError (msg : string)
| InvalidFile (p : string) (reason : string)
| VersionError (self_version file_version : Z) (p : string)
| InvalidParent (expected_parent given_parent : Handle) (p : string).

(** ** Computations that may raise *)

Definition result (A : Type) : Type := exn + A.

Global Instance result_ret : MRet result := λ A a, inr a.
Global Instance result_bind : MBind result :=
  λ A B f m, match m with inl e => inl e | inr a => f a end.

Global Instance result_fmap : FMap result :=
  λ A B f m, match m with inl e => inl e | inr a => inr (f a) end.

Definition throw {A} (e : exn) : result A := inl e.

(** A method of an object with state [S]: it returns or raises, and leaves
    the object in a new state either way. *)
Definition py (S A : Type) : Type := S → result A * S.

Global Instance py_ret S : MRet (py S) := λ A a s, (inr a, s).
Global Instance py_bind S : MBind (py S) :=
  λ A B f m s,
    match m s with
    | (inl e, s') => (inl e, s')
    | (inr a, s') => f a s'
    end.

Definition raise {S A} (e : exn) : py S A := λ s, (inl e, s).
Definition get {S} : py S S := λ s, (inr s, s).
Definition put {S} (s : S) : py S unit := λ _, (inr tt, s).
Definition lift {S A} (r : result A) : py S A := λ s, (r, s).

(** [try: body  except Exception as err: handler err]. *)
Definition try_except {S A} (body : py S A) (handler : exn → py S A) : py S A :=
  λ s,
    match body s with
    | (inl e, s') => handler e s'
    | (inr a, s') => (inr a, s')
    end.

(** [for x in xs: body x]. *)
Fixpoint for_each {S A} (xs : list A) (body : A → py S unit) : py S unit :=
  match xs with
  | [] => mret tt
  | x :: xs' => body x;; for_each xs' body
  end.

(** The same loop where the body cannot change anything but an
    accumulator. *)
Fixpoint fold_result {A B} (f : B → A → result B) (xs : list A) (acc : B) : result B :=
  match xs with
  | [] => mret acc
  | x :: xs' => acc' ← f acc x; fold_result f xs' acc'
  end.

(** [for x in xs: acc = body(acc, x)], in a method. *)
Fixpoint for_fold {S A B} (xs : list A) (acc : B) (body : B → A → py S B) : py S B :=
  match xs with
  | [] => mret acc
  | x :: xs' => acc' ← body acc x; for_fold xs' acc' body
  end.

(** ** Dictionaries

    A [dict] keeps its keys in the order of their first insertion; assigning
    to a key that is present replaces the value where it stands. *)
Definition dict (V : Type) : Type := list (string * V).

Fixpoint dict_get {V} (k : string) (d : dict V) : option V :=
  match d with
  | [] => None
  | (k', v) :: d' => if String.eqb k k' then Some v else dict_get k d'
  end.

Definition dict_mem {V} (k : string) (d : dict V) : bool :=
  match dict_get k d with Some _ => true | None => false end.

Fixpoint dict_set {V} (k : string) (v : V) (d : dict V) : dict V :=
  match d with
  | [] => [(k, v)]
  | (k', v') :: d' =>
      if String.eqb k k' then (k', v) :: d' else (k', v') :: dict_set k v d'
  end.

Fixpoint dict_del {V} (k : string) (d : dict V) : dict V :=
  match d with
  | [] => []
  | (k', v') :: d' =>
      if String.eqb k k' then d' else (k', v') :: dict_del k d'
  end.

Definition dict_keys {V} (d : dict V) : list string := map fst d.

(** [d[k]], [del d[k]] on a [dict]: [KeyError] when [k] is absent. *)
Definition dict_getitem {V} (k : string) (d : dict V) : result V :=
  match dict_get k d with
  | Some v => mret v
  | None => throw (KeyError k)
  end.

Definition dict_delitem {V} (k : string) (d : dict V) : result (dict V) :=
  if dict_mem k d then mret (dict_del k d) else throw (KeyError k).

(** [for k in d: out[k] = f(d[k])], from an empty [out]. *)
Definition dict_map_items {A B} (f : A → B) (d : dict A) : dict B :=
  fold_left
    (λ out k,
       match dict_get k d with
       | Some x => dict_set k (f x) out
       | None => out
       end)
    (dict_keys d) [].

(** ** The operators of Python on a value of any kind *)

(** The characters of a text, as iterating over it yields them. *)
Fixpoint chars (s : string) : list string :=
  match s with
  | EmptyString => []
  | String c s' => String c EmptyString :: chars s'
  end.

(** [for k in obj]. *)
Definition py_iter (obj : value) : result (list string) :=
  match obj with
  | VDict d => mret (dict_keys d)
  | VStr s => mret (chars s)
  | VNone | VInt _ => throw TypeError
  end.

(** [obj[k]] with a text [k]. *)
Definition py_getitem (obj : value) (k : string) : result value :=
  match obj with
  | VDict d => dict_getitem k d
  | VNone | VInt _ | VStr _ => throw TypeError
  end.

(** [obj[k] = v]. *)
Definition py_setitem (obj : value) (k : string) (v : value) : result value :=
  match obj with
  | VDict d => mret (VDict (dict_set k v d))
  | VNone | VInt _ | VStr _ => throw TypeError
  end.

(** [del obj[k]]. *)
Definition py_delitem (obj : value) (k : string) : result value :=
  match obj with
  | VDict d => VDict <$> dict_delitem k d
  | VNone | VInt _ | VStr _ => throw TypeError
  end.

(** [k in obj]. *)
Definition py_contains (obj : value) (k : string) : result bool :=
  match obj with
  | VDict d => mret (dict_mem k d)
  | VStr s => mret (str_in k s)
  | VNone | VInt _ => throw TypeError
  end.

(** [len(obj)]. *)
Definition py_len (obj : value) : result nat :=
  match obj with
  | VDict d => mret (length d)
  | VStr s => mret (String.length s)
  | VNone | VInt _ => throw TypeError
  end.

(** [obj > n] with an integer [n]. *)
Definition py_gt (obj : value) (n : Z) : result bool :=
  match obj with
  | VInt z => mret (Z.ltb n z)
  | VNone | VStr _ | VDict _ => throw TypeError
  end.

(** [isinstance(obj, dict)]. *)
Definition is_dict (obj : value) : bool :=
  match obj with VDict _ => true | _ => false end.

(** [for k in obj: out[k] = f(obj[k])], from an empty [out], where [obj]
    is a value of any kind and [f] may raise. *)
Definition dict_build {B} (f : value → result B) (obj : value) : result (dict B) :=
  keys ← py_iter obj;
  fold_result
    (λ out k,
       x ← py_getitem obj k;
       y ← f x;
       mret (dict_set k y out))
    keys [].

(** ** Calling with [**kwargs]

    [f(parent, **kw)]: [kw] must be a mapping, each of its keys must name a
    parameter of [f] other than the ones given by position, and every
    parameter without a default must be given. *)
Definition kwargs_of (kw : value) (params : list string) : result (dict value) :=
  match kw with
  | VDict d =>
      if forallb (λ k, bool_decide (k ∈ params)) (dict_keys d)
      then mret d else throw TypeError
  | VNone | VInt _ | VStr _ => throw TypeError
  end.

Definition required (k : string) (kw : dict value) : result value :=
  match dict_get k kw with
  | Some v => mret v
  | None => throw TypeError
  end.

Definition optional (k : string) (default : value) (kw : dict value) : value :=
  match dict_get k kw with
  | Some v => v
  | None => default
  end.

Definition VERSION : Z := 2.

(** ** The ownership link *)

(** Modelled from the spec: [class_utils.HierarchizedObject], the base class
    of [Item], [Section], [Data] and [Info], is not among the sources.  The
    spec describes it as the capability every hierarchical node holds, a
    reference to its owning archive handle; the sources read it as
    [self._parent].  [HierarchizedObject.__init__(parent)] is the field
    [_parent] of each node below, set to [parent]. *)
Definition HierarchizedObject (parent : Handle) : Handle := parent.

(** ** Item *)

Module Item.

Record t : Type := mk {
  _parent : Handle;
  title : value;
  content : value;
  image_id : value;
  level : value;
  data : value
}.

Definition set_data (d : value) (self : t) : t :=
  mk (_parent self) (title self) (content self) (image_id self) (level self) d.

(** [Item.__init__(self, parent, title, content, level, data=None,
    image_id=None, image=None)]. *)
Definition __init__ (parent : Handle) (title content level data image_id image : value)
  : result t :=
  let self_image_id := if is_None image_id then image else image_id in
  if is_None image_id && is_None image
  then throw (ValueError "image_id or image must be provided")
  else mret (mk (HierarchizedObject parent) title content self_image_id level data).

(** [Item(parent, **item)]. *)
Definition of_kwargs (parent : Handle) (item : value) : result t :=
  kw ← kwargs_of item ["title"; "content"; "level"; "data"; "image_id"; "image"];
  title ← required "title" kw;
  content ← required "content" kw;
  level ← required "level" kw;
  __init__ parent title content level
    (optional "data" VNone kw) (optional "image_id" VNone kw) (optional "image" VNone kw).

Definition to_dict (self : t) : value :=
  let data :=
    [("title", title self); ("content", content self);
     ("image_id", image_id self); ("level", level self)] in
  VDict (if is_None (Item.data self) then data
         else dict_set "data" (Item.data self) data).

Definition add_data (name : string) (v : value) : py t unit :=
  self ← get;
  if negb (writable (_parent self)) then raise (UnsupportedOperation "Not writable") else
  (if is_None (data self) then put (set_data (VDict []) self) else mret tt);;
  self ← get;
  d ← lift (py_setitem (data self) name v);
  put (set_data d self).

Definition remove_data (name : string) : py t unit :=
  self ← get;
  if negb (writable (_parent self)) then raise (UnsupportedOperation "Not writable") else
  present ← lift (py_contains (data self) name);
  if negb present then raise (ValueError ("data '" ++ name ++ "' do not exists")) else
  if is_None (data self) then raise (ValueError "No data yet") else
  d ← lift (py_delitem (data self) name);
  put (set_data d self);;
  n ← lift (py_len d);
  if Nat.eqb n 0 then put (set_data VNone self) else mret tt.

End Item.

(** ** Section *)

Module Section.

Record t : Type := mk {
  _parent : Handle;
  type : value;
  description : value;
  _content : dict Item.t
}.

Definition set_content (c : dict Item.t) (self : t) : t :=
  mk (_parent self) (type self) (description self) c.

(** [Section.__init__(self, parent, type, description, content)]: the items
    are rebuilt from their dictionaries, in the order of [content]. *)
Definition __init__ (parent : Handle) (type description content : value) : result t :=
  items ← dict_build (Item.of_kwargs parent) content;
  mret (mk (HierarchizedObject parent) type description items).

(** [Section(parent, **section)]. *)
Definition of_kwargs (parent : Handle) (section : value) : result t :=
  kw ← kwargs_of section ["type"; "description"; "content"];
  type ← required "type" kw;
  description ← required "description" kw;
  content ← required "content" kw;
  __init__ parent type description content.

Definition __contains__ (key : string) : py t bool :=
  self ← get;
  if negb (readable (_parent self)) then raise (UnsupportedOperation "Not readable") else
  mret (dict_mem key (_content self)).

Definition __getitem__ (key : string) : py t Item.t :=
  self ← get;
  if negb (readable (_parent self)) then raise (UnsupportedOperation "Not readable") else
  lift (dict_getitem key (_content self)).

Definition __len__ : py t nat :=
  self ← get;
  if negb (readable (_parent self)) then raise (UnsupportedOperation "Not readable") else
  mret (length (_content self)).

Definition __iter__ : py t (list string) :=
  self ← get;
  if negb (readable (_parent self)) then raise (UnsupportedOperation "Not readable") else
  mret (dict_keys (_content self)).

Definition __delitem__ (key : string) : py t unit :=
  self ← get;
  if negb (writable (_parent self)) then raise (UnsupportedOperation "Not writable") else
  c ← lift (dict_delitem key (_content self));
  put (set_content c self).

Definition __setitem__ (key : string) (v : Item.t) : py t unit :=
  self ← get;
  if negb (writable (_parent self)) then raise (UnsupportedOperation "Not writable") else
  if negb (same_handle (Item._parent v) (_parent self))
  then raise (InvalidParent (_parent self) (Item._parent v) (path (_parent self))) else
  put (set_content (dict_set key v (_content self)) self).

(** [Section.add_item(self, title, content, image_id, level, name=None,
    data=None)].  [uuid] is the text [uuid1().hex] yields when it is called.
    The item is built by [Item(self._parent, title, content, image_id,
    level, data)]: by position, so the fourth argument lands on the
    parameter [level] of [Item.__init__], the fifth on [data] and the sixth
    on [image_id]. *)
Definition add_item (uuid : string)
    (title content image_id level : value) (name : option string) (data : value)
  : py t unit :=
  let name := match name with None => uuid | Some n => n end in
  self ← get;
  item ← lift (Item.__init__ (_parent self) title content image_id level data VNone);
  __setitem__ name item.

Definition remove_item (name : string) : py t unit :=
  present ← __contains__ name;
  if negb present
  then raise (ValueError ("Item with name '" ++ name ++ "' do not exist"))
  else __delitem__ name.

Definition to_dict (self : t) : value :=
  VDict [("type", type self); ("description", description self);
         ("content", VDict (dict_map_items Item.to_dict (_content self)))].

End Section.

(** ** The structured-value codec

    [pickle.dumps] and [pickle.loads] are used, not reimplemented: the
    model takes them as they come. *)
Class Pickle : Type := {
  pickle_dumps : value → result bytes;
  pickle_loads : bytes → result value
}.

(** [raise VersionError(VERSION, data["version"], parent.path)]; the
    version found is an integer whenever the comparison with [VERSION] has
    succeeded. *)
Definition raise_VersionError {A} (found : value) (parent : Handle) : result A :=
  match found with
  | VInt z => throw (VersionError VERSION z (path parent))
  | VNone | VStr _ | VDict _ => throw TypeError
  end.

(** ** Data: the document *)

Module Data.

Record t : Type := mk {
  _parent : Handle;
  _sections : dict Section.t
}.

Definition set_sections (s : dict Section.t) (self : t) : t :=
  mk (_parent self) s.

Definition DEFAULT : dict value :=
  [("version", VInt VERSION); ("sections", VDict [])].

(** [Data.__init__(self, parent, sections)]. *)
Definition __init__ (parent : Handle) (sections : value) : result t :=
  secs ← dict_build (Section.of_kwargs parent) sections;
  mret (mk (HierarchizedObject parent) secs).

Definition __contains__ (key : string) : py t bool :=
  self ← get;
  mret (dict_mem key (_sections self)).

Definition __getitem__ (key : string) : py t Section.t :=
  self ← get;
  if negb (readable (_parent self)) then raise (UnsupportedOperation "Not readable") else
  lift (dict_getitem key (_sections self)).

Definition __iter__ : py t (list string) :=
  self ← get;
  if negb (readable (_parent self)) then raise (UnsupportedOperation "Not readable") else
  mret (dict_keys (_sections self)).

(** [Data.__len__(self)]: the items of all the sections; [len(self[key])]
    is [Section.__len__] of the section under [key]. *)
Definition __len__ : py t nat :=
  self ← get;
  if negb (readable (_parent self)) then raise (UnsupportedOperation "Not readable") else
  keys ← __iter__;
  for_fold keys 0%nat
    (λ total key,
       sec ← __getitem__ key;
       n ← lift (Section.__len__ sec).1;
       mret (total + n)%nat).

Definition __delitem__ (key : string) : py t unit :=
  self ← get;
  if negb (writable (_parent self)) then raise (UnsupportedOperation "Not writable") else
  s ← lift (dict_delitem key (_sections self));
  put (set_sections s self).

Definition __setitem__ (key : string) (v : Section.t) : py t unit :=
  self ← get;
  if negb (writable (_parent self)) then raise (UnsupportedOperation "Not writable") else
  if negb (same_handle (Section._parent v) (_parent self))
  then raise (InvalidParent (_parent self) (Section._parent v) (path (_parent self))) else
  put (set_sections (dict_set key v (_sections self)) self).

(** [Data.add_section(self, name, type, description)]. *)
Definition add_section (name : string) (type description : value) : py t unit :=
  self ← get;
  sec ← lift (Section.__init__ (_parent self) type description (VDict []));
  __setitem__ name sec.

(** The dictionary [export_data] hands to [pickle.dumps]. *)
Definition export_dict (self : t) : value :=
  VDict (dict_set "sections"
           (VDict (dict_map_items Section.to_dict (_sections self))) DEFAULT).

Definition export_data `{Pickle} (self : t) : result bytes :=
  pickle_dumps (export_dict self).

(** What [import_data] does with the value [pickle.loads] returned. *)
Definition import_value (data : value) (parent : Handle) : result t :=
  if negb (is_dict data) then throw (InvalidFile (path parent) "Invalid 'data' file") else
  version ← py_getitem data "version";
  newer ← py_gt version VERSION;
  if (newer : bool) then raise_VersionError version parent else
  data ← py_delitem data "version";
  sections ← py_getitem data "sections";
  __init__ parent sections.

Definition import_data `{Pickle} (data : bytes) (parent : Handle) : result t :=
  data ← pickle_loads data;
  import_value data parent.

End Data.

(** [s.split(sep)]. *)
Fixpoint split_on (sep : Ascii.ascii) (s : string) : list string :=
  match s with
  | EmptyString => [EmptyString]
  | String a s' =>
      if Ascii.eqb a sep then EmptyString :: split_on sep s'
      else match split_on sep s' with
           | [] => [String a EmptyString]
           | x :: xs => String a x :: xs
           end
  end.

(** [sep.join(parts)]. *)
Fixpoint join (sep : string) (parts : list string) : string :=
  match parts with
  | [] => EmptyString
  | [x] => x
  | x :: parts' => x ++ sep ++ join sep parts'
  end.

(** [str(Path(s))]: the text of a path as [pathlib] keeps it, without
    empty and [.] components and without a trailing slash; two leading
    slashes, not more, stay two; the path with no component is [.]. *)
Definition Path_parts (s : string) : list string :=
  List.filter (λ x, negb (String.eqb x "") && negb (String.eqb x "."))
    (split_on "/"%char s).

Definition Path_root (s : string) : string :=
  if String.prefix "//" s && negb (String.prefix "///" s) then "//"
  else if String.prefix "/" s then "/"
  else "".

Definition Path_str (s : string) : string :=
  let text := Path_root s ++ join "/" (Path_parts s) in
  if String.eqb text "" then "." else text.

(** ** Info: the resource index *)

Module Info.

Record t : Type := mk {
  _parent : Handle;
  name : value;
  files : dict string
}.

Definition set_files (f : dict string) (self : t) : t :=
  mk (_parent self) (name self) f.

Definition DEFAULT : dict value :=
  [("version", VInt VERSION); ("files", VDict []); ("name", VStr "NoName")].

(** [Path(file)]: a path is kept as its text, which is that of
    [str(Path(file))]. *)
Definition Path (file : value) : result string :=
  match file with
  | VStr s => mret (Path_str s)
  | VNone | VInt _ | VDict _ => throw TypeError
  end.

(** [Info.__init__(self, parent, name, files)]. *)
Definition __init__ (parent : Handle) (name files : value) : result t :=
  fs ← dict_build Path files;
  mret (mk (HierarchizedObject parent) name fs).

Definition export_dict (self : t) : value :=
  VDict (dict_set "files" (VDict (dict_map_items VStr (files self)))
           (dict_set "name" (name self) DEFAULT)).

Definition export_data `{Pickle} (self : t) : result bytes :=
  pickle_dumps (export_dict self).

Definition import_value (data : value) (parent : Handle) : result t :=
  if negb (is_dict data) then throw (InvalidFile (path parent) "Invalid 'info' file") else
  version ← py_getitem data "version";
  newer ← py_gt version VERSION;
  if (newer : bool) then raise_VersionError version parent else
  data ← py_delitem data "version";
  name ← py_getitem data "name";
  files ← py_getitem data "files";
  __init__ parent name files.

Definition import_data `{Pickle} (data : bytes) (parent : Handle) : result t :=
  data ← pickle_loads data;
  import_value data parent.

End Info.

(** ** Byte strings and the file system

    The container codec ([zipfile]) is used, not reimplemented.  A byte
    string that is the image of a container is kept as the entries the codec
    reads back from it, [closed] telling whether its central directory has
    been written (without it the image is no container: [is_zipfile] and
    [ZipFile] refuse it); [BadZip] is a byte string in which [is_zipfile]
    finds the end record of a container and [ZipFile] no directory that it
    can read; [Raw] is any other byte string. *)
Inductive content : Type :=
| Raw (b : bytes)
| Zip (closed : bool) (entries : list (string * content))
| BadZip (b : bytes).

(** Files by path. *)
Abbreviation disk := (gmap string content).

(** [path.parent / (path.name + ".old")]. *)
Definition old_marker (p : string) : string := p ++ ".old".

(** [dir / name]: an absolute [name] replaces [dir]. *)
Definition path_join (dir name : string) : string :=
  if String.prefix "/" name then name else dir ++ "/" ++ name.

(** What follows the last [sep] of [s]; [s] itself when it has none. *)
Fixpoint after_last (sep : Ascii.ascii) (s : string) : string :=
  match s with
  | EmptyString => EmptyString
  | String a s' =>
      if str_in (String sep EmptyString) s' then after_last sep s'
      else if Ascii.eqb a sep then s' else String a s'
  end.

(** [path.name]. *)
Definition path_name (p : string) : string := after_last "/"%char p.

(** What precedes the last [sep] of [s]; nothing when [s] has none. *)
Fixpoint before_last (sep : Ascii.ascii) (s : string) : string :=
  match s with
  | EmptyString => EmptyString
  | String a s' =>
      if str_in (String sep EmptyString) s' then String a (before_last sep s')
      else EmptyString
  end.

(** [path.parent], as text; empty for a path of one component, which is in
    the working directory or at the root. *)
Definition Path_parent (p : string) : string := before_last "/"%char p.

(** The name under which [extractall] writes a member: its name without
    the components that are empty, [.] or [..]. *)
Definition invalid_path_parts : list string := [""; "."; ".."].

Definition arcname_parts (filename : string) : list string :=
  List.filter (λ x, negb (bool_decide (x ∈ invalid_path_parts)))
    (split_on "/"%char filename).

Definition member_arcname (filename : string) : string :=
  join "/" (arcname_parts filename).

(** The directories between [root] and [root/c1/.../cn], from the top,
    each with the path that is made or opened next under it. *)
Fixpoint upper_dirs (root : string) (parts : list string) : list (string * string) :=
  match parts with
  | [] => []
  | c :: parts' =>
      match parts' with
      | [] => []
      | c' :: _ =>
          (root ++ "/" ++ c, root ++ "/" ++ c ++ "/" ++ c')
            :: upper_dirs (root ++ "/" ++ c) parts'
      end
  end.

(** [member.is_dir()]: the name ends with a slash. *)
Fixpoint ends_with_slash (s : string) : bool :=
  match s with
  | EmptyString => false
  | String a EmptyString => Ascii.eqb a "/"%char
  | String _ s' => ends_with_slash s'
  end.

(** [l.remove(x)]: the first [x] goes; [ValueError] when there is none. *)
Fixpoint list_remove (x : string) (l : list string) : result (list string) :=
  match l with
  | [] => throw (ValueError "list.remove(x): x not in list")
  | y :: l' => if String.eqb x y then mret l' else cons y <$> list_remove x l'
  end.

(** The entry [name] of a container: the one written last. *)
Definition zip_entry (name : string) (entries : list (string * content)) : option content :=
  dict_get name (rev entries).

(** The argument [path] of [save]: a text or a [Path]. *)
Inductive path_arg : Type :=
| as_str (s : string)
| as_Path (p : string).

(** ** BDMFile: the archive handle *)

Module BDMFile.

Definition REQUIRED_CONTENT : list string := ["info"; "data"].

(** [this] is the handle as the nodes see it.  The two staging paths are
    attributes of writable handles only, and are read only after a check
    that the handle is writable. *)
Record t : Type := mk {
  this : Handle;
  _internal_root_dir : string;
  _internal_files_dir : string;
  info : Info.t;
  data : Data.t
}.

(** The handle with the files it works on.  [history] keeps every state
    the files have been in, latest first; [faults] lists, for the calls of
    the write phase of [save] that reach the disk, the error the operating
    system answers with, if any; [dirs] are the directories of the staging
    area.  A path that holds a file is read as a file. *)
Record state : Type := mkState {
  self : t;
  files : disk;
  history : list disk;
  faults : list (option exn);
  dirs : gset string
}.

(** [self.path]. *)
Definition self_path (st : state) : string := path (this (self st)).

Definition set_info (i : Info.t) (st : state) : state :=
  let s := self st in
  mkState (mk (this s) (_internal_root_dir s) (_internal_files_dir s) i (data s))
          (files st) (history st) (faults st) (dirs st).

Definition set_self (s : t) (st : state) : state :=
  mkState s (files st) (history st) (faults st) (dirs st).

Definition set_files (d : disk) (st : state) : state :=
  mkState (self st) d (d :: history st) (faults st) (dirs st).

Definition set_dirs (ds : gset string) (st : state) : state :=
  mkState (self st) (files st) (history st) (faults st) ds.

(** *** The calls that reach the disk *)

Definition Path_exists (p : string) : py state bool :=
  st ← get;
  mret (bool_decide (is_Some (files st !! p))).

(** [os.rename], which replaces the destination. *)
Definition rename (src dst : string) : py state unit :=
  st ← get;
  match files st !! src with
  | None => raise (FileNotFoundError src)
  | Some c => put (set_files (<[dst := c]> (delete src (files st))) st)
  end.

Definition remove (p : string) : py state unit :=
  st ← get;
  match files st !! p with
  | None => raise (FileNotFoundError p)
  | Some _ => put (set_files (delete p (files st)) st)
  end.

(** Whether a file stands where a directory of the path should be: going
    up from [q], a file is met before a directory. *)
Fixpoint not_a_directory (fuel : nat) (st : state) (q : string) : bool :=
  match fuel with
  | O => false
  | S fuel' =>
      if bool_decide (q ∈ dirs st) then false
      else if bool_decide (is_Some (files st !! q)) then true
      else if String.eqb q "" then false
      else not_a_directory fuel' st (Path_parent q)
  end.

(** The error of [open(p)] where no file is at [p]. *)
Definition open_error (st : state) (p : string) : exn :=
  if bool_decide (p ∈ dirs st) then IsADirectoryError p
  else if not_a_directory (String.length p) st (Path_parent p) then NotADirectoryError p
  else FileNotFoundError p.

(** [path.read_bytes()]. *)
Definition read_bytes (p : string) : py state content :=
  st ← get;
  match files st !! p with
  | None => raise (open_error st p)
  | Some c => mret c
  end.

(** [path.write_bytes(data)]: the directory of [p] has to be there, and
    [p] be no directory. *)
Definition write_bytes (p : string) (c : content) : py state unit :=
  st ← get;
  if bool_decide (p ∈ dirs st) then raise (IsADirectoryError p) else
  if String.eqb (Path_parent p) "" || bool_decide (Path_parent p ∈ dirs st)
  then put (set_files (<[p := c]> (files st)) st)
  else raise (open_error st p).

(** [p.mkdir()] where nothing is at [p] and its directory is there. *)
Definition mkdir (p : string) : py state unit :=
  st ← get;
  put (set_dirs ({[p]} ∪ dirs st) st).

(** [ZipFile(p, "w")]: the file is created, or emptied, at once. *)
Definition ZipFile_w (p : string) : py state unit :=
  st ← get;
  put (set_files (<[p := Zip false []]> (files st)) st).

(** One more entry in the container being written at [p]. *)
Definition zip_append (p : string) (arcname : string) (c : content) : py state unit :=
  st ← get;
  match files st !! p with
  | Some (Zip false entries) =>
      put (set_files (<[p := Zip false (entries ++ [(arcname, c)])]> (files st)) st)
  | _ => raise (ValueError "Attempt to write to ZIP archive that was already closed")
  end.

(** [zip_file.writestr(arcname, data)]. *)
Definition writestr (p : string) (arcname : string) (c : bytes) : py state unit :=
  zip_append p arcname (Raw c).

(** [zip_file.write(filename, arcname)]: a directory gives an entry of its
    own, without bytes, under the name with a slash. *)
Definition write (p : string) (filename arcname : string) : py state unit :=
  st ← get;
  match files st !! filename with
  | Some c => zip_append p arcname c
  | None =>
      if bool_decide (filename ∈ dirs st) then zip_append p (arcname ++ "/") (Raw [])
      else raise (open_error st filename)
  end.

(** [zip_file.close()]: the central directory is written. *)
Definition ZipFile_close (p : string) : py state unit :=
  st ← get;
  match files st !! p with
  | Some (Zip false entries) => put (set_files (<[p := Zip true entries]> (files st)) st)
  | _ => mret tt
  end.

(** [ZipFile(p)]: the entries of the container at [p]. *)
Definition ZipFile_r (p : string) : py state (list (string * content)) :=
  st ← get;
  match files st !! p with
  | None => raise (FileNotFoundError p)
  | Some (Zip true entries) => mret entries
  | Some (Zip false _) | Some (Raw _) | Some (BadZip _) => raise BadZipFile
  end.

(** [zip_file.read(name)]. *)
Definition zip_read (entries : list (string * content)) (name : string) : py state content :=
  match zip_entry name entries with
  | Some c => mret c
  | None => raise (KeyError name)
  end.

(** The next call of the write phase to reach the disk: the operating
    system lets it through or answers with an error. *)
Definition syscall : py state unit :=
  st ← get;
  match faults st with
  | [] => mret tt
  | f :: fs =>
      put (mkState (self st) (files st) (history st) fs (dirs st));;
      match f with
      | None => mret tt
      | Some e => raise e
      end
  end.

(** *** The methods *)

(** [BDMFile._check_validity(self)]: [is_zipfile] looks for the end
    record, and [ZipFile] then reads the directory. *)
Definition _check_validity : py state unit :=
  st ← get;
  let path := self_path st in
  match files st !! path with
  | Some (Zip true entries) =>
      for_each REQUIRED_CONTENT
        (λ content,
           if bool_decide (content ∈ dict_keys entries) then mret tt
           else raise (InvalidFile path ("Missing '" ++ content ++ "'")))
  | Some (BadZip _) => raise BadZipFile
  | Some (Raw _) | Some (Zip false _) | None => raise (InvalidFile path "Not a zip file")
  end.

(** [BDMFile.write_file(self, file_id, data)]. *)
Definition write_file (file_id : string) (c : content) : py state unit :=
  st ← get;
  if negb (writable (this (self st))) then raise (UnsupportedOperation "Not writable") else
  name ← lift (dict_getitem file_id (Info.files (info (self st))));
  write_bytes (path_join (_internal_files_dir (self st)) name) c.

(** [BDMFile.add_file(self, path, file_id, internal_name=None)]; [uuid] is
    the text [uuid1().hex] yields when it is called. *)
Definition add_file (uuid : string) (path : string) (file_id : string)
    (internal_name : option string) : py state unit :=
  present ← Path_exists path;
  if negb present then raise (FileNotFoundError path) else
  st ← get;
  if dict_mem file_id (Info.files (info (self st))) then raise (FileExistsError file_id) else
  if negb (writable (this (self st))) then raise (UnsupportedOperation "Not writable") else
  let ext :=
    if str_in "." (path_name path) then "." ++ after_last "."%char (path_name path)
    else "" in
  let internal_name :=
    match internal_name with None => uuid ++ ext | Some n => n end in
  put (set_info (Info.set_files (dict_set file_id internal_name (Info.files (info (self st))))
                   (info (self st))) st);;
  c ← read_bytes path;
  write_file file_id c.

(** [BDMFile.read_file(self, file_id)]. *)
Definition read_file (file_id : string) : py state content :=
  st ← get;
  if String.eqb (mode (this (self st))) "r+" then
    name ← lift (dict_getitem file_id (Info.files (info (self st))));
    read_bytes (path_join (_internal_files_dir (self st)) name)
  else if readable (this (self st)) then
    entries ← ZipFile_r (self_path st);
    name ← lift (dict_getitem file_id (Info.files (info (self st))));
    zip_read entries ("files/" ++ name)
  else raise (UnsupportedOperation "Not readable").

(** The body of the [try] of [save], the write phase: the new container
    is written at [path], then the file renamed aside is deleted. *)
Definition save_entries `{Pickle} (path : string) : py state unit :=
  syscall;; ZipFile_w path;;
  st ← get;
  data ← lift (Data.export_data (data (self st)));
  syscall;; writestr path "data" data;;
  info ← lift (Info.export_data (info (self st)));
  syscall;; writestr path "info" info;;
  for_each (dict_keys (Info.files (BDMFile.info (self st))))
    (λ file_id,
       file ← lift (dict_getitem file_id (Info.files (BDMFile.info (self st))));
       let arcname := "files/" ++ file in
       let temp_path := path_join (_internal_files_dir (self st)) file in
       syscall;; write path temp_path arcname).

Definition save_write `{Pickle} (path : string) (old_file : option string) : py state unit :=
  save_entries path;;
  match old_file with
  | Some old => syscall;; remove old
  | None => mret tt
  end.

(** The [except Exception as err] of [save]: the rollback. *)
Definition save_rollback (path : string) (old_file : option string) (err : exn)
  : py state unit :=
  present ← Path_exists path;
  (if (present : bool) then remove path else mret tt);;
  match old_file with
  | Some old => rename old path
  | None => mret tt
  end;;
  raise err.

(** [BDMFile.save(self, path=None)].  The result of [ensure_class(path,
    Path)] is dropped, so a text given as [path] stays a text, which has no
    [exists].  [save] does not close [zip_file]: the container is closed
    when the object is reclaimed, which is when [save] returns; after a
    rollback the file it would be written to has no path any more. *)
Definition save `{Pickle} (path : option path_arg) : py state unit :=
  st ← get;
  if negb (writable (this (self st))) then raise (UnsupportedOperation "Not writable") else
  match path with
  | Some (as_str _) => raise (AttributeError "exists")
  | _ =>
      let path :=
        match path with
        | Some (as_Path p) => p
        | _ => self_path st
        end in
      present ← Path_exists path;
      old_file ← (if (present : bool)
                  then rename path (old_marker path);; mret (Some (old_marker path))
                  else mret None);
      try_except (save_write path old_file) (save_rollback path old_file);;
      ZipFile_close path
  end.

(** *** Opening and closing *)

(** [os.makedirs], one directory on the way to [next]: made if nothing is
    there. *)
Definition mkdir_missing (q next : string) : py state unit :=
  st ← get;
  if bool_decide (q ∈ dirs st) then mret tt
  else if bool_decide (is_Some (files st !! q)) then raise (NotADirectoryError next)
  else put (set_dirs ({[q]} ∪ dirs st) st).

(** [os.mkdir(p)] unless [p] is a directory. *)
Definition mkdir_member (p : string) : py state unit :=
  st ← get;
  if bool_decide (p ∈ dirs st) then mret tt
  else if bool_decide (is_Some (files st !! p)) then raise (FileExistsError p)
  else put (set_dirs ({[p]} ∪ dirs st) st).

(** One member of [extractall]: the directories above it are made; a
    directory is made, a file is written, under [targetpath] at the cleaned
    name. *)
Definition _extract_member (entries : list (string * content)) (targetpath member : string)
  : py state unit :=
  c ← zip_read entries member;
  if negb (ends_with_slash member) && String.eqb (member_arcname member) ""
  then raise (ValueError "Empty filename.") else
  let target :=
    if String.eqb (member_arcname member) "" then targetpath
    else targetpath ++ "/" ++ member_arcname member in
  for_each (upper_dirs targetpath (arcname_parts member))
    (λ qn, mkdir_missing qn.1 qn.2);;
  if ends_with_slash member then mkdir_member target else write_bytes target c.

(** [BDMFile._extract_files(self)]. *)
Definition _extract_files : py state unit :=
  st ← get;
  entries ← ZipFile_r (self_path st);
  namelist ← lift (fold_result (λ namelist content, list_remove content namelist)
                     REQUIRED_CONTENT (dict_keys entries));
  for_each namelist (_extract_member entries (_internal_root_dir (self st))).

(** [BDMFile._setup_temp_env(self)]; [tempdir] is [gettempdir()], a
    directory that is there, and [uuid] the text [uuid1().hex] yields, a new
    name: nothing is at [root] before it is made, so that only the
    extraction can have left a file where the second directory goes. *)
Definition _setup_temp_env (tempdir uuid : string) : py state unit :=
  st ← get;
  let s := self st in
  let root := path_join tempdir uuid in
  put (set_self (mk (this s) root (_internal_files_dir s) (info s) (data s)) st);;
  mkdir root;;
  present ← Path_exists (path (this s));
  (if (present : bool) then _extract_files else mret tt);;
  st ← get;
  let s := self st in
  put (set_self (mk (this s) (_internal_root_dir s) (path_join root "files")
                   (info s) (data s)) st);;
  if (present : bool) then mkdir_member (path_join root "files")
  else mkdir (path_join root "files").

(** The bytes of an entry, for [pickle.loads]: those of a container,
    whether its directory can be read or not, are no pickle. *)
Definition entry_bytes (c : content) : result bytes :=
  match c with
  | Raw b => mret b
  | Zip _ _ | BadZip _ => throw UnpicklingError
  end.

(** [BDMFile._load_data(self)]. *)
Definition _load_data `{Pickle} : py state unit :=
  st ← get;
  entries ← ZipFile_r (self_path st);
  c ← zip_read entries "data";
  d ← lift (b ← entry_bytes c; Data.import_data b (this (self st)));
  st ← get;
  let s := self st in
  put (set_self (mk (this s) (_internal_root_dir s) (_internal_files_dir s) (info s) d) st);;
  c ← zip_read entries "info";
  i ← lift (b ← entry_bytes c; Info.import_data b (this (self st)));
  st ← get;
  put (set_info i st).

(** [BDMFile.__init__(self, path, mode)], on the object just allocated. *)
Definition __init__ `{Pickle} (tempdir uuid : string) (path mode : string) : py state unit :=
  st ← get;
  let s := self st in
  let id := hid (this s) in
  put (set_self (mk (mkHandle id path (Handle_mode (this s))) (_internal_root_dir s)
                   (_internal_files_dir s) (info s) (data s)) st);;
  if negb (valid_mode mode)
  then raise (ValueError ("Invalid or incompatible mode " ++ mode)) else
  let self_ := mkHandle id path mode in
  put (set_self (mk self_ (_internal_root_dir s) (_internal_files_dir s) (info s) (data s))
         st);;
  present ← Path_exists path;
  (if (present : bool) then _check_validity else mret tt);;
  if negb present && String.eqb mode "r" then raise (FileNotFoundError path) else
  (if writable self_ then _setup_temp_env tempdir uuid else mret tt);;
  if negb present then
    name ← lift (dict_getitem "name" Info.DEFAULT);
    files ← lift (dict_getitem "files" Info.DEFAULT);
    i ← lift (Info.__init__ self_ name files);
    st ← get;
    put (set_info i st);;
    sections ← lift (dict_getitem "sections" Data.DEFAULT);
    d ← lift (Data.__init__ self_ sections);
    st ← get;
    let s := self st in
    put (set_self (mk (this s) (_internal_root_dir s) (_internal_files_dir s) (info s) d) st)
  else _load_data.

(** The object [BDMFile(path, mode)] allocates, before [__init__] runs:
    its identity, and no attribute yet. *)
Definition allocated (id : nat) : t :=
  let h := mkHandle id "" "" in
  mk h "" "" (Info.mk h VNone []) (Data.mk h []).

(** [BDMFile(path, mode)] on the disk [d]. *)
Definition new `{Pickle} (id : nat) (tempdir uuid : string) (path mode : string) (d : disk)
  : result unit * state :=
  __init__ tempdir uuid path mode (mkState (allocated id) d [] [] ∅).

(** [rmtree(root)]: [root] goes with every file and directory under it. *)
Definition rmtree (root : string) : py state unit :=
  st ← get;
  if negb (bool_decide (root ∈ dirs st)) then raise (FileNotFoundError root) else
  put (set_dirs
         (filter (λ q, q ≠ root ∧ String.prefix (root ++ "/") q = false) (dirs st))
         (set_files (filter (λ kv, String.prefix (root ++ "/") kv.1 = false) (files st))
            st)).

(** [BDMFile.close(self)]. *)
Definition close : py state unit :=
  st ← get;
  if writable (this (self st)) then rmtree (_internal_root_dir (self st)) else mret tt.

End BDMFile.

(** * What the properties are stated with *)

(** ** Item metadata *)

(** The metadata of an item is [None] or a mapping with a key in it. *)
Definition metadata_ok (it : Item.t) : Prop :=
  Item.data it = VNone ∨ ∃ d, Item.data it = VDict d ∧ d ≠ [].


(** ** Errors by kind *)

(** The errors with which a lookup that finds nothing fails: [KeyError]
    from a mapping, [FileNotFoundError] from the file system. *)
Definition is_NotFound (e : exn) : Prop :=
  (∃ k, e = KeyError k) ∨ (∃ p, e = FileNotFoundError p).

Definition no_VersionError {A} (r : result A) : Prop :=
  ∀ self_version file_version p, r ≠ inl (VersionError self_version file_version p).

(** ** Sample handles and archives *)

Definition handle_rw : Handle := mkHandle 1 "a.bdm" "r+".
Definition handle_r : Handle := mkHandle 2 "b.bdm" "r".
Definition handle_w : Handle := mkHandle 3 "c.bdm" "w".

Definition sample_item (parent : Handle) : Item.t :=
  Item.mk parent (VStr "Title") (VStr "Text") (VStr "img1") (VInt 1) VNone.

Definition sample_section (parent : Handle) : Section.t :=
  Section.mk parent (VStr "notes") (VStr "A section") [("k", sample_item parent)].

Definition sample_data (parent : Handle) : Data.t :=
  Data.mk parent [("s", sample_section parent)].

Definition sample_info (parent : Handle) : Info.t :=
  Info.mk parent (VStr "NoName") [].

Definition sample_archive : content :=
  Zip true [("data", Raw []); ("info", Raw [])].

(** The staging area of a handle that writes. *)
Definition sample_dirs (parent : Handle) : gset string :=
  if writable parent then {["/tmp/u1"; "/tmp/u1/files"]} else ∅.

Definition sample_state (parent : Handle) (d : disk) : BDMFile.state :=
  BDMFile.mkState
    (BDMFile.mk parent "/tmp/u1" "/tmp/u1/files" (sample_info parent) (sample_data parent))
    d [] [] (sample_dirs parent).

(** ** Trees without their ownership links *)

Definition Item_fields (it : Item.t) : value * value * value * value * value :=
  (Item.title it, Item.content it, Item.image_id it, Item.level it, Item.data it).

Definition Section_tree (sec : Section.t)
  : value * value * list (string * (value * value * value * value * value)) :=
  (Section.type sec, Section.description sec,
   map (λ kv, (kv.1, Item_fields kv.2)) (Section._content sec)).

(** The section keys in insertion order, each with the type, the
    description and the items of its section: the item keys in insertion
    order, each with the fields of its item. *)
Definition Data_tree (doc : Data.t) :=
  map (λ kv, (kv.1, Section_tree kv.2)) (Data._sections doc).

(** The same tree under another handle. *)
Definition Item_adopt (parent : Handle) (it : Item.t) : Item.t :=
  Item.mk parent (Item.title it) (Item.content it) (Item.image_id it)
    (Item.level it) (Item.data it).

Definition Section_adopt (parent : Handle) (sec : Section.t) : Section.t :=
  Section.mk parent (Section.type sec) (Section.description sec)
    (map (λ kv, (kv.1, Item_adopt parent kv.2)) (Section._content sec)).

Definition Data_adopt (parent : Handle) (doc : Data.t) : Data.t :=
  Data.mk parent (map (λ kv, (kv.1, Section_adopt parent kv.2)) (Data._sections doc)).

(** What every tree built through the constructors and methods satisfies:
    a [dict] has each key once, and an item has an [image_id]. *)
Definition Item_wf (it : Item.t) : Prop := Item.image_id it ≠ VNone.

Definition Section_wf (sec : Section.t) : Prop :=
  NoDup (dict_keys (Section._content sec))
  ∧ Forall (λ kv, Item_wf kv.2) (Section._content sec).

Definition Data_wf (doc : Data.t) : Prop :=
  NoDup (dict_keys (Data._sections doc))
  ∧ Forall (λ kv, Section_wf kv.2) (Data._sections doc).

(** ** A codec to run the model with

    A small tagged encoding of values, standing where [pickle] stands:
    lengths and integers on four bytes. *)

Definition byte_of_N (n : N) : Byte.byte :=
  match Byte.of_N (n mod 256) with Some b => b | None => Byte.x00 end.

Definition enc_u32 (n : N) : bytes :=
  [byte_of_N n; byte_of_N (n / 256); byte_of_N (n / 65536); byte_of_N (n / 16777216)].

Definition dec_u32 (bs : bytes) : option (N * bytes) :=
  match bs with
  | b0 :: b1 :: b2 :: b3 :: rest =>
      Some ((Byte.to_N b0 + 256 * (Byte.to_N b1 + 256 * (Byte.to_N b2 + 256 * Byte.to_N b3)))%N,
            rest)
  | _ => None
  end.

Definition enc_str (s : string) : bytes :=
  (enc_u32 (N.of_nat (String.length s)) ++ String.list_byte_of_string s)%list.

Definition dec_str (bs : bytes) : option (string * bytes) :=
  '(n, rest) ← dec_u32 bs;
  if decide (N.to_nat n ≤ length rest)%nat
  then Some (String.string_of_list_byte (take (N.to_nat n) rest), drop (N.to_nat n) rest)
  else None.

Fixpoint enc_value (v : value) : bytes :=
  match v with
  | VNone => [Byte.x4e]
  | VInt z =>
      (Byte.x49 :: (if Z.ltb z 0 then Byte.x2d else Byte.x2b) :: enc_u32 (Z.to_N (Z.abs z)))%list
  | VStr s => (Byte.x53 :: enc_str s)%list
  | VDict kvs =>
      (Byte.x44 :: enc_u32 (N.of_nat (length kvs)) ++
       (fix entries (l : list (string * value)) : bytes :=
          match l with
          | [] => []
          | (k, x) :: l' => enc_str k ++ enc_value x ++ entries l'
          end) kvs)%list
  end.

Fixpoint dec_value (fuel : nat) (bs : bytes) : option (value * bytes) :=
  match fuel with
  | O => None
  | S fuel' =>
      match bs with
      | Byte.x4e :: rest => Some (VNone, rest)
      | Byte.x49 :: sign :: rest =>
          '(n, rest) ← dec_u32 rest;
          match sign with
          | Byte.x2d => Some (VInt (- Z.of_N n), rest)
          | Byte.x2b => Some (VInt (Z.of_N n), rest)
          | _ => None
          end
      | Byte.x53 :: rest =>
          '(s, rest) ← dec_str rest;
          Some (VStr s, rest)
      | Byte.x44 :: rest =>
          '(n, rest) ← dec_u32 rest;
          '(kvs, rest) ←
            (fix entries (n : nat) (bs : bytes) : option (list (string * value) * bytes) :=
               match n with
               | O => Some ([], bs)
               | S n' =>
                   '(k, bs) ← dec_str bs;
                   '(x, bs) ← dec_value fuel' bs;
                   '(l, bs) ← entries n' bs;
                   Some ((k, x) :: l, bs)
               end) (N.to_nat n) rest;
          Some (VDict kvs, rest)
      | _ => None
      end
  end.

#[local] Instance sample_pickle : Pickle := {|
  pickle_dumps v := inr (enc_value v);
  pickle_loads bs :=
    match dec_value (S (length bs)) bs with
    | Some (v, []) => inr v
    | _ => inl UnpicklingError
    end
|}.

Definition payload_of_version (version : Z) : bytes :=
  enc_value (VDict [("version", VInt version); ("sections", VDict []);
                    ("name", VStr "NoName"); ("files", VDict [])]).

(** ** The disk during a save *)

(** The path [save] writes to: the handle's own, or the [Path] given. *)
Definition save_target (st : BDMFile.state) (arg : option path_arg) : option string :=
  match arg with
  | None => Some (path (BDMFile.this (BDMFile.self st)))
  | Some (as_Path p) => Some p
  | Some (as_str _) => None
  end.

(** The state in which the write phase starts when a file is at [target]:
    the file has been renamed aside. *)
Definition renamed_aside (target : string) (st : BDMFile.state) : BDMFile.state :=
  (BDMFile.rename target (old_marker target) st).2.

(** What [_check_validity] accepts. *)
Definition valid_archive (c : content) : Prop :=
  ∃ entries, c = Zip true entries
             ∧ "info" ∈ dict_keys entries ∧ "data" ∈ dict_keys entries.

(** [s'] differs from [s] by a container under construction at [target]:
    every state the disk has been in since [s] has one there and is as in
    [s] elsewhere. *)
Definition writing_at (target : string) (s s' : BDMFile.state) : Prop :=
  BDMFile.self s' = BDMFile.self s
  ∧ (∀ p, p ≠ target → BDMFile.files s' !! p = BDMFile.files s !! p)
  ∧ ∃ new, BDMFile.history s' = (new ++ BDMFile.history s)%list
      ∧ Forall (λ d : disk,
                  (∀ p, p ≠ target → d !! p = BDMFile.files s !! p)
                  ∧ ∃ entries, d !! target = Some (Zip false entries)) new.

Definition writes_at {A} (target : string) (m : py BDMFile.state A) : Prop :=
  ∀ s r s', m s = (r, s') → writing_at target s s'.

(** The entries of the container under construction at [target] are kept. *)
Definition appends_at {A} (target : string) (m : py BDMFile.state A) : Prop :=
  ∀ s r s' entries,
    BDMFile.files s !! target = Some (Zip false entries) →
    m s = (r, s') →
    ∃ more, BDMFile.files s' !! target = Some (Zip false (entries ++ more)).

(** What the target and the marker hold at an instant of a save that found
    [previous] at the target, as long as the marker has not been deleted:
    the previous file is at the target; or it is under the marker, and the
    target holds nothing or a container under construction. *)
Definition save_instant (target : string) (previous : content) (d : disk) : Prop :=
  d !! target = Some previous
  ∨ (d !! old_marker target = Some previous
     ∧ (d !! target = None ∨ ∃ entries, d !! target = Some (Zip false entries))).

(** ** A handle with one resource, to run [save] *)

Definition sample_info_img (parent : Handle) : Info.t :=
  Info.mk parent (VStr "NoName") [("img1", "x.png")].

Definition disk_staged : disk :=
  <["/tmp/u1/files/x.png" := Raw [Byte.x89; Byte.x50]]> {["a.bdm" := sample_archive]}.

Definition disk_unstaged : disk := {["a.bdm" := sample_archive]}.

Definition saving_state (d : disk) : BDMFile.state :=
  BDMFile.mkState
    (BDMFile.mk handle_rw "/tmp/u1" "/tmp/u1/files"
       (sample_info_img handle_rw) (sample_data handle_rw))
    d [] [] (sample_dirs handle_rw).

(** ** Payloads of another version *)

(** The payload [export_data] builds, with another version tag. *)
Definition with_version (version : Z) (payload : value) : value :=
  match payload with
  | VDict kvs => VDict (dict_set "version" (VInt version) kvs)
  | VNone | VInt _ | VStr _ => payload
  end.

Definition Info_adopt (parent : Handle) (info : Info.t) : Info.t :=
  Info.mk parent (Info.name info) (Info.files info).

(** The index as [Info.__init__] builds it from the names of [info]:
    every internal name is the text of the [Path] made of it. *)
Definition Info_imported (parent : Handle) (info : Info.t) : Info.t :=
  Info.mk parent (Info.name info) (map (λ kv, (kv.1, Path_str kv.2)) (Info.files info)).

(** ** Building a tree through the methods

    A method called on a node that a container holds changes the node where
    it is stored: [sec[key].add_data(...)], [doc[key].add_item(...)]. *)

Definition Section_on_item {A} (key : string) (m : py Item.t A) : py Section.t A :=
  it ← Section.__getitem__ key;
  ((λ sec,
      let '(r, it') := m it in
      (r, Section.set_content (dict_set key it' (Section._content sec)) sec))
   : py Section.t A).

Definition Data_on_section {A} (key : string) (m : py Section.t A) : py Data.t A :=
  sec ← Data.__getitem__ key;
  ((λ doc,
      let '(r, sec') := m sec in
      (r, Data.set_sections (dict_set key sec' (Data._sections doc)) doc))
   : py Data.t A).

(** The arguments of a call of [Item(...)]. *)
Record Item_args : Type := mkItem_args {
  arg_parent : Handle;
  arg_title : value;
  arg_content : value;
  arg_level : value;
  arg_data : value;
  arg_image_id : value;
  arg_image : value
}.

Definition new_Item (a : Item_args) : result Item.t :=
  Item.__init__ (arg_parent a) (arg_title a) (arg_content a) (arg_level a)
    (arg_data a) (arg_image_id a) (arg_image a).

Inductive item_call : Type :=
| item_add_data (name : string) (v : value)
| item_remove_data (name : string).

Inductive section_call : Type :=
| section_add_item (uuid : string) (title content image_id level : value)
    (name : option string) (data : value)
| section_remove_item (name : string)
| section_setitem (key : string) (item : Item_args)
| section_delitem (key : string)
| section_item (key : string) (c : item_call).

Inductive data_call : Type :=
| data_add_section (name : string) (type description : value)
| data_setitem (key : string) (parent : Handle) (type description content : value)
| data_delitem (key : string)
| data_section (key : string) (c : section_call).

Definition run_item_call (c : item_call) : py Item.t unit :=
  match c with
  | item_add_data name v => Item.add_data name v
  | item_remove_data name => Item.remove_data name
  end.

Definition run_section_call (c : section_call) : py Section.t unit :=
  match c with
  | section_add_item uuid title content image_id level name data =>
      Section.add_item uuid title content image_id level name data
  | section_remove_item name => Section.remove_item name
  | section_setitem key item =>
      it ← lift (new_Item item);
      Section.__setitem__ key it
  | section_delitem key => Section.__delitem__ key
  | section_item key c => Section_on_item key (run_item_call c)
  end.

Definition run_data_call (c : data_call) : py Data.t unit :=
  match c with
  | data_add_section name type description => Data.add_section name type description
  | data_setitem key parent type description content =>
      sec ← lift (Section.__init__ parent type description content);
      Data.__setitem__ key sec
  | data_delitem key => Data.__delitem__ key
  | data_section key c => Data_on_section key (run_section_call c)
  end.

(** The document after a sequence of calls, those that raise included. *)
Definition after_calls (calls : list data_call) (doc : Data.t) : Data.t :=
  fold_left (λ doc c, (run_data_call c doc).2) calls doc.

(** The document of a handle that has just been opened on a new path:
    [Data(self, Data.DEFAULT["sections"])]. *)
Definition new_Data (parent : Handle) : Data.t := Data.mk parent [].

(** ** Ownership throughout a tree *)

(** Every item of the section has the section's handle. *)
Definition Section_owned (sec : Section.t) : Prop :=
  Forall (λ kv, hid (Item._parent kv.2) = hid (Section._parent sec)) (Section._content sec).

(** Every section of the document has the document's handle, and every
    item the handle of its section. *)
Definition Data_owned (doc : Data.t) : Prop :=
  Forall (λ kv, hid (Section._parent kv.2) = hid (Data._parent doc) ∧ Section_owned kv.2)
    (Data._sections doc).

(** The items a document holds, section after section. *)
Definition Data_items (doc : Data.t) : list Item.t :=
  concat (map (λ kv, map snd (Section._content kv.2)) (Data._sections doc)).

(** A section with an item in it and one without, on a handle opened ["w"]. *)
Definition sample_section_w : Section.t := sample_section handle_w.

(** ** Opening an archive *)

(** [p] is under the directory [root]. *)
Definition under (root p : string) : bool := String.prefix (root ++ "/") p.

(** What a step of the staging leaves as it was outside [root]: the
    handle, and the files that are not under [root]; no directory goes. *)
Definition staging_at (root : string) (s s' : BDMFile.state) : Prop :=
  BDMFile.self s' = BDMFile.self s
  ∧ (∀ p, under root p = false → BDMFile.files s' !! p = BDMFile.files s !! p)
  ∧ BDMFile.dirs s ⊆ BDMFile.dirs s'.

(** A member name that [extractall] keeps as it is and writes as a file. *)
Definition clean_name (member : string) : Prop :=
  ends_with_slash member = false ∧ member_arcname member = member ∧ member ≠ "".

(** An internal name that the container codec keeps as it is: one path
    component, which is not [.] or [..] and has no NUL. *)
Definition plain_name (name : string) : Prop :=
  str_in "/" name = false
  ∧ str_in (String "000"%char EmptyString) name = false
  ∧ name ∉ invalid_path_parts.

(** The internal name under which [add_file] registers a resource: the
    one it is given, or a new one with the extension of the source. *)
Definition registered_name (uuid path : string) (internal_name : option string) : string :=
  match internal_name with
  | Some n => n
  | None =>
      uuid ++ (if str_in "." (path_name path)
               then "." ++ after_last "."%char (path_name path) else "")
  end.

(** The handle [BDMFile(path, mode)] is for the nodes. *)
Definition opened (id : nat) (path mode : string) : Handle := mkHandle id path mode.

(** ** What a save writes *)

(** The entries of the resources: for each id of the index, in its order,
    the staged file, under the name [files/<internal name>]. *)
Definition resource_entries (dir : string) (d : disk) (index : dict string)
    (entries : list (string * content)) : Prop :=
  Forall2 (λ kv e, e.1 = "files/" ++ kv.2 ∧ d !! path_join dir kv.2 = Some e.2)
    index entries.

(** The staged files of the index are there, away from the target of the
    save and from its marker. *)
Definition staged_apart (dir target : string) (d : disk) (index : dict string) : Prop :=
  Forall (λ kv, is_Some (d !! path_join dir kv.2)
                ∧ path_join dir kv.2 ≠ target
                ∧ path_join dir kv.2 ≠ old_marker target) index.

(** [pickle] takes the value to bytes and back. *)
Definition pickled `{Pickle} (v : value) : Prop :=
  ∃ payload, pickle_dumps v = inr payload ∧ pickle_loads payload = inr v.

(** The archive that saving [saving_state disk_staged] leaves, alone on a
    disk. *)
Definition sample_saved_archive : content :=
  Eval vm_compute in
    default (Raw [])
      (BDMFile.files (BDMFile.save None (saving_state disk_staged)).2 !! "a.bdm").

Definition sample_saved : disk := <["a.bdm" := sample_saved_archive]> ∅.

Definition sample_saved_entries : list (string * content) :=
  match sample_saved_archive with
  | Zip _ entries => entries
  | Raw _ | BadZip _ => []
  end.

(** An archive with a member two levels under [files/], and an index that
    has the directory of the member as an internal name. *)
Definition sample_nested_entries : list (string * content) :=
  [("data", Raw (enc_value (Data.export_dict (sample_data handle_rw))));
   ("info", Raw (enc_value (Info.export_dict
                              (Info.mk handle_rw (VStr "NoName") [("img1", "d")]))));
   ("files/d/x", Raw [Byte.x89])].

Definition sample_nested : disk := <["n.bdm" := Zip true sample_nested_entries]> ∅.

(** * Properties *)

(** ** Dictionaries *)

Lemma eqb_true (a b : string) : String.eqb a b = true ↔ a = b.
Proof. apply String.eqb_eq. Qed.

Lemma eqb_false (a b : string) : String.eqb a b = false ↔ a ≠ b.
Proof. apply String.eqb_neq. Qed.

Section dict_facts.
Context {V : Type}.
Implicit Types (d : dict V) (k : string) (v : V).

Lemma dict_get_set_eq k v d : dict_get k (dict_set k v d) = Some v.
Proof.
  induction d as [|[k' v'] d IH]; simpl.
  - by rewrite String.eqb_refl.
  - destruct (String.eqb k k') eqn:E; simpl; rewrite E; auto.
Qed.

Lemma dict_get_set_ne k k' v d : k ≠ k' → dict_get k' (dict_set k v d) = dict_get k' d.
Proof.
  intros Hne. induction d as [|[k0 v0] d IH]; simpl.
  - apply eqb_false in Hne. rewrite String.eqb_sym in Hne. by rewrite Hne.
  - destruct (String.eqb k k0) eqn:E; simpl; [|by rewrite IH].
    apply eqb_true in E. subst k0.
    apply eqb_false in Hne. rewrite String.eqb_sym in Hne. by rewrite Hne.
Qed.

Lemma dict_mem_set k v d : dict_mem k (dict_set k v d) = true.
Proof. unfold dict_mem. by rewrite dict_get_set_eq. Qed.

Lemma dict_keys_set_present k v d :
  dict_mem k d = true → dict_keys (dict_set k v d) = dict_keys d.
Proof.
  unfold dict_mem. induction d as [|[k' v'] d IH]; simpl; [done|].
  destruct (String.eqb k k') eqn:E; simpl; [done|].
  intros H. by rewrite IH.
Qed.

Lemma dict_get_None k d : dict_get k d = None ↔ k ∉ dict_keys d.
Proof.
  induction d as [|[k' v'] d IH]; simpl.
  - split; [intros _; apply not_elem_of_nil|done].
  - rewrite not_elem_of_cons. destruct (String.eqb k k') eqn:E.
    + apply eqb_true in E. split; [done|]. intros [? _]. done.
    + apply eqb_false in E. rewrite IH. tauto.
Qed.

Lemma dict_set_absent k v d : k ∉ dict_keys d → dict_set k v d = (d ++ [(k, v)])%list.
Proof.
  induction d as [|[k' v'] d IH]; simpl; [done|].
  rewrite not_elem_of_cons. intros [Hne Hd].
  apply eqb_false in Hne. rewrite Hne. by rewrite IH.
Qed.

Lemma dict_set_nonempty k v d : dict_set k v d ≠ [].
Proof. destruct d as [|[k' v'] d]; simpl; [done|]. by destruct (String.eqb k k'). Qed.

Lemma dict_keys_set_NoDup k v d : NoDup (dict_keys d) → NoDup (dict_keys (dict_set k v d)).
Proof.
  intros Hd. destruct (dict_mem k d) eqn:E.
  - by rewrite dict_keys_set_present.
  - unfold dict_mem in E. destruct (dict_get k d) eqn:G; [done|].
    apply dict_get_None in G. rewrite dict_set_absent by done.
    unfold dict_keys. rewrite map_app. simpl.
    apply NoDup_app. split; [done|]. split; [|apply NoDup_singleton].
    intros x Hx Hx'. apply list_elem_of_singleton in Hx'. by subst.
Qed.

End dict_facts.

(** ** Running a method *)

Ltac py_unfold :=
  unfold mbind, py_bind, result_bind, mret, py_ret, result_ret, fmap, result_fmap,
    get, put, raise, lift, throw in *.

(** ** Item metadata (C10) *)

Lemma add_data_metadata_ok name v it r it' :
  metadata_ok it → Item.add_data name v it = (r, it') → metadata_ok it'.
Proof.
  unfold metadata_ok, Item.add_data. py_unfold.
  destruct it as [p ti co im le da]; simpl.
  destruct (writable p); simpl; [|by intros ? [= _ <-]].
  intros [->|(d & -> & Hne)]; simpl; intros [= _ <-]; simpl; right; eexists; split; try done.
  apply dict_set_nonempty.
Qed.

Lemma remove_data_metadata_ok name it r it' :
  metadata_ok it → Item.remove_data name it = (r, it') → metadata_ok it'.
Proof.
  unfold metadata_ok, Item.remove_data. py_unfold.
  destruct it as [p ti co im le da]; simpl.
  destruct (writable p); simpl; [|by intros ? [= _ <-]].
  intros [->|(d & -> & Hne)]; simpl; [by intros [= _ <-]; left|].
  unfold dict_delitem. destruct (dict_mem name d) eqn:Hm; simpl.
  - py_unfold. simpl. destruct (dict_del name d) as [|kv d'] eqn:Hdel; simpl.
    + intros [= _ <-]. by left.
    + intros [= _ <-]. right. by eexists.
  - intros [= _ <-]. right. by exists d.
Qed.

Lemma run_item_call_metadata_ok c it r it' :
  metadata_ok it → run_item_call c it = (r, it') → metadata_ok it'.
Proof.
  destruct c; simpl; eauto using add_data_metadata_ok, remove_data_metadata_ok.
Qed.

Lemma run_item_calls_metadata_ok calls it r it' :
  metadata_ok it → for_each calls run_item_call it = (r, it') → metadata_ok it'.
Proof.
  revert it. induction calls as [|c calls IH]; intros it Hok; simpl.
  - py_unfold. by intros [= _ <-].
  - unfold mbind, py_bind. destruct (run_item_call c it) as [[e|[]] it1] eqn:Hc.
    + intros [= _ <-]. eauto using run_item_call_metadata_ok.
    + intros Hrest. eapply IH; [|done]. eauto using run_item_call_metadata_ok.
Qed.

(** C10: an item built with no metadata has, after any sequence of
    successful [add_data] and [remove_data] calls, metadata that is [None]
    or a mapping that is not empty; [add_data] on an item without metadata
    creates the mapping, and [remove_data] of the last key puts [None]
    back. *)
Theorem metadata_None_or_nonempty (calls : list item_call) (it it' : Item.t) :
  Item.data it = VNone →
  for_each calls run_item_call it = (inr tt, it') →
  metadata_ok it'
  ∧ (∀ name v, writable (Item._parent it) = true →
       Item.add_data name v it = (inr tt, Item.set_data (VDict [(name, v)]) it))
  ∧ (∀ name v, writable (Item._parent it) = true →
       Item.remove_data name (Item.set_data (VDict [(name, v)]) it)
       = (inr tt, Item.set_data VNone it)).
Proof.
  intros Hd Hrun. split; [|split].
  - eapply run_item_calls_metadata_ok; [|done]. by left.
  - intros name v Hw. unfold Item.add_data. py_unfold. rewrite Hw, Hd. done.
  - intros name v Hw. unfold Item.remove_data, py_delitem, dict_delitem.
    py_unfold. simpl. rewrite Hw. simpl. unfold dict_mem. simpl.
    repeat (rewrite String.eqb_refl; simpl). done.
Qed.

Lemma metadata_None_or_nonempty_witness :
  metadata_ok
    (Item.mk (mkHandle 1 "a.bdm" "r+") (VStr "t") (VStr "c") (VStr "img") (VInt 1)
       (VDict [("b", VInt 2)])).
Proof.
  refine (proj1 (metadata_None_or_nonempty
    [item_add_data "a" (VInt 1); item_add_data "b" (VInt 2); item_remove_data "a"]
    (Item.mk (mkHandle 1 "a.bdm" "r+") (VStr "t") (VStr "c") (VStr "img") (VInt 1) VNone)
    _ _ _)); reflexivity.
Defined.

(** ** The ownership gate (C5) *)

Lemma same_handle_false (a b : Handle) : hid a ≠ hid b → same_handle a b = false.
Proof. unfold same_handle. intros H. by apply Nat.eqb_neq. Qed.

Lemma same_handle_true (a b : Handle) : hid a = hid b → same_handle a b = true.
Proof. unfold same_handle. intros H. by apply Nat.eqb_eq. Qed.

(** C5: on a writable section of handle B, [__setitem__] with an item whose
    ownership link is another handle A raises [InvalidParent] and leaves the
    section as it was; and so for a section put into a document. *)
Theorem foreign_parent_rejected (key : string) :
  (∀ (sec : Section.t) (it : Item.t),
     writable (Section._parent sec) = true →
     hid (Item._parent it) ≠ hid (Section._parent sec) →
     Section.__setitem__ key it sec
     = (inl (InvalidParent (Section._parent sec) (Item._parent it)
               (path (Section._parent sec))), sec))
  ∧ (∀ (doc : Data.t) (sec : Section.t),
     writable (Data._parent doc) = true →
     hid (Section._parent sec) ≠ hid (Data._parent doc) →
     Data.__setitem__ key sec doc
     = (inl (InvalidParent (Data._parent doc) (Section._parent sec)
               (path (Data._parent doc))), doc)).
Proof.
  split.
  - intros sec it Hw Hne. unfold Section.__setitem__. py_unfold.
    rewrite Hw. simpl. by rewrite same_handle_false.
  - intros doc sec Hw Hne. unfold Data.__setitem__. py_unfold.
    rewrite Hw. simpl. by rewrite same_handle_false.
Qed.

Lemma foreign_parent_rejected_witness :
  Section.__setitem__ "k2" (sample_item handle_w) (sample_section handle_rw)
  = (inl (InvalidParent handle_rw handle_w "a.bdm"), sample_section handle_rw)
  ∧ Data.__setitem__ "s2" (sample_section handle_w) (sample_data handle_rw)
  = (inl (InvalidParent handle_rw handle_w "a.bdm"), sample_data handle_rw).
Proof.
  split.
  - apply (proj1 (foreign_parent_rejected "k2") (sample_section handle_rw)
             (sample_item handle_w)); [reflexivity | simpl; lia].
  - apply (proj2 (foreign_parent_rejected "s2") (sample_data handle_rw)
             (sample_section handle_w)); [reflexivity | simpl; lia].
Defined.

(** ** What [add_item] stores (C7) *)

(** With [data], the item is stored with its fields shifted: [level] holds
    the argument [image_id], [data] the argument [level], and [image_id] the
    argument [data]. *)
Lemma add_item_with_data_shifts (uuid : string)
    (title content image_id level data : value) (name : option string) (sec : Section.t) :
  writable (Section._parent sec) = true →
  is_None data = false →
  Section.add_item uuid title content image_id level name data sec
  = (inr tt,
     Section.set_content
       (dict_set (default uuid name)
          (Item.mk (Section._parent sec) title content data image_id level)
          (Section._content sec)) sec).
Proof.
  intros Hw Hd. unfold Section.add_item, Section.__setitem__, Item.__init__. py_unfold.
  rewrite Hd. simpl. rewrite Hw. simpl.
  rewrite same_handle_true by done. simpl. by destruct name.
Qed.

(** C7 fails on the code.  [add_item] hands its arguments to [Item] by
    position, where they land one parameter off: called without [data] (or
    with [data=None]) it raises [ValueError] and stores nothing, whatever
    its other arguments; called with [data] on a writable section it stores
    an item whose [image_id] is the argument [data], whose [level] is the
    argument [image_id] and whose [data] is the argument [level]. *)
Theorem add_item_misplaces_arguments (uuid : string)
    (title content image_id level : value) (name : option string) (sec : Section.t) :
  Section.add_item uuid title content image_id level name VNone sec
  = (inl (ValueError "image_id or image must be provided"), sec)
  ∧ ∀ data stored,
      writable (Section._parent sec) = true →
      is_None data = false →
      dict_get (default uuid name)
        (Section._content (Section.add_item uuid title content image_id level name data sec).2)
      = Some stored →
      Item.image_id stored = data ∧ Item.level stored = image_id ∧ Item.data stored = level
      ∧ Item.title stored = title ∧ Item.content stored = content.
Proof.
  split; [reflexivity|]. intros data stored Hw Hd.
  rewrite add_item_with_data_shifts by done. simpl.
  rewrite dict_get_set_eq. by intros [= <-].
Qed.

Lemma add_item_misplaces_arguments_witness :
  ∃ stored,
    dict_get "k2"
      (Section._content
         (Section.add_item "0f1e" (VStr "New") (VStr "Text") (VStr "img2") (VInt 2)
            (Some "k2") (VDict [("author", VStr "me")]) (sample_section handle_rw)).2)
    = Some stored
    ∧ Item.image_id stored = VDict [("author", VStr "me")]
    ∧ Item.level stored = VStr "img2"
    ∧ Item.data stored = VInt 2.
Proof.
  eexists. split; [reflexivity|].
  pose proof (proj2 (add_item_misplaces_arguments "0f1e" (VStr "New") (VStr "Text")
                       (VStr "img2") (VInt 2) (Some "k2") (sample_section handle_rw))
                (VDict [("author", VStr "me")]) _ eq_refl eq_refl eq_refl) as (H1 & H2 & H3 & _).
  exact (conj H1 (conj H2 H3)).
Defined.

(** ** Keys that are present (C9) *)

Lemma Section_setitem_replaces (key : string) (it : Item.t) (sec : Section.t) :
  writable (Section._parent sec) = true →
  hid (Item._parent it) = hid (Section._parent sec) →
  Section.__setitem__ key it sec
  = (inr tt, Section.set_content (dict_set key it (Section._content sec)) sec).
Proof.
  intros Hw Hp. unfold Section.__setitem__. py_unfold.
  rewrite Hw. simpl. by rewrite same_handle_true.
Qed.

Lemma Data_setitem_replaces (key : string) (sec : Section.t) (doc : Data.t) :
  writable (Data._parent doc) = true →
  hid (Section._parent sec) = hid (Data._parent doc) →
  Data.__setitem__ key sec doc
  = (inr tt, Data.set_sections (dict_set key sec (Data._sections doc)) doc).
Proof.
  intros Hw Hp. unfold Data.__setitem__. py_unfold.
  rewrite Hw. simpl. by rewrite same_handle_true.
Qed.

Lemma add_section_replaces (name : string) (type description : value) (doc : Data.t) :
  writable (Data._parent doc) = true →
  Data.add_section name type description doc
  = (inr tt,
     Data.set_sections
       (dict_set name (Section.mk (Data._parent doc) type description [])
          (Data._sections doc)) doc).
Proof.
  intros Hw. unfold Data.add_section. py_unfold. simpl.
  change (Data.__setitem__ name (Section.mk (Data._parent doc) type description []) doc = 
    (inr tt, Data.set_sections (dict_set name (Section.mk (Data._parent doc) type description []) (Data._sections doc)) doc)).
  by apply Data_setitem_replaces.
Qed.

(** A key that is present keeps its place, and its value is the new one. *)
Lemma dict_set_present {V} (k : string) (v : V) (d : dict V) :
  dict_mem k d = true →
  dict_keys (dict_set k v d) = dict_keys d ∧ dict_get k (dict_set k v d) = Some v.
Proof. intros H. split; [by apply dict_keys_set_present | apply dict_get_set_eq]. Qed.

(** [add_file] is where a key that is present is refused. *)
Lemma add_file_rejects_registered_id (uuid path file_id : string)
    (internal_name : option string) (st : BDMFile.state) :
  is_Some (BDMFile.files st !! path) →
  dict_mem file_id (Info.files (BDMFile.info (BDMFile.self st))) = true →
  BDMFile.add_file uuid path file_id internal_name st = (inl (FileExistsError file_id), st).
Proof.
  intros Hp Hm. unfold BDMFile.add_file, BDMFile.Path_exists. py_unfold.
  rewrite bool_decide_eq_true_2 by done. simpl. by rewrite Hm.
Qed.


(** ** The permission gate (C6) *)

Lemma read_only_flags (h : Handle) : mode h = "r" → readable h = true ∧ writable h = false.
Proof. unfold readable, writable. by intros ->. Qed.

(** C6 fails on the code as stated: [add_file] looks for its source before
    it looks at the handle, and on a read-only handle a source that does not
    exist is answered with [FileNotFoundError], not [UnsupportedOperation]. *)
Lemma read_only_add_file_missing_source :
  mode handle_r = "r"
  ∧ BDMFile.add_file "0f1e" "missing.png" "img1" None (sample_state handle_r ∅)
    = (inl (FileNotFoundError "missing.png"), sample_state handle_r ∅)
  ∧ ¬ ∃ msg st',
        BDMFile.add_file "0f1e" "missing.png" "img1" None (sample_state handle_r ∅)
        = (inl (UnsupportedOperation msg), st').
Proof.
  split; [reflexivity|]. split; [reflexivity|].
  intros (msg & st' & H). discriminate H.
Qed.

(** C6, amended: on a read-only handle every mutating operation raises and
    changes nothing.  The error is [UnsupportedOperation] for
    [add_section], [add_data], [remove_data] and [write_file] whatever the
    arguments; for [remove_item] when the key is present ([ValueError]
    otherwise); for [add_file] when the source exists and the id is not
    registered ([FileNotFoundError], then [FileExistsError], otherwise); for
    [add_item] when the item can be built (the error of [Item.__init__]
    otherwise). *)
Theorem read_only_rejects_mutation (h : Handle) :
  mode h = "r" →
  (∀ doc name type description, Data._parent doc = h →
     Data.add_section name type description doc
     = (inl (UnsupportedOperation "Not writable"), doc))
  ∧ (∀ it name v, Item._parent it = h →
     Item.add_data name v it = (inl (UnsupportedOperation "Not writable"), it))
  ∧ (∀ it name, Item._parent it = h →
     Item.remove_data name it = (inl (UnsupportedOperation "Not writable"), it))
  ∧ (∀ st file_id c, BDMFile.this (BDMFile.self st) = h →
     BDMFile.write_file file_id c st = (inl (UnsupportedOperation "Not writable"), st))
  ∧ (∀ sec name, Section._parent sec = h →
     Section.remove_item name sec
     = (inl (if dict_mem name (Section._content sec)
             then UnsupportedOperation "Not writable"
             else ValueError ("Item with name '" ++ name ++ "' do not exist")), sec))
  ∧ (∀ st uuid path file_id internal_name, BDMFile.this (BDMFile.self st) = h →
     BDMFile.add_file uuid path file_id internal_name st
     = (inl (if negb (bool_decide (is_Some (BDMFile.files st !! path)))
             then FileNotFoundError path
             else if dict_mem file_id (Info.files (BDMFile.info (BDMFile.self st)))
             then FileExistsError file_id
             else UnsupportedOperation "Not writable"), st))
  ∧ (∀ sec uuid title content image_id level name data, Section._parent sec = h →
     Section.add_item uuid title content image_id level name data sec
     = (inl (match Item.__init__ h title content image_id level data VNone with
             | inl e => e
             | inr _ => UnsupportedOperation "Not writable"
             end), sec)).
Proof.
  intros Hm. destruct (read_only_flags h Hm) as [Hr Hw].
  repeat split.
  - intros doc name type description <-.
    unfold Data.add_section, Data.__setitem__. py_unfold. simpl. by rewrite Hw.
  - intros it name v <-. unfold Item.add_data. py_unfold. by rewrite Hw.
  - intros it name <-. unfold Item.remove_data. py_unfold. by rewrite Hw.
  - intros st file_id c <-. unfold BDMFile.write_file. py_unfold. by rewrite Hw.
  - intros sec name <-.
    unfold Section.remove_item, Section.__contains__, Section.__delitem__. py_unfold.
    rewrite Hr. simpl. destruct (dict_mem name (Section._content sec)); simpl; [|done].
    by rewrite Hw.
  - intros st uuid p file_id internal_name <-.
    unfold BDMFile.add_file, BDMFile.Path_exists. py_unfold.
    destruct (bool_decide (is_Some (BDMFile.files st !! p))); simpl; [|done].
    destruct (dict_mem file_id _); simpl; [done|]. by rewrite Hw.
  - intros sec uuid title content image_id level name data <-.
    unfold Section.add_item, Section.__setitem__. py_unfold.
    destruct (Item.__init__ _ _ _ _ _ _ _) as [e|it]; simpl; [done|]. by rewrite Hw.
Qed.

Lemma read_only_rejects_mutation_witness :
  Data.add_section "s2" (VStr "notes") (VStr "More") (sample_data handle_r)
  = (inl (UnsupportedOperation "Not writable"), sample_data handle_r).
Proof.
  apply (proj1 (read_only_rejects_mutation handle_r eq_refl)). reflexivity.
Defined.

(** ** Reading a resource (C8) *)

(** What [write_file] has written is what [read_file] returns. *)
Lemma write_file_then_read_file (st st' : BDMFile.state) (file_id : string) (c : content) :
  mode (BDMFile.this (BDMFile.self st)) = "r+" →
  BDMFile.write_file file_id c st = (inr tt, st') →
  BDMFile.read_file file_id st' = (inr c, st').
Proof.
  intros Hm. unfold BDMFile.write_file, BDMFile.write_bytes, writable, dict_getitem.
  py_unfold. rewrite Hm. simpl.
  destruct (dict_get file_id _) as [name|] eqn:Hn; simpl; [|done].
  destruct (bool_decide (_ ∈ BDMFile.dirs st)); [done|].
  destruct (_ || _); [|done]. intros [= <-].
  unfold BDMFile.read_file, BDMFile.read_bytes, dict_getitem. py_unfold. simpl.
  rewrite Hm, Hn. simpl. by rewrite lookup_insert_eq.
Qed.

(** C8: in read-write mode [read_file] returns the staged copy of a
    registered resource, which is what [write_file] has written last; in
    pure-read mode it returns the entry of the container at the path of the
    handle; on a handle that is not readable it raises
    [UnsupportedOperation]; on a readable handle an id that is not
    registered raises an error of the not-found kind, the [KeyError] of the
    index. *)
Theorem read_file_by_mode (st : BDMFile.state) (file_id : string) :
  let h := BDMFile.this (BDMFile.self st) in
  let registry := Info.files (BDMFile.info (BDMFile.self st)) in
  (mode h = "r+" →
     (∀ name c,
        dict_get file_id registry = Some name →
        BDMFile.files st !! path_join (BDMFile._internal_files_dir (BDMFile.self st)) name
        = Some c →
        BDMFile.read_file file_id st = (inr c, st))
     ∧ (∀ c st',
        BDMFile.write_file file_id c st = (inr tt, st') →
        BDMFile.read_file file_id st' = (inr c, st')))
  ∧ (mode h ≠ "r+" → readable h = true →
     ∀ entries name c,
       BDMFile.files st !! path h = Some (Zip true entries) →
       dict_get file_id registry = Some name →
       zip_entry ("files/" ++ name) entries = Some c →
       BDMFile.read_file file_id st = (inr c, st))
  ∧ (readable h = false →
     BDMFile.read_file file_id st = (inl (UnsupportedOperation "Not readable"), st))
  ∧ (readable h = true →
     dict_get file_id registry = None →
     (mode h = "r+" ∨ ∃ entries, BDMFile.files st !! path h = Some (Zip true entries)) →
     BDMFile.read_file file_id st = (inl (KeyError file_id), st)
     ∧ is_NotFound (KeyError file_id)).
Proof.
  intros h registry. subst h registry. split; [|split; [|split]].
  - intros Hm. split.
    + intros name c Hn Hc.
      unfold BDMFile.read_file, BDMFile.read_bytes, dict_getitem. py_unfold.
      rewrite Hm, Hn. simpl. by rewrite Hc.
    + intros c st' Hw. by apply (write_file_then_read_file st).
  - intros Hm Hr entries name c Hz Hn Hc. apply eqb_false in Hm.
    unfold BDMFile.read_file, BDMFile.ZipFile_r, BDMFile.zip_read, BDMFile.self_path,
      dict_getitem.
    py_unfold. rewrite Hm, Hr, Hz, Hn. simpl. by rewrite Hc.
  - intros Hr. unfold BDMFile.read_file. py_unfold.
    destruct (String.eqb _ "r+") eqn:E.
    + apply eqb_true in E. unfold readable in Hr. rewrite E in Hr. done.
    + by rewrite Hr.
  - intros Hr Hn Hopen. split; [|left; by eexists].
    unfold BDMFile.read_file, BDMFile.ZipFile_r, BDMFile.self_path, dict_getitem.
    py_unfold. destruct (String.eqb _ "r+") eqn:E.
    + by rewrite Hn.
    + destruct Hopen as [Hm|[entries Hz]].
      * apply eqb_true in Hm. congruence.
      * by rewrite Hr, Hz, Hn.
Qed.

Lemma read_file_by_mode_witness :
  BDMFile.read_file "img1" (saving_state disk_staged)
  = (inr (Raw [Byte.x89; Byte.x50]), saving_state disk_staged)
  ∧ BDMFile.read_file "img1"
      (BDMFile.write_file "img1" (Raw [Byte.x47]) (saving_state disk_staged)).2
    = (inr (Raw [Byte.x47]),
       (BDMFile.write_file "img1" (Raw [Byte.x47]) (saving_state disk_staged)).2)
  ∧ BDMFile.read_file "img2" (saving_state disk_staged)
    = (inl (KeyError "img2"), saving_state disk_staged)
  ∧ BDMFile.read_file "img1" (sample_state handle_w ∅)
    = (inl (UnsupportedOperation "Not readable"), sample_state handle_w ∅).
Proof.
  pose proof (read_file_by_mode (saving_state disk_staged) "img1") as (Hrw & _).
  pose proof (read_file_by_mode (saving_state disk_staged) "img2") as (_ & _ & _ & Hnf).
  pose proof (read_file_by_mode (sample_state handle_w ∅) "img1") as (_ & _ & Hw & _).
  split; [|split; [|split]].
  - apply (proj1 (Hrw eq_refl) "x.png" (Raw [Byte.x89; Byte.x50])); reflexivity.
  - apply (proj2 (Hrw eq_refl)). vm_compute. reflexivity.
  - apply Hnf; [reflexivity | reflexivity | by left].
  - apply Hw. reflexivity.
Defined.

(** ** The version gate (C4) *)

Lemma no_VersionError_ret {A} (a : A) : no_VersionError (mret a : result A).
Proof. intros ? ? ? H. discriminate H. Qed.

Lemma no_VersionError_bind {A B} (m : result A) (k : A → result B) :
  no_VersionError m → (∀ a, no_VersionError (k a)) → no_VersionError (m ≫= k).
Proof.
  intros Hm Hk. unfold mbind, result_bind. destruct m as [e|a]; [|apply Hk].
  intros s f p [= H]. by apply (Hm s f p); rewrite H.
Qed.

Lemma no_VersionError_throw {A} (e : exn) :
  (∀ s f p, e ≠ VersionError s f p) → no_VersionError (throw e : result A).
Proof. intros He s f p [= H]. by apply (He s f p). Qed.

Ltac no_version_error :=
  repeat first
    [ apply no_VersionError_ret
    | apply no_VersionError_throw; discriminate
    | apply no_VersionError_bind; [|intros ?]
    | progress simpl
    | match goal with
      | |- no_VersionError (match ?x with _ => _ end) => destruct x
      | |- no_VersionError (if ?x then _ else _) => destruct x
      end ].

Lemma no_VersionError_getitem (obj : value) (k : string) :
  no_VersionError (py_getitem obj k).
Proof. unfold py_getitem, dict_getitem. no_version_error. Qed.

Lemma no_VersionError_delitem (obj : value) (k : string) :
  no_VersionError (py_delitem obj k).
Proof.
  unfold py_delitem, dict_delitem.
  destruct obj; try (apply no_VersionError_throw; discriminate).
  destruct (dict_mem k kvs); intros ? ? ? H; discriminate H.
Qed.

Lemma no_VersionError_iter (obj : value) : no_VersionError (py_iter obj).
Proof. unfold py_iter. no_version_error. Qed.

Lemma no_VersionError_fold {A B} (f : B → A → result B) (xs : list A) (acc : B) :
  (∀ b a, no_VersionError (f b a)) → no_VersionError (fold_result f xs acc).
Proof.
  intros Hf. revert acc. induction xs as [|x xs IH]; intros acc; simpl.
  - apply no_VersionError_ret.
  - apply no_VersionError_bind; [apply Hf | apply IH].
Qed.

Lemma no_VersionError_build {B} (f : value → result B) (obj : value) :
  (∀ x, no_VersionError (f x)) → no_VersionError (dict_build f obj).
Proof.
  intros Hf. unfold dict_build.
  apply no_VersionError_bind; [apply no_VersionError_iter|]. intros keys.
  apply no_VersionError_fold. intros out k.
  apply no_VersionError_bind; [apply no_VersionError_getitem|]. intros x.
  apply no_VersionError_bind; [apply Hf|]. intros y. apply no_VersionError_ret.
Qed.

Lemma no_VersionError_kwargs (kw : value) (params : list string) :
  no_VersionError (kwargs_of kw params).
Proof. unfold kwargs_of. no_version_error. Qed.

Lemma no_VersionError_required (k : string) (kw : dict value) :
  no_VersionError (required k kw).
Proof. unfold required. no_version_error. Qed.

Lemma no_VersionError_Item (parent : Handle) (item : value) :
  no_VersionError (Item.of_kwargs parent item).
Proof.
  unfold Item.of_kwargs, Item.__init__.
  apply no_VersionError_bind; [apply no_VersionError_kwargs|]. intros kw.
  repeat (apply no_VersionError_bind; [apply no_VersionError_required|]; intros ?).
  no_version_error.
Qed.

Lemma no_VersionError_Section (parent : Handle) (section : value) :
  no_VersionError (Section.of_kwargs parent section).
Proof.
  unfold Section.of_kwargs, Section.__init__.
  apply no_VersionError_bind; [apply no_VersionError_kwargs|]. intros kw.
  repeat (apply no_VersionError_bind; [apply no_VersionError_required|]; intros ?).
  apply no_VersionError_bind;
    [apply no_VersionError_build, no_VersionError_Item|].
  intros ?. apply no_VersionError_ret.
Qed.

Lemma no_VersionError_Data (parent : Handle) (sections : value) :
  no_VersionError (Data.__init__ parent sections).
Proof.
  unfold Data.__init__.
  apply no_VersionError_bind;
    [apply no_VersionError_build, no_VersionError_Section|].
  intros ?. apply no_VersionError_ret.
Qed.

Lemma no_VersionError_Info (parent : Handle) (name files : value) :
  no_VersionError (Info.__init__ parent name files).
Proof.
  unfold Info.__init__.
  apply no_VersionError_bind; [apply no_VersionError_build|].
  - intros x. unfold Info.Path. no_version_error.
  - intros ?. apply no_VersionError_ret.
Qed.

(** C4: a document or resource-index payload whose version tag is an
    integer above [VERSION] is refused with [VersionError], which carries
    [VERSION] and the version found; with a tag at or below [VERSION] the
    import is that of the rest of the payload, and raises no
    [VersionError]. *)
Theorem version_gate `{Pickle} (payload : bytes) (parent : Handle)
    (kvs : dict value) (found : Z) :
  pickle_loads payload = inr (VDict kvs) →
  dict_get "version" kvs = Some (VInt found) →
  ((VERSION < found)%Z →
     Data.import_data payload parent = inl (VersionError VERSION found (path parent))
     ∧ Info.import_data payload parent = inl (VersionError VERSION found (path parent)))
  ∧ ((found ≤ VERSION)%Z →
     Data.import_data payload parent
     = (sections ← py_getitem (VDict (dict_del "version" kvs)) "sections";
        Data.__init__ parent sections)
     ∧ Info.import_data payload parent
     = (name ← py_getitem (VDict (dict_del "version" kvs)) "name";
        files ← py_getitem (VDict (dict_del "version" kvs)) "files";
        Info.__init__ parent name files)
     ∧ no_VersionError (Data.import_data payload parent)
     ∧ no_VersionError (Info.import_data payload parent)).
Proof.
  intros Hload Hv.
  assert (Hm : dict_mem "version" kvs = true) by (unfold dict_mem; by rewrite Hv).
  unfold Data.import_data, Info.import_data, Data.import_value, Info.import_value.
  rewrite Hload. simpl. unfold dict_getitem. rewrite Hv. simpl.
  unfold dict_delitem. rewrite Hm. simpl.
  split.
  - intros Hlt. apply Z.ltb_lt in Hlt. by rewrite Hlt.
  - intros Hle. apply Z.ltb_ge in Hle. rewrite Hle. simpl.
    split; [done|]. split; [done|]. split.
    + apply no_VersionError_bind; [apply (no_VersionError_getitem (VDict _))|].
      intros ?. apply no_VersionError_Data.
    + apply no_VersionError_bind; [apply (no_VersionError_getitem (VDict _))|].
      intros ?.
      apply no_VersionError_bind; [apply (no_VersionError_getitem (VDict _))|].
      intros ?. apply no_VersionError_Info.
Qed.

(** ** Trees built through the constructors and methods are well formed *)

Lemma Item_init_wf (parent : Handle) (title content level data image_id image : value)
    (it : Item.t) :
  Item.__init__ parent title content level data image_id image = inr it → Item_wf it.
Proof.
  unfold Item.__init__, Item_wf.
  destruct image_id; destruct image; simpl; intros [= <-]; done.
Qed.

Lemma Item_of_kwargs_wf (parent : Handle) (item : value) (it : Item.t) :
  Item.of_kwargs parent item = inr it → Item_wf it.
Proof.
  unfold Item.of_kwargs. py_unfold.
  destruct (kwargs_of item _) as [e|kw]; [done|].
  destruct (required "title" kw) as [e|?]; [done|].
  destruct (required "content" kw) as [e|?]; [done|].
  destruct (required "level" kw) as [e|?]; [done|].
  apply Item_init_wf.
Qed.

Lemma Item_add_data_wf (name : string) (v : value) (it it' : Item.t) (r : result unit) :
  Item_wf it → Item.add_data name v it = (r, it') → Item_wf it'.
Proof.
  unfold Item_wf, Item.add_data. py_unfold. destruct it as [p ti co im le da]. simpl.
  intros Him. destruct (writable p); simpl; [|by intros [= _ <-]].
  destruct da; simpl; by intros [= _ <-].
Qed.

Lemma Item_remove_data_wf (name : string) (it it' : Item.t) (r : result unit) :
  Item_wf it → Item.remove_data name it = (r, it') → Item_wf it'.
Proof.
  unfold Item_wf, Item.remove_data. py_unfold. destruct it as [p ti co im le da]. simpl.
  intros Him. destruct (writable p); simpl; [|by intros [= _ <-]].
  destruct da as [| |s|d]; simpl; try by intros [= _ <-].
  - destruct (str_in name s); simpl; by intros [= _ <-].
  - destruct (dict_mem name d) eqn:Hm; simpl; [|by intros [= _ <-]].
    unfold dict_delitem. rewrite Hm. simpl.
    destruct (dict_del name d); simpl; by intros [= _ <-].
Qed.

Lemma dict_set_Forall {V} (P : V → Prop) (k : string) (v : V) (d : dict V) :
  P v → Forall (λ kv, P kv.2) d → Forall (λ kv, P kv.2) (dict_set k v d).
Proof.
  intros Hv. induction d as [|[k' v'] d IH]; simpl; intros Hd.
  - by apply Forall_singleton.
  - apply Forall_cons in Hd as [Hv' Hd].
    destruct (String.eqb k k'); apply Forall_cons; auto.
Qed.

Lemma dict_del_keys {V} (k : string) (d : dict V) :
  dict_keys (dict_del k d) `sublist_of` dict_keys d.
Proof.
  induction d as [|[k' v'] d IH]; simpl; [done|].
  destruct (String.eqb k k'); simpl.
  - by apply sublist_cons.
  - by apply sublist_skip.
Qed.

Lemma dict_del_Forall {V} (P : V → Prop) (k : string) (d : dict V) :
  Forall (λ kv, P kv.2) d → Forall (λ kv, P kv.2) (dict_del k d).
Proof.
  induction d as [|[k' v'] d IH]; simpl; intros Hd; [done|].
  apply Forall_cons in Hd as [Hv' Hd].
  destruct (String.eqb k k'); [done|]. apply Forall_cons; auto.
Qed.

Lemma Section_setitem_wf (key : string) (it : Item.t) (sec sec' : Section.t)
    (r : result unit) :
  Section_wf sec → Item_wf it → Section.__setitem__ key it sec = (r, sec') →
  Section_wf sec'.
Proof.
  intros [Hnd Hit] Hi. unfold Section.__setitem__. py_unfold.
  destruct (writable _); simpl; [|by intros [= _ <-]].
  destruct (same_handle _ _); simpl; intros [= _ <-]; [|done].
  split; simpl; [by apply dict_keys_set_NoDup | by apply dict_set_Forall].
Qed.

Lemma Section_add_item_wf (uuid : string) (title content image_id level data : value)
    (name : option string) (sec sec' : Section.t) (r : result unit) :
  Section_wf sec →
  Section.add_item uuid title content image_id level name data sec = (r, sec') →
  Section_wf sec'.
Proof.
  intros Hwf. unfold Section.add_item. unfold mbind at 1 2, py_bind at 1 2, get, lift.
  destruct (Item.__init__ _ _ _ _ _ _ _) as [e|it] eqn:Hinit; [by intros [= _ <-]|].
  apply Section_setitem_wf; [done|]. by eapply Item_init_wf.
Qed.

Lemma Section_delitem_wf (key : string) (sec sec' : Section.t) (r : result unit) :
  Section_wf sec → Section.__delitem__ key sec = (r, sec') → Section_wf sec'.
Proof.
  intros [Hnd Hit]. unfold Section.__delitem__, dict_delitem. py_unfold.
  destruct (writable _); simpl; [|by intros [= _ <-]].
  destruct (dict_mem key _); simpl; intros [= _ <-]; [|done].
  split; simpl; [|by apply dict_del_Forall].
  eapply sublist_NoDup; [done | apply dict_del_keys].
Qed.

Lemma dict_build_wf {B} (P : B → Prop) (f : value → result B) (obj : value) (d : dict B) :
  (∀ x y, f x = inr y → P y) →
  dict_build f obj = inr d →
  NoDup (dict_keys d) ∧ Forall (λ kv, P kv.2) d.
Proof.
  intros Hf. unfold dict_build. py_unfold.
  destruct (py_iter obj) as [e|keys]; [done|].
  assert (Hgen : ∀ acc,
    NoDup (dict_keys acc) ∧ Forall (λ kv, P kv.2) acc →
    fold_result
      (λ out k,
         match py_getitem obj k with
         | inl e => inl e
         | inr x => match f x with inl e => inl e | inr y => inr (dict_set k y out) end
         end) keys acc = inr d →
    NoDup (dict_keys d) ∧ Forall (λ kv, P kv.2) d).
  { induction keys as [|k keys IH]; intros acc Hacc; simpl.
    - by intros [= <-].
    - py_unfold. destruct (py_getitem obj k) as [e|x]; [done|].
      destruct (f x) as [e|y] eqn:Hy; [done|].
      apply IH. destruct Hacc as [Hnd Hall].
      split; [by apply dict_keys_set_NoDup | apply dict_set_Forall; eauto]. }
  apply Hgen. split; [apply NoDup_nil_2 | apply Forall_nil_2].
Qed.

Lemma Section_of_kwargs_wf (parent : Handle) (section : value) (sec : Section.t) :
  Section.of_kwargs parent section = inr sec → Section_wf sec.
Proof.
  unfold Section.of_kwargs, Section.__init__. py_unfold.
  destruct (kwargs_of section _) as [e|kw]; [done|].
  destruct (required "type" kw) as [e|?]; [done|].
  destruct (required "description" kw) as [e|?]; [done|].
  destruct (required "content" kw) as [e|c]; [done|].
  destruct (dict_build (Item.of_kwargs parent) c) as [e|items] eqn:Hb; [done|].
  intros [= <-]. apply (dict_build_wf Item_wf) in Hb; [done|].
  intros x y. apply Item_of_kwargs_wf.
Qed.

(** What [import_data] returns is well formed. *)
Lemma Data_init_wf (parent : Handle) (sections : value) (doc : Data.t) :
  Data.__init__ parent sections = inr doc → Data_wf doc.
Proof.
  unfold Data.__init__. py_unfold.
  destruct (dict_build (Section.of_kwargs parent) sections) as [e|secs] eqn:Hb; [done|].
  intros [= <-]. apply (dict_build_wf Section_wf) in Hb; [done|].
  intros x y. apply Section_of_kwargs_wf.
Qed.

Lemma Data_setitem_wf (key : string) (sec : Section.t) (doc doc' : Data.t)
    (r : result unit) :
  Data_wf doc → Section_wf sec → Data.__setitem__ key sec doc = (r, doc') →
  Data_wf doc'.
Proof.
  intros [Hnd Hsec] Hs. unfold Data.__setitem__. py_unfold.
  destruct (writable _); simpl; [|by intros [= _ <-]].
  destruct (same_handle _ _); simpl; intros [= _ <-]; [|done].
  split; simpl; [by apply dict_keys_set_NoDup | by apply dict_set_Forall].
Qed.

Lemma Data_add_section_wf (name : string) (type description : value)
    (doc doc' : Data.t) (r : result unit) :
  Data_wf doc → Data.add_section name type description doc = (r, doc') → Data_wf doc'.
Proof.
  intros Hwf. unfold Data.add_section. py_unfold. simpl.
  apply (Data_setitem_wf name (Section.mk (Data._parent doc) type description []));
    [done|]. split; [apply NoDup_nil_2 | apply Forall_nil_2].
Qed.

Lemma Data_delitem_wf (key : string) (doc doc' : Data.t) (r : result unit) :
  Data_wf doc → Data.__delitem__ key doc = (r, doc') → Data_wf doc'.
Proof.
  intros [Hnd Hsec]. unfold Data.__delitem__, dict_delitem. py_unfold.
  destruct (writable _); simpl; [|by intros [= _ <-]].
  destruct (dict_mem key _); simpl; intros [= _ <-]; [|done].
  split; simpl; [|by apply dict_del_Forall].
  eapply sublist_NoDup; [done | apply dict_del_keys].
Qed.

Lemma dict_set_wf {V} (P : V → Prop) (k : string) (v : V) (d : dict V) :
  P v → NoDup (dict_keys d) ∧ Forall (λ kv, P kv.2) d →
  NoDup (dict_keys (dict_set k v d)) ∧ Forall (λ kv, P kv.2) (dict_set k v d).
Proof.
  intros Hv [Hnd Hall]. split; [by apply dict_keys_set_NoDup | by apply dict_set_Forall].
Qed.

Lemma dict_get_Forall {V} (P : V → Prop) (k : string) (v : V) (d : dict V) :
  Forall (λ kv, P kv.2) d → dict_get k d = Some v → P v.
Proof.
  induction d as [|[k' v'] d IH]; simpl; [done|]. intros Hd.
  apply Forall_cons in Hd as [Hv' Hd].
  destruct (String.eqb k k'); [by intros [= <-] | auto].
Qed.

Lemma run_item_call_wf (c : item_call) (it it' : Item.t) (r : result unit) :
  Item_wf it → run_item_call c it = (r, it') → Item_wf it'.
Proof. destruct c; simpl; eauto using Item_add_data_wf, Item_remove_data_wf. Qed.

Lemma Section_init_wf (parent : Handle) (type description content : value)
    (sec : Section.t) :
  Section.__init__ parent type description content = inr sec → Section_wf sec.
Proof.
  unfold Section.__init__. py_unfold.
  destruct (dict_build (Item.of_kwargs parent) content) as [e|items] eqn:Hb; [done|].
  intros [= <-]. apply (dict_build_wf Item_wf) in Hb; [done|].
  intros x y. apply Item_of_kwargs_wf.
Qed.

Lemma Section_remove_item_wf (name : string) (sec sec' : Section.t) (r : result unit) :
  Section_wf sec → Section.remove_item name sec = (r, sec') → Section_wf sec'.
Proof.
  intros Hwf. unfold Section.remove_item, Section.__contains__.
  unfold mbind at 1 2, py_bind at 1 2, get.
  destruct (readable _); simpl; [|by intros [= _ <-]].
  destruct (dict_mem name _); simpl; [|by intros [= _ <-]].
  by apply Section_delitem_wf.
Qed.

Lemma Section_on_item_wf (key : string) (c : item_call) (sec sec' : Section.t)
    (r : result unit) :
  Section_wf sec → Section_on_item key (run_item_call c) sec = (r, sec') →
  Section_wf sec'.
Proof.
  intros [Hnd Hit]. unfold Section_on_item, Section.__getitem__, dict_getitem.
  py_unfold. destruct (readable _); simpl; [|by intros [= _ <-]].
  destruct (dict_get key (Section._content sec)) as [it|] eqn:Hget; [|by intros [= _ <-]].
  destruct (run_item_call c it) as [r' it'] eqn:Hrun. intros [= _ <-].
  apply (dict_set_wf Item_wf); [|done].
  eapply run_item_call_wf; [|exact Hrun]. by eapply dict_get_Forall.
Qed.

Lemma run_section_call_wf (c : section_call) (sec sec' : Section.t) (r : result unit) :
  Section_wf sec → run_section_call c sec = (r, sec') → Section_wf sec'.
Proof.
  intros Hwf. destruct c; simpl.
  - by apply Section_add_item_wf.
  - by apply Section_remove_item_wf.
  - unfold mbind, py_bind, lift.
    destruct (new_Item item) as [e|it] eqn:Hnew; [by intros [= _ <-]|].
    apply Section_setitem_wf; [done|]. by eapply Item_init_wf.
  - by apply Section_delitem_wf.
  - by apply Section_on_item_wf.
Qed.

Lemma Data_on_section_wf (key : string) (c : section_call) (doc doc' : Data.t)
    (r : result unit) :
  Data_wf doc → Data_on_section key (run_section_call c) doc = (r, doc') → Data_wf doc'.
Proof.
  intros [Hnd Hsec]. unfold Data_on_section, Data.__getitem__, dict_getitem.
  py_unfold. destruct (readable _); simpl; [|by intros [= _ <-]].
  destruct (dict_get key (Data._sections doc)) as [sec|] eqn:Hget; [|by intros [= _ <-]].
  destruct (run_section_call c sec) as [r' sec'] eqn:Hrun. intros [= _ <-].
  apply (dict_set_wf Section_wf); [|done].
  eapply run_section_call_wf; [|exact Hrun]. by eapply dict_get_Forall.
Qed.

Lemma run_data_call_wf (c : data_call) (doc doc' : Data.t) (r : result unit) :
  Data_wf doc → run_data_call c doc = (r, doc') → Data_wf doc'.
Proof.
  intros Hwf. destruct c; simpl.
  - by apply Data_add_section_wf.
  - unfold mbind, py_bind, lift.
    destruct (Section.__init__ _ _ _ _) as [e|sec] eqn:Hnew; [by intros [= _ <-]|].
    apply Data_setitem_wf; [done|]. by eapply Section_init_wf.
  - by apply Data_delitem_wf.
  - by apply Data_on_section_wf.
Qed.

(** Whatever the calls, the document they leave is well formed. *)
Lemma after_calls_wf (calls : list data_call) (doc : Data.t) :
  Data_wf doc → Data_wf (after_calls calls doc).
Proof.
  unfold after_calls. revert doc. induction calls as [|c calls IH]; intros doc Hwf; simpl.
  - done.
  - apply IH. destruct (run_data_call c doc) as [r doc'] eqn:Hrun.
    by eapply run_data_call_wf.
Qed.

Lemma new_Data_wf (parent : Handle) : Data_wf (new_Data parent).
Proof. split; [apply NoDup_nil_2 | apply Forall_nil_2]. Qed.

(** ** Export and import (C3) *)

Section loops.
Context {A B : Type}.

Lemma dict_get_app_absent (k : string) (d1 d2 : dict A) :
  k ∉ dict_keys d1 → dict_get k (d1 ++ d2)%list = dict_get k d2.
Proof.
  induction d1 as [|[k' v'] d1 IH]; simpl; [done|].
  rewrite not_elem_of_cons. intros [Hne Hd].
  apply eqb_false in Hne. rewrite Hne. auto.
Qed.

Lemma dict_keys_map (f : A → B) (d : dict A) :
  dict_keys (map (λ kv, (kv.1, f kv.2)) d) = dict_keys d.
Proof. unfold dict_keys. rewrite map_map. done. Qed.

Lemma dict_map_items_from (f : A → B) (d1 d2 : dict A) :
  NoDup (dict_keys (d1 ++ d2)%list) →
  fold_left
    (λ out k,
       match dict_get k (d1 ++ d2)%list with
       | Some x => dict_set k (f x) out
       | None => out
       end)
    (dict_keys d2) (map (λ kv, (kv.1, f kv.2)) d1)
  = map (λ kv, (kv.1, f kv.2)) (d1 ++ d2)%list.
Proof.
  revert d1. induction d2 as [|[k x] d2 IH]; intros d1 Hnd; simpl.
  - by rewrite app_nil_r.
  - assert (Hk : k ∉ dict_keys d1).
    { unfold dict_keys in *. rewrite map_app in Hnd. apply NoDup_app in Hnd.
      destruct Hnd as (_ & Hdisj & _). intros Hin. apply (Hdisj k Hin). simpl. left. }
    rewrite dict_get_app_absent by done. simpl. rewrite String.eqb_refl.
    rewrite dict_set_absent by (by rewrite dict_keys_map).
    replace (d1 ++ (k, x) :: d2)%list with ((d1 ++ [(k, x)]) ++ d2)%list in *
      by (by rewrite <- app_assoc).
    rewrite <- (IH (d1 ++ [(k, x)])%list Hnd). by rewrite map_app.
Qed.

(** Over a [dict], the loop [for k in d: out[k] = f(d[k])] maps [f] over the
    values, keys and order kept. *)
Lemma dict_map_items_map (f : A → B) (d : dict A) :
  NoDup (dict_keys d) → dict_map_items f d = map (λ kv, (kv.1, f kv.2)) d.
Proof. intros Hnd. apply (dict_map_items_from f [] d Hnd). Qed.

End loops.

Lemma fold_result_step {A B} (f : B → A → result B) (x : A) (xs : list A) (acc acc' : B) :
  f acc x = inr acc' → fold_result f (x :: xs) acc = fold_result f xs acc'.
Proof. simpl. by intros ->. Qed.

Lemma dict_build_from {A B} (f : A → value) (g : value → result B) (h : A → B)
    (d1 d2 : dict A) :
  NoDup (dict_keys (d1 ++ d2)%list) →
  Forall (λ kv, g (f kv.2) = inr (h kv.2)) d2 →
  fold_result
    (λ out k,
       x ← py_getitem (VDict (map (λ kv, (kv.1, f kv.2)) (d1 ++ d2)%list)) k;
       y ← g x;
       mret (dict_set k y out))
    (dict_keys d2) (map (λ kv, (kv.1, h kv.2)) d1)
  = inr (map (λ kv, (kv.1, h kv.2)) (d1 ++ d2)%list).
Proof.
  revert d1. induction d2 as [|[k x] d2 IH]; intros d1 Hnd Hg.
  - simpl. by rewrite app_nil_r.
  - assert (Hk : k ∉ dict_keys d1).
    { unfold dict_keys in *. rewrite map_app in Hnd. apply NoDup_app in Hnd.
      destruct Hnd as (_ & Hdisj & _). intros Hin. apply (Hdisj k Hin). simpl. left. }
    apply Forall_cons in Hg. destruct Hg as [Hx Hg]. simpl in Hx.
    assert (Hget : dict_get k (map (λ kv, (kv.1, f kv.2)) (d1 ++ (k, x) :: d2)%list)
                   = Some (f x)).
    { rewrite map_app. rewrite dict_get_app_absent by (by rewrite dict_keys_map).
      simpl. by rewrite String.eqb_refl. }
    specialize (IH (d1 ++ [(k, x)])%list).
    rewrite <- app_assoc in IH. simpl in IH.
    change (dict_keys ((k, x) :: d2)) with (k :: dict_keys d2).
    rewrite (fold_result_step _ _ _ _ (map (λ kv, (kv.1, h kv.2)) (d1 ++ [(k, x)])%list)).
    + by apply IH.
    + cbv beta. unfold py_getitem, dict_getitem. rewrite Hget. simpl. rewrite Hx. simpl.
      rewrite dict_set_absent by (by rewrite dict_keys_map). by rewrite map_app.
Qed.

(** Over the [dict] that [for k in d: out[k] = f(d[k])] has built, the loop
    [for k in d: out[k] = g(d[k])] maps [h] over the values of [d] when [g]
    undoes [f] up to [h]. *)
Lemma dict_build_map {A B} (f : A → value) (g : value → result B) (h : A → B)
    (d : dict A) :
  NoDup (dict_keys d) →
  Forall (λ kv, g (f kv.2) = inr (h kv.2)) d →
  dict_build g (VDict (map (λ kv, (kv.1, f kv.2)) d))
  = inr (map (λ kv, (kv.1, h kv.2)) d).
Proof.
  intros Hnd Hg. unfold dict_build. simpl. rewrite dict_keys_map.
  apply (dict_build_from f g h [] d Hnd Hg).
Qed.

Lemma Item_round_trip (parent : Handle) (it : Item.t) :
  Item_wf it → Item.of_kwargs parent (Item.to_dict it) = inr (Item_adopt parent it).
Proof.
  unfold Item_wf. destruct it as [p ti co im le da]. simpl. intros Him.
  unfold Item.to_dict, Item.of_kwargs, Item.__init__, Item_adopt. simpl.
  destruct da; destruct im; try done.
Qed.

Lemma Section_round_trip (parent : Handle) (sec : Section.t) :
  Section_wf sec →
  Section.of_kwargs parent (Section.to_dict sec) = inr (Section_adopt parent sec).
Proof.
  intros [Hnd Hit]. unfold Section.to_dict, Section.of_kwargs, Section.__init__.
  rewrite dict_map_items_map by done. simpl.
  rewrite (dict_build_map Item.to_dict (Item.of_kwargs parent) (Item_adopt parent)); [done|done|].
  eapply Forall_impl; [exact Hit|]. intros [k it]. simpl. apply Item_round_trip.
Qed.

Lemma Data_round_trip (parent : Handle) (doc : Data.t) :
  Data_wf doc →
  Data.import_value (Data.export_dict doc) parent = inr (Data_adopt parent doc).
Proof.
  intros [Hnd Hsec]. unfold Data.export_dict, Data.import_value, Data.__init__.
  rewrite dict_map_items_map by done. simpl.
  rewrite (dict_build_map Section.to_dict (Section.of_kwargs parent) (Section_adopt parent));
    [done|done|].
  eapply Forall_impl; [exact Hsec|]. intros [k sec]. simpl. apply Section_round_trip.
Qed.

Lemma Data_adopt_tree (parent : Handle) (doc : Data.t) :
  Data_tree (Data_adopt parent doc) = Data_tree doc.
Proof.
  unfold Data_tree, Data_adopt. simpl. rewrite map_map.
  apply map_ext. intros [k sec]. simpl. f_equal.
  unfold Section_tree, Section_adopt. simpl. f_equal. rewrite map_map.
  apply map_ext. by intros [k' it].
Qed.

(** Through the bytes: what [export_data] returns, [import_data] reads back
    as the same document under the importing handle. *)
Lemma Data_export_import `{Pickle} (doc : Data.t) (parent : Handle) :
  Data_wf doc →
  (∃ payload, pickle_dumps (Data.export_dict doc) = inr payload
              ∧ pickle_loads payload = inr (Data.export_dict doc)) →
  ∃ payload,
    Data.export_data doc = inr payload
    ∧ Data.import_data payload parent = inr (Data_adopt parent doc).
Proof.
  intros Hwf (payload & Hdump & Hload). exists payload. split; [done|].
  unfold Data.import_data. rewrite Hload. simpl. by apply Data_round_trip.
Qed.

(** C3: exporting a document and importing the bytes under a handle gives
    the same tree again: the same section keys in the same order and, in
    each section, the same item keys in the same order with the same title,
    content, image id, level and metadata; only the ownership links have
    changed, to the importing handle. *)
Theorem export_import_round_trip `{Pickle} (doc : Data.t) (parent : Handle) :
  Data_wf doc →
  (∃ payload, pickle_dumps (Data.export_dict doc) = inr payload
              ∧ pickle_loads payload = inr (Data.export_dict doc)) →
  ∃ payload doc',
    Data.export_data doc = inr payload
    ∧ Data.import_data payload parent = inr doc'
    ∧ Data_tree doc' = Data_tree doc
    ∧ doc' = Data_adopt parent doc.
Proof.
  intros Hwf Hcodec.
  destruct (Data_export_import doc parent Hwf Hcodec) as (payload & Hexp & Himp).
  exists payload, (Data_adopt parent doc).
  split; [done|]. split; [done|]. split; [apply Data_adopt_tree | done].
Qed.

(** So for every document built through the methods, from a new one. *)
Lemma built_document_round_trip `{Pickle} (calls : list data_call)
    (owner parent : Handle) :
  let doc := after_calls calls (new_Data owner) in
  (∃ payload, pickle_dumps (Data.export_dict doc) = inr payload
              ∧ pickle_loads payload = inr (Data.export_dict doc)) →
  ∃ payload doc',
    Data.export_data doc = inr payload
    ∧ Data.import_data payload parent = inr doc'
    ∧ Data_tree doc' = Data_tree doc.
Proof.
  intros doc Hcodec.
  destruct (Data_export_import doc parent) as (payload & Hexp & Himp);
    [apply after_calls_wf, new_Data_wf | done |].
  exists payload, (Data_adopt parent doc).
  split; [done|]. split; [done|]. apply Data_adopt_tree.
Qed.

Lemma export_import_round_trip_witness :
  ∃ payload doc',
    Data.export_data (sample_data handle_rw) = inr payload
    ∧ Data.import_data payload handle_r = inr doc'
    ∧ Data_tree doc' = Data_tree (sample_data handle_rw)
    ∧ doc' = Data_adopt handle_r (sample_data handle_rw).
Proof.
  apply (export_import_round_trip (sample_data handle_rw) handle_r).
  - split; [apply NoDup_singleton|].
    apply Forall_singleton. split; [apply NoDup_singleton|].
    apply Forall_singleton. discriminate.
  - eexists. split; [reflexivity | vm_compute; reflexivity].
Defined.

Lemma version_gate_witness :
  Data.import_data (payload_of_version 3) handle_r = inl (VersionError 2 3 "b.bdm")
  ∧ Info.import_data (payload_of_version 3) handle_r = inl (VersionError 2 3 "b.bdm").
Proof.
  refine (proj1 (version_gate (payload_of_version 3) handle_r
    [("version", VInt 3); ("sections", VDict []); ("name", VStr "NoName"); ("files", VDict [])]
    3 _ _) _).
  - vm_compute. reflexivity.
  - reflexivity.
  - unfold VERSION. lia.
Defined.

(** A payload of this or an older version with the layout of this one is
    imported as the tree it holds. *)
Lemma older_version_imports (parent : Handle) (doc : Data.t) (version : Z) :
  Data_wf doc → (version ≤ VERSION)%Z →
  Data.import_value (with_version version (Data.export_dict doc)) parent
  = inr (Data_adopt parent doc).
Proof.
  intros Hwf Hv. rewrite <- (Data_round_trip parent doc Hwf).
  unfold Data.export_dict, Data.import_value. simpl.
  apply Z.ltb_ge in Hv. unfold VERSION in *. by rewrite Hv.
Qed.

Lemma Info_round_trip (parent : Handle) (info : Info.t) (version : Z) :
  NoDup (dict_keys (Info.files info)) → (version ≤ VERSION)%Z →
  Info.import_value (with_version version (Info.export_dict info)) parent
  = inr (Info_imported parent info).
Proof.
  intros Hnd Hv. unfold Info.export_dict, Info.import_value, Info.__init__. simpl.
  apply Z.ltb_ge in Hv. rewrite Hv. simpl.
  rewrite dict_map_items_map by done.
  rewrite (dict_build_map VStr Info.Path Path_str); [|done|].
  - done.
  - apply Forall_forall. by intros [k f] _.
Qed.

(** A name of one component is the text of its [Path]. *)
Lemma str_in_cons (needle : string) (a : Ascii.ascii) (s : string) :
  str_in needle (String a s) = false → str_in needle s = false.
Proof. simpl. intros H. by apply orb_false_elim in H as [_ ?]. Qed.

Lemma prefix_slash (a : Ascii.ascii) (s : string) :
  String.prefix "/" (String a s) = Ascii.eqb a "/".
Proof.
  change (String.prefix "/" (String a s))
    with (if Ascii.ascii_dec "/" a then String.prefix "" s else false).
  destruct (Ascii.ascii_dec "/" a) as [<-|Hne]; [by destruct s|].
  symmetry. by apply Ascii.eqb_neq.
Qed.

Lemma prefix_slashes (a : Ascii.ascii) (s : string) :
  Ascii.eqb a "/" = false → String.prefix "//" (String a s) = false.
Proof.
  intros Ha.
  change (String.prefix "//" (String a s))
    with (if Ascii.ascii_dec "/" a then String.prefix "/" s else false).
  destruct (Ascii.ascii_dec "/" a) as [<-|Hne]; done.
Qed.

Lemma str_in_slash (a : Ascii.ascii) (s : string) :
  str_in "/" (String a s) = false → Ascii.eqb a "/" = false.
Proof.
  change (str_in "/" (String a s)) with (String.prefix "/" (String a s) || str_in "/" s).
  rewrite prefix_slash. intros H. by apply orb_false_elim in H as [? _].
Qed.

Lemma split_on_plain (name : string) :
  str_in "/" name = false → split_on "/"%char name = [name].
Proof.
  induction name as [|a s IH]; [done|]. intros Hs.
  pose proof (str_in_cons _ _ _ Hs) as Hs'. 
  cbn [split_on]. rewrite (IH Hs'). by rewrite (str_in_slash _ _ Hs).
Qed.

Lemma plain_name_Path_str (name : string) : plain_name name → Path_str name = name.
Proof.
  intros (Hs & _ & Hn). unfold Path_str, Path_parts, Path_root.
  rewrite (split_on_plain _ Hs). unfold invalid_path_parts in Hn.
  rewrite !not_elem_of_cons in Hn. destruct Hn as (H1 & H2 & _).
  apply eqb_false in H1, H2. cbn [List.filter]. rewrite H1, H2. cbn [negb andb join].
  destruct name as [|a s]; [done|].
  pose proof (str_in_slash _ _ Hs) as Ha.
  rewrite (prefix_slashes _ _ Ha), prefix_slash, Ha. done.
Qed.

Lemma Info_imported_plain (parent : Handle) (info : Info.t) :
  Forall (λ kv, plain_name kv.2) (Info.files info) →
  Info_imported parent info = Info_adopt parent info.
Proof.
  intros Hp. unfold Info_imported, Info_adopt. f_equal.
  induction Hp as [|[k f] l Hf _ IH]; [done|]. simpl.
  rewrite IH. simpl in Hf. by rewrite (plain_name_Path_str _ Hf).
Qed.

(** ** The save protocol (C1, C2) *)

Lemma old_marker_ne (target : string) : old_marker target ≠ target.
Proof.
  unfold old_marker. induction target as [|a s IH]; simpl; [discriminate|].
  intros [= H]. by apply IH.
Qed.

Lemma bind_inv {S A B} (m : py S A) (k : A → py S B) (s s' : S) (r : result B) :
  (m ≫= k) s = (r, s') →
  (∃ e, m s = (inl e, s') ∧ r = inl e)
  ∨ (∃ a s1, m s = (inr a, s1) ∧ k a s1 = (r, s')).
Proof.
  unfold mbind, py_bind. destruct (m s) as [[e|a] s1].
  - intros [= <- <-]. left. by exists e.
  - intros Hk. right. by exists a, s1.
Qed.

Lemma bind_inr {S A B} (m : py S A) (k : A → py S B) (s s' : S) (b : B) :
  (m ≫= k) s = (inr b, s') →
  ∃ a s1, m s = (inr a, s1) ∧ k a s1 = (inr b, s').
Proof.
  intros H. apply bind_inv in H. destruct H as [(e & _ & He)|H]; [discriminate He|done].
Qed.

Section writing.
Context (target : string).

Lemma writing_at_refl (s : BDMFile.state) : writing_at target s s.
Proof.
  split; [done|]. split; [done|]. exists []. split; [done|]. apply Forall_nil_2.
Qed.

Lemma writing_at_trans (s1 s2 s3 : BDMFile.state) :
  writing_at target s1 s2 → writing_at target s2 s3 → writing_at target s1 s3.
Proof.
  intros (Hs1 & Hf1 & new1 & Hh1 & Hn1) (Hs2 & Hf2 & new2 & Hh2 & Hn2).
  split; [congruence|]. split.
  - intros p Hp. rewrite Hf2, Hf1 by done. done.
  - exists (new2 ++ new1)%list. split.
    + rewrite Hh2, Hh1. by rewrite app_assoc.
    + apply Forall_app. split; [|done].
      eapply Forall_impl; [exact Hn2|]. intros d [Hd Hz]. split; [|done].
      intros p Hp. rewrite Hd, Hf1 by done. done.
Qed.

Lemma writes_at_ret {A} (a : A) : writes_at target (mret a).
Proof. intros s r s' [= _ <-]. apply writing_at_refl. Qed.

Lemma writes_at_raise {A} (e : exn) : writes_at (A := A) target (raise e).
Proof. intros s r s' [= _ <-]. apply writing_at_refl. Qed.

Lemma writes_at_lift {A} (x : result A) : writes_at target (lift x).
Proof. intros s r s' [= _ <-]. apply writing_at_refl. Qed.

Lemma writes_at_get : writes_at target get.
Proof. intros s r s' [= _ <-]. apply writing_at_refl. Qed.

Lemma writes_at_bind {A B} (m : py BDMFile.state A) (k : A → py BDMFile.state B) :
  writes_at target m → (∀ a, writes_at target (k a)) → writes_at target (m ≫= k).
Proof.
  intros Hm Hk s r s' H. apply bind_inv in H.
  destruct H as [(e & H & _)|(a & s1 & H1 & H2)]; [by eapply Hm|].
  eapply writing_at_trans; [by eapply Hm | by eapply Hk].
Qed.

Lemma writes_at_for_each {A} (xs : list A) (body : A → py BDMFile.state unit) :
  (∀ x, writes_at target (body x)) → writes_at target (for_each xs body).
Proof.
  intros Hb. induction xs as [|x xs IH]; simpl.
  - apply writes_at_ret.
  - apply writes_at_bind; [apply Hb | intros _; apply IH].
Qed.

Lemma writes_at_syscall : writes_at target BDMFile.syscall.
Proof.
  intros s r s'. unfold BDMFile.syscall. py_unfold.
  destruct (BDMFile.faults s) as [|[e|] fs]; intros [= _ <-];
    (split; [done|]; split; [done|]; exists []; split; [done|]; apply Forall_nil_2).
Qed.

(** One more state of the disk, with a container under construction at the
    target. *)
Lemma writing_at_set_files (s : BDMFile.state) (entries : list (string * content)) :
  writing_at target s
    (BDMFile.set_files (<[target := Zip false entries]> (BDMFile.files s)) s).
Proof.
  split; [done|]. split.
  - intros p Hp. simpl. by rewrite lookup_insert_ne.
  - exists [<[target := Zip false entries]> (BDMFile.files s)]. split; [done|].
    apply Forall_singleton. split.
    + intros p Hp. by rewrite lookup_insert_ne.
    + exists entries. by rewrite lookup_insert_eq.
Qed.

Lemma writes_at_ZipFile_w : writes_at target (BDMFile.ZipFile_w target).
Proof.
  intros s r s'. unfold BDMFile.ZipFile_w. py_unfold.
  intros [= _ <-]. apply writing_at_set_files.
Qed.

Lemma writes_at_zip_append (arcname : string) (c : content) :
  writes_at target (BDMFile.zip_append target arcname c).
Proof.
  intros s r s'. unfold BDMFile.zip_append. py_unfold.
  destruct (BDMFile.files s !! target) as [[b|[] entries|b]|];
    intros [= _ <-]; try apply writing_at_refl.
  apply writing_at_set_files.
Qed.

Lemma writes_at_write (filename arcname : string) :
  writes_at target (BDMFile.write target filename arcname).
Proof.
  unfold BDMFile.write. apply writes_at_bind; [apply writes_at_get|]. intros st.
  destruct (BDMFile.files st !! filename); [apply writes_at_zip_append|].
  destruct (bool_decide _); [apply writes_at_zip_append | apply writes_at_raise].
Qed.

Lemma writes_at_save_entries `{Pickle} : writes_at target (BDMFile.save_entries target).
Proof.
  unfold BDMFile.save_entries, BDMFile.writestr.
  repeat first
    [ apply writes_at_syscall | apply writes_at_ZipFile_w | apply writes_at_get
    | apply writes_at_lift | apply writes_at_zip_append | apply writes_at_write
    | apply writes_at_for_each; intros ?
    | apply writes_at_bind; [|intros ?] ].
Qed.

(** *** The entries written are kept *)

Lemma appends_at_ret {A} (a : A) : appends_at target (mret a).
Proof. intros s r s' es Hes [= _ <-]. exists []. by rewrite app_nil_r. Qed.

Lemma appends_at_lift {A} (x : result A) : appends_at target (lift x).
Proof. intros s r s' es Hes [= _ <-]. exists []. by rewrite app_nil_r. Qed.

Lemma appends_at_bind {A B} (m : py BDMFile.state A) (k : A → py BDMFile.state B) :
  appends_at target m → (∀ a, appends_at target (k a)) → appends_at target (m ≫= k).
Proof.
  intros Hm Hk s r s' es Hes H. apply bind_inv in H.
  destruct H as [(e & H & _)|(a & s1 & H1 & H2)]; [by eapply Hm|].
  destruct (Hm s _ s1 es Hes H1) as [more1 Hs1].
  destruct (Hk a s1 _ s' _ Hs1 H2) as [more2 Hs2].
  exists (more1 ++ more2)%list. by rewrite app_assoc.
Qed.

Lemma appends_at_for_each {A} (xs : list A) (body : A → py BDMFile.state unit) :
  (∀ x, appends_at target (body x)) → appends_at target (for_each xs body).
Proof.
  intros Hb. induction xs as [|x xs IH]; simpl.
  - apply appends_at_ret.
  - apply appends_at_bind; [apply Hb | intros _; apply IH].
Qed.

Lemma appends_at_syscall : appends_at target BDMFile.syscall.
Proof.
  intros s r s' es Hes. unfold BDMFile.syscall. py_unfold.
  destruct (BDMFile.faults s) as [|[e|] fs]; intros [= _ <-];
    exists []; by rewrite app_nil_r.
Qed.

Lemma appends_at_raise {A} (e : exn) : appends_at (A := A) target (raise e).
Proof. intros s r s' es Hes [= _ <-]. exists []. by rewrite app_nil_r. Qed.

Lemma appends_at_get : appends_at target get.
Proof. intros s r s' es Hes [= _ <-]. exists []. by rewrite app_nil_r. Qed.

Lemma appends_at_zip_append (arcname : string) (c : content) :
  appends_at target (BDMFile.zip_append target arcname c).
Proof.
  intros s r s' es Hes. unfold BDMFile.zip_append. py_unfold. rewrite Hes.
  intros [= _ <-]. exists [(arcname, c)]. simpl. by rewrite lookup_insert_eq.
Qed.

Lemma appends_at_write (filename arcname : string) :
  appends_at target (BDMFile.write target filename arcname).
Proof.
  unfold BDMFile.write. apply appends_at_bind; [apply appends_at_get|]. intros st.
  destruct (BDMFile.files st !! filename); [apply appends_at_zip_append|].
  destruct (bool_decide _); [apply appends_at_zip_append | apply appends_at_raise].
Qed.

End writing.

Lemma syscall_inv (s s' : BDMFile.state) (r : result unit) :
  BDMFile.syscall s = (r, s') →
  BDMFile.self s' = BDMFile.self s ∧ BDMFile.files s' = BDMFile.files s
  ∧ BDMFile.history s' = BDMFile.history s.
Proof.
  unfold BDMFile.syscall. py_unfold.
  destruct (BDMFile.faults s) as [|[e|] fs]; by intros [= _ <-].
Qed.

Lemma appends_at_save_files `{Pickle} (target : string) (st : BDMFile.state) :
  appends_at target
    (for_each (dict_keys (Info.files (BDMFile.info (BDMFile.self st))))
       (λ file_id,
          file ← lift (dict_getitem file_id (Info.files (BDMFile.info (BDMFile.self st))));
          BDMFile.syscall;;
          BDMFile.write target
            (path_join (BDMFile._internal_files_dir (BDMFile.self st)) file)
            ("files/" ++ file))).
Proof.
  apply appends_at_for_each. intros file_id.
  apply appends_at_bind; [apply appends_at_lift|]. intros file.
  apply appends_at_bind; [apply appends_at_syscall|]. intros _.
  apply appends_at_write.
Qed.

Lemma ZipFile_w_inv (p : string) (s s' : BDMFile.state) (r : result unit) :
  BDMFile.ZipFile_w p s = (r, s') →
  r = inr tt ∧ s' = BDMFile.set_files (<[p := Zip false []]> (BDMFile.files s)) s.
Proof. unfold BDMFile.ZipFile_w. py_unfold. by intros [= <- <-]. Qed.

Lemma zip_append_inv (p arcname : string) (c : content) (entries : list (string * content))
    (s s' : BDMFile.state) (r : result unit) :
  BDMFile.files s !! p = Some (Zip false entries) →
  BDMFile.zip_append p arcname c s = (r, s') →
  r = inr tt
  ∧ s' = BDMFile.set_files
           (<[p := Zip false (entries ++ [(arcname, c)])]> (BDMFile.files s)) s.
Proof. intros Hp. unfold BDMFile.zip_append. py_unfold. rewrite Hp. by intros [= <- <-]. Qed.

(** When the entries have all been written, the container at the target has
    the two payloads among them. *)
Lemma save_entries_done `{Pickle} (target : string) (s s' : BDMFile.state) :
  BDMFile.save_entries target s = (inr tt, s') →
  ∃ entries, BDMFile.files s' !! target = Some (Zip false entries)
             ∧ "info" ∈ dict_keys entries ∧ "data" ∈ dict_keys entries.
Proof.
  unfold BDMFile.save_entries. intros Hrun.
  apply bind_inr in Hrun as (? & s1 & _ & Hrun).
  apply bind_inr in Hrun as (? & s2 & Hzip & Hrun).
  apply bind_inr in Hrun as (st & s3 & Hget & Hrun).
  apply bind_inr in Hrun as (data & s4 & Hdata & Hrun).
  apply bind_inr in Hrun as (? & s5 & Hsys1 & Hrun).
  apply bind_inr in Hrun as (? & s6 & Hw1 & Hrun).
  apply bind_inr in Hrun as (info & s7 & Hinfo & Hrun).
  apply bind_inr in Hrun as (? & s8 & Hsys2 & Hrun).
  apply bind_inr in Hrun as (? & s9 & Hw2 & Hrun).
  apply ZipFile_w_inv in Hzip as [_ ->].
  apply syscall_inv in Hsys1 as (_ & Hf5 & _).
  apply syscall_inv in Hsys2 as (_ & Hf8 & _).
  revert Hget Hdata Hinfo. unfold get, lift. intros [= _ <-] [= _ <-] [= _ <-].
  assert (H5 : BDMFile.files s5 !! target = Some (Zip false [])).
  { rewrite Hf5. simpl. by rewrite lookup_insert_eq. }
  apply (zip_append_inv _ _ _ _ _ _ _ H5) in Hw1 as [_ ->].
  assert (H8 : BDMFile.files s8 !! target = Some (Zip false [("data", Raw data)])).
  { rewrite Hf8. simpl. by rewrite lookup_insert_eq. }
  apply (zip_append_inv _ _ _ _ _ _ _ H8) in Hw2 as [_ ->].
  assert (H9 : BDMFile.files
                 (BDMFile.set_files
                    (<[target := Zip false ([("data", Raw data)] ++ [("info", Raw info)])]>
                       (BDMFile.files s8)) s8) !! target
               = Some (Zip false [("data", Raw data); ("info", Raw info)])).
  { simpl. by rewrite lookup_insert_eq. }
  destruct (appends_at_save_files target _ _ _ s' _ H9 Hrun) as [more Hs'].
  eexists. split; [exact Hs'|]. simpl.
  split; rewrite !elem_of_cons; auto.
Qed.

Lemma renamed_aside_eq (target : string) (st : BDMFile.state) (previous : content) :
  BDMFile.files st !! target = Some previous →
  BDMFile.rename target (old_marker target) st
  = (inr tt,
     BDMFile.set_files (<[old_marker target := previous]> (delete target (BDMFile.files st))) st).
Proof. intros Hp. unfold BDMFile.rename. py_unfold. by rewrite Hp. Qed.

(** [save] on a target that holds a file: the file is renamed aside, the
    write phase runs, rolled back if it raises, and the container is closed
    if it does not. *)
Lemma save_unfold `{Pickle} (st : BDMFile.state) (arg : option path_arg)
    (target : string) (previous : content) :
  writable (BDMFile.this (BDMFile.self st)) = true →
  save_target st arg = Some target →
  BDMFile.files st !! target = Some previous →
  BDMFile.save arg st
  = (try_except (BDMFile.save_write target (Some (old_marker target)))
       (BDMFile.save_rollback target (Some (old_marker target)));;
     BDMFile.ZipFile_close target) (renamed_aside target st).
Proof.
  intros Hw Ht Hp. unfold renamed_aside. rewrite (renamed_aside_eq _ _ _ Hp). simpl.
  unfold BDMFile.save. unfold mbind at 1, py_bind at 1, get at 1. rewrite Hw. simpl.
  assert (Hrun : ∀ k : option string → py BDMFile.state unit,
    (present ← BDMFile.Path_exists target;
     old_file ← (if (present : bool)
                 then BDMFile.rename target (old_marker target);;
                      mret (Some (old_marker target))
                 else mret None);
     k old_file) st
    = k (Some (old_marker target))
        (BDMFile.set_files
           (<[old_marker target := previous]> (delete target (BDMFile.files st))) st)).
  { intros k. unfold BDMFile.Path_exists. py_unfold.
    rewrite bool_decide_eq_true_2 by (by rewrite Hp).
    rewrite (renamed_aside_eq _ _ _ Hp). done. }
  destruct arg as [[s|p]|]; simpl in Ht; [done| |].
  - injection Ht as ->. apply (Hrun (λ old_file, _)).
  - injection Ht as <-. apply (Hrun (λ old_file, _)).
Qed.

(** The write phase either raises, having touched nothing but the target,
    or has written all the entries and deleted the file renamed aside. *)
Lemma save_write_inv `{Pickle} (target : string) (previous : content)
    (s1 s3 : BDMFile.state) (r : result unit) :
  BDMFile.files s1 !! old_marker target = Some previous →
  BDMFile.save_write target (Some (old_marker target)) s1 = (r, s3) →
  (∃ e, r = inl e ∧ writing_at target s1 s3)
  ∨ (r = inr tt
     ∧ ∃ s2 entries,
         writing_at target s1 s2
         ∧ BDMFile.files s2 !! target = Some (Zip false entries)
         ∧ "info" ∈ dict_keys entries ∧ "data" ∈ dict_keys entries
         ∧ s3 = BDMFile.set_files (delete (old_marker target) (BDMFile.files s2)) s2).
Proof.
  intros Hold Hrun. unfold BDMFile.save_write in Hrun.
  apply bind_inv in Hrun as [(e & Hent & ->)|([] & s2 & Hent & Hrun)].
  { left. exists e. split; [done|]. by eapply writes_at_save_entries. }
  pose proof (writes_at_save_entries target _ _ _ Hent) as Hw12.
  destruct (save_entries_done _ _ _ Hent) as (entries & Hz & Hinfo & Hdata).
  apply bind_inv in Hrun as [(e & Hsys & ->)|([] & s2' & Hsys & Hrun)].
  { left. exists e. split; [done|].
    eapply writing_at_trans; [exact Hw12 | by eapply writes_at_syscall]. }
  pose proof (writes_at_syscall target _ _ _ Hsys) as Hw22.
  pose proof (writing_at_trans _ _ _ _ Hw12 Hw22) as Hw.
  apply syscall_inv in Hsys as (_ & Hf & _).
  assert (Hold' : BDMFile.files s2' !! old_marker target = Some previous).
  { destruct Hw as (_ & Hfr & _). rewrite Hfr by apply old_marker_ne. done. }
  revert Hrun. unfold BDMFile.remove. py_unfold. rewrite Hold'. intros [= <- <-].
  right. split; [done|]. exists s2', entries. rewrite Hf. done.
Qed.

(** The rollback from a state where the file renamed aside is still
    there: whatever is at the target is deleted and the file is renamed
    back. *)
Lemma save_rollback_run (target : string) (previous : content) (err : exn)
    (s : BDMFile.state) :
  BDMFile.files s !! old_marker target = Some previous →
  ∃ s', BDMFile.save_rollback target (Some (old_marker target)) err s = (inl err, s')
        ∧ BDMFile.self s' = BDMFile.self s
        ∧ BDMFile.files s'
          = <[target := previous]> (delete (old_marker target) (delete target (BDMFile.files s)))
        ∧ ∃ new, BDMFile.history s' = (new ++ BDMFile.history s)%list
            ∧ Forall (λ d : disk,
                        d !! target = Some previous
                        ∨ (d !! old_marker target = Some previous ∧ d !! target = None))
                new.
Proof.
  intros Hold. pose proof (old_marker_ne target) as Hne.
  unfold BDMFile.save_rollback, BDMFile.Path_exists, BDMFile.remove, BDMFile.rename.
  py_unfold. destruct (BDMFile.files s !! target) as [c|] eqn:Ht.
  - rewrite bool_decide_eq_true_2 by done. simpl. rewrite Ht. simpl.
    rewrite lookup_delete_ne by done. rewrite Hold.
    eexists. split; [done|]. simpl. split; [done|]. split; [done|].
    eexists [_; _]. split; [done|].
    apply Forall_cons. split; [left; by rewrite lookup_insert_eq|].
    apply Forall_singleton. right.
    rewrite lookup_delete_ne by done. by rewrite lookup_delete_eq.
  - rewrite bool_decide_eq_false_2 by (by intros [? ?]). simpl. rewrite Hold.
    eexists. split; [done|]. simpl. split; [done|].
    split; [by rewrite (delete_id _ target)|].
    eexists [_]. split; [done|].
    apply Forall_singleton. left. by rewrite lookup_insert_eq.
Qed.

(** One run of [save] on a target that holds [previous], in full: the
    states the disk goes through while the file renamed aside is there
    ([during]), and, when the write phase has returned, the two that follow,
    where the file renamed aside is deleted and where the container is
    closed. *)
Lemma save_run `{Pickle} (st st' : BDMFile.state) (arg : option path_arg)
    (target : string) (previous : content) (r : result unit) :
  writable (BDMFile.this (BDMFile.self st)) = true →
  save_target st arg = Some target →
  BDMFile.files st !! target = Some previous →
  BDMFile.save arg st = (r, st') →
  BDMFile.self st' = BDMFile.self st
  ∧ (∃ st2, BDMFile.save_write target (Some (old_marker target)) (renamed_aside target st)
            = (r, st2))
  ∧ match r with
    | inl _ =>
        (∃ during,
           BDMFile.history st' = (during ++ BDMFile.history st)%list
           ∧ Forall (save_instant target previous) during)
        ∧ BDMFile.files st' = delete (old_marker target) (BDMFile.files st)
    | inr _ =>
        ∃ entries gap during,
          BDMFile.history st' = ((BDMFile.files st' :: gap :: during) ++ BDMFile.history st)%list
          ∧ Forall (save_instant target previous) during
          ∧ gap !! target = Some (Zip false entries)
          ∧ gap !! old_marker target = None
          ∧ "info" ∈ dict_keys entries ∧ "data" ∈ dict_keys entries
          ∧ BDMFile.files st'
            = <[target := Zip true entries]>
                (delete (old_marker target) (BDMFile.files st))
    end.
Proof.
  intros Hw Ht Hp Hsave. pose proof (old_marker_ne target) as Hne.
  rewrite (save_unfold _ _ _ _ Hw Ht Hp) in Hsave.
  unfold renamed_aside in *. rewrite (renamed_aside_eq _ _ _ Hp) in *. simpl in *.
  set (s1 := BDMFile.set_files _ st) in *.
  assert (Hold : BDMFile.files s1 !! old_marker target = Some previous).
  { subst s1. simpl. by rewrite lookup_insert_eq. }
  assert (Hs1 : save_instant target previous (BDMFile.files s1)).
  { right. split; [done|]. left. subst s1. simpl.
    rewrite lookup_insert_ne by done. by rewrite lookup_delete_eq. }
  unfold mbind, py_bind, try_except in Hsave.
  destruct (BDMFile.save_write target (Some (old_marker target)) s1) as [r2 s3] eqn:Hwrite.
  destruct (save_write_inv _ _ _ _ _ Hold Hwrite)
    as [(e & -> & Hself & Hfr & new & Hh & Hnew)
       |(-> & s2 & entries & (Hself & Hfr & new & Hh & Hnew) & Hz & Hinfo & Hdata & ->)].
  - (* the write phase has raised: rollback *)
    assert (Hold3 : BDMFile.files s3 !! old_marker target = Some previous).
    { rewrite Hfr by done. done. }
    destruct (save_rollback_run target previous e s3 Hold3)
      as (s4 & Hroll & Hself4 & Hf4 & new4 & Hh4 & Hnew4).
    rewrite Hroll in Hsave. injection Hsave as <- <-.
    split; [by rewrite Hself4, Hself|]. split; [by exists s3|]. split.
    { exists (new4 ++ new ++ [BDMFile.files s1])%list. split.
      { rewrite Hh4, Hh. subst s1. simpl. by rewrite <- !app_assoc. }
      apply Forall_app. split.
      - eapply Forall_impl; [exact Hnew4|]. intros d [Hd|[Hd1 Hd2]].
        + by left.
        + right. split; [done|]. by left.
      - apply Forall_app. split; [|by apply Forall_singleton].
        eapply Forall_impl; [exact Hnew|]. intros d [Hd Hzd].
        right. split; [rewrite Hd by done; done|]. by right. }
    rewrite Hf4. apply map_eq. intros p.
    destruct (decide (p = target)) as [->|Hpt].
    { rewrite lookup_insert_eq. rewrite lookup_delete_ne by done. done. }
    rewrite lookup_insert_ne by done.
    destruct (decide (p = old_marker target)) as [->|Hpo].
    { by rewrite !lookup_delete_eq. }
    rewrite !(lookup_delete_ne _ (old_marker target)) by done.
    rewrite lookup_delete_ne by done. rewrite Hfr by done. subst s1. simpl.
    rewrite lookup_insert_ne by done. by rewrite lookup_delete_ne.
  - (* the write phase has returned: the container is closed *)
    revert Hsave. unfold BDMFile.ZipFile_close. py_unfold. simpl.
    rewrite lookup_delete_ne by done. rewrite Hz. intros [= <- <-]. simpl.
    split; [done|]. split; [by eexists|].
    exists entries, (delete (old_marker target) (BDMFile.files s2)),
      (new ++ [BDMFile.files s1])%list.
    split.
    { rewrite Hh. subst s1. simpl. by rewrite <- !app_assoc. }
    split.
    { apply Forall_app. split; [|by apply Forall_singleton].
      eapply Forall_impl; [exact Hnew|]. intros d [Hd Hzd].
      right. split; [rewrite Hd by done; done|]. by right. }
    split; [by rewrite lookup_delete_ne|]. split; [by rewrite lookup_delete_eq|].
    split; [done|]. split; [done|].
    apply map_eq. intros p.
    destruct (decide (p = target)) as [->|Hpt].
    { by rewrite !lookup_insert_eq. }
    rewrite !lookup_insert_ne by done.
    destruct (decide (p = old_marker target)) as [->|Hpo].
    { by rewrite !lookup_delete_eq. }
    rewrite !lookup_delete_ne by done. rewrite Hfr by done. subst s1. simpl.
    rewrite lookup_insert_ne by done. by rewrite lookup_delete_ne.
Qed.


(** [_check_validity] accepts what [valid_archive] describes. *)
Lemma check_validity_valid (st : BDMFile.state) (c : content) :
  BDMFile.files st !! path (BDMFile.this (BDMFile.self st)) = Some c →
  valid_archive c →
  BDMFile._check_validity st = (inr tt, st).
Proof.
  intros Hc (entries & -> & Hinfo & Hdata).
  unfold BDMFile._check_validity, BDMFile.self_path. py_unfold. rewrite Hc. simpl.
  by rewrite !bool_decide_eq_true_2.
Qed.

(** C2: when [save] finds a file at its target and a step of the write
    phase raises, [save] raises that error; the target then holds what it
    held before, nothing is left under the [.old] marker, and no other path
    has changed.  When the write phase returns, [save] returns and nothing
    is left under the marker. *)
Theorem save_failure_restores `{Pickle} (st : BDMFile.state) (arg : option path_arg)
    (target : string) (previous : content) :
  writable (BDMFile.this (BDMFile.self st)) = true →
  save_target st arg = Some target →
  BDMFile.files st !! target = Some previous →
  (∀ err st2,
     BDMFile.save_write target (Some (old_marker target)) (renamed_aside target st)
     = (inl err, st2) →
     ∃ st', BDMFile.save arg st = (inl err, st')
            ∧ BDMFile.files st' !! target = Some previous
            ∧ BDMFile.files st' !! old_marker target = None
            ∧ (∀ p, p ≠ old_marker target → BDMFile.files st' !! p = BDMFile.files st !! p)
            ∧ BDMFile.self st' = BDMFile.self st)
  ∧ (∀ st2,
     BDMFile.save_write target (Some (old_marker target)) (renamed_aside target st)
     = (inr tt, st2) →
     ∃ st', BDMFile.save arg st = (inr tt, st')
            ∧ BDMFile.files st' !! old_marker target = None).
Proof.
  intros Hw Ht Hp. pose proof (old_marker_ne target) as Hne.
  destruct (BDMFile.save arg st) as [r st'] eqn:Hsave.
  destruct (save_run _ _ _ _ _ _ Hw Ht Hp Hsave) as (Hself & (st2' & Hwrite) & Hend).
  split.
  - intros err st2 Herr. rewrite Herr in Hwrite. injection Hwrite as <- <-.
    destruct Hend as [_ Hfiles]. exists st'. split; [done|]. rewrite Hfiles.
    split; [by rewrite lookup_delete_ne|]. split; [by rewrite lookup_delete_eq|].
    split; [|done]. intros p Hpo. by rewrite lookup_delete_ne.
  - intros st2 Hok. rewrite Hok in Hwrite. injection Hwrite as <- <-.
    destruct Hend as (entries & gap & during & _ & _ & _ & _ & _ & _ & Hfiles).
    exists st'. split; [done|].
    rewrite Hfiles. rewrite lookup_insert_ne by done. by rewrite lookup_delete_eq.
Qed.

Lemma save_failure_restores_witness :
  ∃ st', BDMFile.save None (saving_state disk_unstaged)
         = (inl (FileNotFoundError "/tmp/u1/files/x.png"), st')
         ∧ BDMFile.files st' !! "a.bdm" = Some sample_archive
         ∧ BDMFile.files st' !! old_marker "a.bdm" = None
         ∧ (∀ p, p ≠ old_marker "a.bdm" → BDMFile.files st' !! p = disk_unstaged !! p)
         ∧ BDMFile.self st' = BDMFile.self (saving_state disk_unstaged).
Proof.
  refine (proj1 (save_failure_restores (saving_state disk_unstaged) None "a.bdm"
                   sample_archive _ _ _) (FileNotFoundError "/tmp/u1/files/x.png")
            (BDMFile.save_write "a.bdm" (Some (old_marker "a.bdm"))
               (renamed_aside "a.bdm" (saving_state disk_unstaged))).2 _);
    vm_compute; reflexivity.
Defined.




(** * More of the code *)

(** ** Sections as mappings *)

Section dict_more.
Context {V : Type}.
Implicit Types (d : dict V) (k : string) (v : V).

Lemma dict_del_set_absent k v d : k ∉ dict_keys d → dict_del k (dict_set k v d) = d.
Proof.
  induction d as [|[k' v'] d IH]; simpl.
  - intros _. by rewrite String.eqb_refl.
  - rewrite not_elem_of_cons. intros [Hne Hd].
    apply eqb_false in Hne. rewrite Hne. simpl. rewrite Hne. by rewrite IH.
Qed.

Lemma dict_get_del_ne k k' d : k ≠ k' → dict_get k' (dict_del k d) = dict_get k' d.
Proof.
  intros Hne. induction d as [|[k0 v0] d IH]; simpl; [done|].
  destruct (String.eqb k k0) eqn:E; simpl.
  - apply eqb_true in E. subst k0.
    apply eqb_false in Hne. rewrite String.eqb_sym in Hne. by rewrite Hne.
  - by rewrite IH.
Qed.

Lemma dict_get_del_eq k d : NoDup (dict_keys d) → dict_get k (dict_del k d) = None.
Proof.
  induction d as [|[k0 v0] d IH]; simpl; [done|].
  intros Hnd. apply NoDup_cons in Hnd as [Hk0 Hnd].
  destruct (String.eqb k k0) eqn:E; simpl.
  - apply eqb_true in E. subst k0. by apply dict_get_None.
  - rewrite E. by apply IH.
Qed.

Lemma dict_keys_del_filter k d :
  NoDup (dict_keys d) →
  dict_keys (dict_del k d) = List.filter (λ k', negb (String.eqb k k')) (dict_keys d).
Proof.
  induction d as [|[k0 v0] d IH]; simpl; [done|].
  intros Hnd. apply NoDup_cons in Hnd as [Hk0 Hnd].
  destruct (String.eqb k k0) eqn:E; simpl.
  - apply eqb_true in E. subst k0. symmetry.
    apply forallb_filter_id. apply forallb_forall. intros x Hx.
    apply negb_true_iff, eqb_false. intros ->. apply Hk0. by apply list_elem_of_In.
  - by rewrite IH.
Qed.

End dict_more.

(** Storing an item and looking it up: the lookup returns the item stored;
    the other keys answer as before; a key that was absent goes last, one
    that was present keeps its place. *)
Theorem setitem_then_getitem (sec : Section.t) (key : string) (it : Item.t) :
  writable (Section._parent sec) = true →
  readable (Section._parent sec) = true →
  hid (Item._parent it) = hid (Section._parent sec) →
  ∃ sec',
    Section.__setitem__ key it sec = (inr tt, sec')
    ∧ Section.__getitem__ key sec' = (inr it, sec')
    ∧ (∀ k, k ≠ key → (Section.__getitem__ k sec').1 = (Section.__getitem__ k sec).1)
    ∧ dict_keys (Section._content sec')
      = (if dict_mem key (Section._content sec)
         then dict_keys (Section._content sec)
         else dict_keys (Section._content sec) ++ [key])%list.
Proof.
  intros Hw Hr Hp. eexists. split; [by apply Section_setitem_replaces|].
  unfold Section.__getitem__, dict_getitem. py_unfold. simpl. rewrite Hr. simpl.
  split; [by rewrite dict_get_set_eq|]. split.
  - intros k Hk. by rewrite dict_get_set_ne.
  - destruct (dict_mem key (Section._content sec)) eqn:Hm.
    + by apply dict_keys_set_present.
    + unfold dict_mem in Hm.
      destruct (dict_get key (Section._content sec)) eqn:G; [done|].
      apply dict_get_None in G. rewrite dict_set_absent by done.
      unfold dict_keys. by rewrite map_app.
Qed.

Lemma setitem_then_getitem_witness :
  ∃ sec',
    Section.__setitem__ "k2" (sample_item handle_rw) (sample_section handle_rw) = (inr tt, sec')
    ∧ Section.__getitem__ "k2" sec' = (inr (sample_item handle_rw), sec')
    ∧ dict_keys (Section._content sec') = ["k"; "k2"].
Proof.
  destruct (setitem_then_getitem (sample_section handle_rw) "k2" (sample_item handle_rw)
              eq_refl eq_refl eq_refl) as (sec' & H1 & H2 & _ & H3).
  exists sec'. split; [exact H1|]. split; [exact H2|]. exact H3.
Defined.

(** Storing an item under a key the section does not have and removing it
    again gives the section back. *)
Theorem setitem_then_remove_item (sec : Section.t) (key : string) (it : Item.t) :
  writable (Section._parent sec) = true →
  readable (Section._parent sec) = true →
  hid (Item._parent it) = hid (Section._parent sec) →
  dict_mem key (Section._content sec) = false →
  (Section.__setitem__ key it;; Section.remove_item key) sec = (inr tt, sec).
Proof.
  intros Hw Hr Hp Hm. unfold mbind at 1, py_bind at 1.
  rewrite Section_setitem_replaces by done.
  unfold Section.remove_item, Section.__contains__, Section.__delitem__, dict_delitem.
  py_unfold. simpl. rewrite Hr. simpl. rewrite dict_mem_set. simpl.
  rewrite Hw. simpl. rewrite dict_mem_set. simpl.
  unfold dict_mem in Hm. destruct (dict_get key (Section._content sec)) eqn:G; [done|].
  apply dict_get_None in G. rewrite dict_del_set_absent by done. by destruct sec.
Qed.

Lemma setitem_then_remove_item_witness :
  (Section.__setitem__ "k2" (sample_item handle_rw);; Section.remove_item "k2")
    (sample_section handle_rw)
  = (inr tt, sample_section handle_rw).
Proof.
  apply (setitem_then_remove_item (sample_section handle_rw) "k2" (sample_item handle_rw));
    reflexivity.
Defined.

(** [remove_item] on a handle opened ["r+"]: a name that is present goes,
    and the other names keep their items and their order; a name that is
    absent is refused with [ValueError], where [del] raises [KeyError];
    nothing changes then. *)
Theorem remove_item_removes (sec : Section.t) (name : string) :
  writable (Section._parent sec) = true →
  readable (Section._parent sec) = true →
  NoDup (dict_keys (Section._content sec)) →
  (dict_mem name (Section._content sec) = true →
     ∃ sec',
       Section.remove_item name sec = (inr tt, sec')
       ∧ Section.__contains__ name sec' = (inr false, sec')
       ∧ (∀ k, k ≠ name →
            dict_get k (Section._content sec') = dict_get k (Section._content sec))
       ∧ dict_keys (Section._content sec')
         = List.filter (λ k, negb (String.eqb name k)) (dict_keys (Section._content sec)))
  ∧ (dict_mem name (Section._content sec) = false →
     Section.remove_item name sec
     = (inl (ValueError ("Item with name '" ++ name ++ "' do not exist")), sec)
     ∧ Section.__delitem__ name sec = (inl (KeyError name), sec)).
Proof.
  intros Hw Hr Hnd. split; intros Hm.
  - eexists. split.
    + unfold Section.remove_item, Section.__contains__, Section.__delitem__, dict_delitem.
      py_unfold. rewrite Hr. simpl. rewrite Hm. simpl. rewrite Hw. simpl.
      rewrite Hm. reflexivity.
    + unfold Section.__contains__. py_unfold. simpl. rewrite Hr. simpl.
      split; [|split].
      * unfold dict_mem. by rewrite dict_get_del_eq.
      * intros k Hk. by apply dict_get_del_ne.
      * by apply dict_keys_del_filter.
  - unfold Section.remove_item, Section.__contains__, Section.__delitem__, dict_delitem.
    py_unfold. rewrite Hr, Hw. simpl. by rewrite Hm.
Qed.

Lemma remove_item_removes_witness :
  ∃ sec',
    Section.remove_item "k" (sample_section handle_rw) = (inr tt, sec')
    ∧ Section.__contains__ "k" sec' = (inr false, sec')
    ∧ dict_keys (Section._content sec') = [].
Proof.
  destruct (proj1 (remove_item_removes (sample_section handle_rw) "k" eq_refl eq_refl
                     (NoDup_singleton "k")) eq_refl) as (sec' & H1 & H2 & _ & H3).
  exists sec'. split; [exact H1|]. split; [exact H2|]. exact H3.
Defined.

(** On a handle opened ["w"], which can write and cannot read,
    [remove_item] never removes: it asks whether the name is there first,
    which needs a readable handle.  [del] does remove. *)
Theorem write_only_remove_item (sec : Section.t) (name : string) :
  mode (Section._parent sec) = "w" →
  Section.remove_item name sec = (inl (UnsupportedOperation "Not readable"), sec)
  ∧ (dict_mem name (Section._content sec) = true →
     Section.__delitem__ name sec
     = (inr tt, Section.set_content (dict_del name (Section._content sec)) sec)).
Proof.
  intros Hm. split.
  - unfold Section.remove_item, Section.__contains__, readable. py_unfold. by rewrite Hm.
  - intros Hin. unfold Section.__delitem__, dict_delitem, writable. py_unfold.
    rewrite Hm. simpl. by rewrite Hin.
Qed.

Lemma write_only_remove_item_witness :
  Section.remove_item "k" sample_section_w
  = (inl (UnsupportedOperation "Not readable"), sample_section_w).
Proof. apply (proj1 (write_only_remove_item sample_section_w "k" eq_refl)). Defined.

(** ** Counting the items of a document *)

Lemma Data_len_from (doc : Data.t) (d1 d2 : dict Section.t) (total : nat) :
  Data._sections doc = (d1 ++ d2)%list →
  NoDup (dict_keys (Data._sections doc)) →
  readable (Data._parent doc) = true →
  for_fold (dict_keys d2) total
    (λ total key,
       sec ← Data.__getitem__ key;
       n ← lift (Section.__len__ sec).1;
       mret (total + n)%nat) doc
  = (if forallb (λ kv, readable (Section._parent kv.2)) d2
     then inr (total + length (concat (map (λ kv, map snd (Section._content kv.2)) d2)))%nat
     else inl (UnsupportedOperation "Not readable"), doc).
Proof.
  intros Hd Hnd Hr. revert d1 total Hd.
  induction d2 as [|[k sec] d2 IH]; intros d1 total Hd; simpl.
  - py_unfold. by rewrite Nat.add_0_r.
  - assert (Hk : k ∉ dict_keys d1).
    { rewrite Hd in Hnd. unfold dict_keys in *. rewrite map_app in Hnd.
      apply NoDup_app in Hnd as (_ & Hdisj & _). intros Hin. apply (Hdisj k Hin). simpl. left. }
    unfold mbind at 1, py_bind at 1.
    assert (Hstep :
      (sec0 ← Data.__getitem__ k;
       n ← lift (Section.__len__ sec0).1;
       mret (total + n)%nat) doc
      = (if readable (Section._parent sec)
         then inr (total + length (Section._content sec))%nat
         else inl (UnsupportedOperation "Not readable"), doc)).
    { unfold Data.__getitem__, Section.__len__, dict_getitem. py_unfold.
      rewrite Hr, Hd. simpl. rewrite dict_get_app_absent by done. simpl.
      rewrite String.eqb_refl. simpl. by destruct (readable (Section._parent sec)). }
    rewrite Hstep. destruct (readable (Section._parent sec)); simpl; [|done].
    rewrite (IH (d1 ++ [(k, sec)])%list); [|by rewrite <- app_assoc].
    rewrite length_app, length_map. by rewrite Nat.add_assoc.
Qed.

(** [len(doc)] is the number of items in all the sections together, 0 for
    a document without sections, when the handle of the document and those
    of its sections can read; it raises otherwise, and changes nothing. *)
Theorem Data_len_counts_items (doc : Data.t) :
  NoDup (dict_keys (Data._sections doc)) →
  Data.__len__ doc
  = (if readable (Data._parent doc)
        && forallb (λ kv, readable (Section._parent kv.2)) (Data._sections doc)
     then inr (length (Data_items doc))
     else inl (UnsupportedOperation "Not readable"), doc).
Proof.
  intros Hnd. unfold Data.__len__, Data.__iter__.
  unfold mbind at 1 2, py_bind at 1 2, get.
  destruct (readable (Data._parent doc)) eqn:Hr; simpl; [|done].
  unfold mbind at 1, py_bind at 1, get. rewrite Hr. simpl.
  by apply (Data_len_from doc [] (Data._sections doc) 0).
Qed.

Lemma Data_len_counts_items_witness :
  Data.__len__ (sample_data handle_rw) = (inr 1%nat, sample_data handle_rw)
  ∧ Data.__len__ (sample_data handle_r) = (inr 1%nat, sample_data handle_r)
  ∧ Data.__len__ (sample_data handle_w)
    = (inl (UnsupportedOperation "Not readable"), sample_data handle_w)
  ∧ Data.__len__ (Data.mk handle_rw [])
    = (inr 0%nat, Data.mk handle_rw []).
Proof.
  split; [|split; [|split]].
  - apply (Data_len_counts_items (sample_data handle_rw)). apply NoDup_singleton.
  - apply (Data_len_counts_items (sample_data handle_r)). apply NoDup_singleton.
  - apply (Data_len_counts_items (sample_data handle_w)). apply NoDup_singleton.
  - apply (Data_len_counts_items (Data.mk handle_rw [])). apply NoDup_nil_2.
Defined.

(** ** Ownership throughout a tree *)

Lemma dict_build_Forall {B} (P : B → Prop) (f : value → result B) (obj : value) (d : dict B) :
  (∀ x y, f x = inr y → P y) →
  dict_build f obj = inr d → Forall (λ kv, P kv.2) d.
Proof. intros Hf Hb. by apply (dict_build_wf P f obj d Hf Hb). Qed.

Lemma Item_init_parent (parent : Handle) (title content level data image_id image : value)
    (it : Item.t) :
  Item.__init__ parent title content level data image_id image = inr it →
  Item._parent it = parent.
Proof.
  unfold Item.__init__. destruct (is_None image_id && is_None image); [done|].
  by intros [= <-].
Qed.

Lemma Item_of_kwargs_parent (parent : Handle) (item : value) (it : Item.t) :
  Item.of_kwargs parent item = inr it → Item._parent it = parent.
Proof.
  unfold Item.of_kwargs. py_unfold.
  destruct (kwargs_of item _) as [e|kw]; [done|].
  destruct (required "title" kw) as [e|?]; [done|].
  destruct (required "content" kw) as [e|?]; [done|].
  destruct (required "level" kw) as [e|?]; [done|].
  apply Item_init_parent.
Qed.

Lemma Section_init_owned (parent : Handle) (type description content : value)
    (sec : Section.t) :
  Section.__init__ parent type description content = inr sec →
  Section._parent sec = parent ∧ Section_owned sec.
Proof.
  unfold Section.__init__, Section_owned. py_unfold.
  destruct (dict_build (Item.of_kwargs parent) content) as [e|items] eqn:Hb; [done|].
  intros [= <-]. simpl. split; [done|].
  apply (dict_build_Forall (λ it, hid (Item._parent it) = hid parent)) in Hb; [done|].
  intros x y Hy. by rewrite (Item_of_kwargs_parent _ _ _ Hy).
Qed.

Lemma Section_of_kwargs_owned (parent : Handle) (section : value) (sec : Section.t) :
  Section.of_kwargs parent section = inr sec →
  Section._parent sec = parent ∧ Section_owned sec.
Proof.
  unfold Section.of_kwargs. py_unfold.
  destruct (kwargs_of section _) as [e|kw]; [done|].
  destruct (required "type" kw) as [e|?]; [done|].
  destruct (required "description" kw) as [e|?]; [done|].
  destruct (required "content" kw) as [e|c]; [done|].
  apply Section_init_owned.
Qed.

(** What [import_data] returns is owned by the importing handle
    throughout. *)
Lemma Data_init_owned (parent : Handle) (sections : value) (doc : Data.t) :
  Data.__init__ parent sections = inr doc →
  Data._parent doc = parent ∧ Data_owned doc.
Proof.
  unfold Data.__init__, Data_owned. py_unfold.
  destruct (dict_build (Section.of_kwargs parent) sections) as [e|secs] eqn:Hb; [done|].
  intros [= <-]. simpl. split; [done|].
  apply (dict_build_Forall
           (λ sec, hid (Section._parent sec) = hid parent ∧ Section_owned sec)) in Hb; [done|].
  intros x y Hy. apply Section_of_kwargs_owned in Hy as [-> Hy]. done.
Qed.

Lemma run_item_call_parent (c : item_call) (it it' : Item.t) (r : result unit) :
  run_item_call c it = (r, it') → Item._parent it' = Item._parent it.
Proof.
  destruct c as [name v|name]; simpl.
  - unfold Item.add_data. py_unfold. destruct it as [p ti co im le da]. simpl.
    destruct (writable p); simpl; [|by intros [= _ <-]].
    destruct da; simpl; by intros [= _ <-].
  - unfold Item.remove_data. py_unfold. destruct it as [p ti co im le da]. simpl.
    destruct (writable p); simpl; [|by intros [= _ <-]].
    destruct da as [| |s|d]; simpl; try by intros [= _ <-].
    + destruct (str_in name s); simpl; by intros [= _ <-].
    + destruct (dict_mem name d) eqn:Hm; simpl; [|by intros [= _ <-]].
      unfold dict_delitem. rewrite Hm. simpl.
      destruct (dict_del name d); simpl; by intros [= _ <-].
Qed.

Lemma Section_setitem_owned (key : string) (it : Item.t) (sec sec' : Section.t)
    (r : result unit) :
  Section_owned sec → Section.__setitem__ key it sec = (r, sec') →
  Section._parent sec' = Section._parent sec ∧ Section_owned sec'.
Proof.
  unfold Section_owned, Section.__setitem__. py_unfold. intros Hown.
  destruct (writable _); simpl; [|by intros [= _ <-]].
  destruct (same_handle _ _) eqn:Hs; simpl; intros [= _ <-]; [|done].
  split; [done|]. simpl.
  apply (dict_set_Forall (λ i, hid (Item._parent i) = hid (Section._parent sec))); [|done].
  by apply Nat.eqb_eq in Hs.
Qed.

Lemma Section_delitem_owned (key : string) (sec sec' : Section.t) (r : result unit) :
  Section_owned sec → Section.__delitem__ key sec = (r, sec') →
  Section._parent sec' = Section._parent sec ∧ Section_owned sec'.
Proof.
  unfold Section_owned, Section.__delitem__, dict_delitem. py_unfold. intros Hown.
  destruct (writable _); simpl; [|by intros [= _ <-]].
  destruct (dict_mem key _); simpl; intros [= _ <-]; [|done].
  split; [done|]. simpl.
  by apply (dict_del_Forall (λ i, hid (Item._parent i) = hid (Section._parent sec))).
Qed.

Lemma run_section_call_owned (c : section_call) (sec sec' : Section.t) (r : result unit) :
  Section_owned sec → run_section_call c sec = (r, sec') →
  Section._parent sec' = Section._parent sec ∧ Section_owned sec'.
Proof.
  intros Hown. destruct c; simpl.
  - unfold Section.add_item. unfold mbind at 1 2, py_bind at 1 2, get, lift.
    destruct (Item.__init__ _ _ _ _ _ _ _) as [e|it]; [by intros [= _ <-]|].
    by apply Section_setitem_owned.
  - unfold Section.remove_item, Section.__contains__.
    unfold mbind at 1 2, py_bind at 1 2, get.
    destruct (readable _); simpl; [|by intros [= _ <-]].
    destruct (dict_mem name _); simpl; [|by intros [= _ <-]].
    by apply Section_delitem_owned.
  - unfold mbind, py_bind, lift.
    destruct (new_Item item) as [e|it]; [by intros [= _ <-]|].
    by apply Section_setitem_owned.
  - by apply Section_delitem_owned.
  - unfold Section_on_item, Section.__getitem__, dict_getitem. py_unfold.
    destruct (readable _); simpl; [|by intros [= _ <-]].
    destruct (dict_get key (Section._content sec)) as [it|] eqn:Hget; [|by intros [= _ <-]].
    destruct (run_item_call c it) as [r' it'] eqn:Hrun. intros [= _ <-].
    split; [done|]. unfold Section_owned. simpl.
    apply (dict_set_Forall (λ i, hid (Item._parent i) = hid (Section._parent sec))); [|done].
    rewrite (run_item_call_parent _ _ _ _ Hrun).
    by apply (dict_get_Forall (λ it, hid (Item._parent it) = hid (Section._parent sec))
                key it (Section._content sec)).
Qed.

Lemma Data_setitem_owned (key : string) (sec : Section.t) (doc doc' : Data.t)
    (r : result unit) :
  Data_owned doc → Section_owned sec → Data.__setitem__ key sec doc = (r, doc') →
  Data._parent doc' = Data._parent doc ∧ Data_owned doc'.
Proof.
  unfold Data_owned, Data.__setitem__. py_unfold. intros Hown Hsec.
  destruct (writable _); simpl; [|by intros [= _ <-]].
  destruct (same_handle _ _) eqn:Hs; simpl; intros [= _ <-]; [|done].
  split; [done|]. simpl.
  apply (dict_set_Forall
           (λ s, hid (Section._parent s) = hid (Data._parent doc) ∧ Section_owned s));
    [|done].
  split; [by apply Nat.eqb_eq in Hs | done].
Qed.

Lemma run_data_call_owned (c : data_call) (doc doc' : Data.t) (r : result unit) :
  Data_owned doc → run_data_call c doc = (r, doc') →
  Data._parent doc' = Data._parent doc ∧ Data_owned doc'.
Proof.
  intros Hown. destruct c; simpl.
  - unfold Data.add_section. py_unfold. simpl.
    apply (Data_setitem_owned name (Section.mk (Data._parent doc) type description []));
      [done|]. apply Forall_nil_2.
  - unfold mbind, py_bind, lift.
    destruct (Section.__init__ _ _ _ _) as [e|sec] eqn:Hnew; [by intros [= _ <-]|].
    apply Data_setitem_owned; [done|]. by apply Section_init_owned in Hnew as [_ ?].
  - unfold Data.__delitem__, dict_delitem. py_unfold.
    destruct (writable _); simpl; [|by intros [= _ <-]].
    destruct (dict_mem key _); simpl; intros [= _ <-]; [|done].
    split; [done|].
    by apply (dict_del_Forall
                (λ s, hid (Section._parent s) = hid (Data._parent doc) ∧ Section_owned s)).
  - unfold Data_on_section, Data.__getitem__, dict_getitem. py_unfold.
    destruct (readable _); simpl; [|by intros [= _ <-]].
    destruct (dict_get key (Data._sections doc)) as [sec|] eqn:Hget; [|by intros [= _ <-]].
    destruct (run_section_call c sec) as [r' sec'] eqn:Hrun. intros [= _ <-].
    split; [done|]. unfold Data_owned. simpl.
    pose proof (dict_get_Forall
                  (λ s, hid (Section._parent s) = hid (Data._parent doc) ∧ Section_owned s)
                  key sec (Data._sections doc) Hown Hget) as [Hp Hs].
    apply (dict_set_Forall
             (λ s, hid (Section._parent s) = hid (Data._parent doc) ∧ Section_owned s));
      [|done].
    destruct (run_section_call_owned _ _ _ _ Hs Hrun) as [Hp' Hs'].
    split; [by rewrite Hp' | done].
Qed.

(** The ownership links of a document built through the methods: whatever
    the calls, those that raise included, every section has the handle of
    the document and every item the handle of its section. *)
Theorem built_document_owned (calls : list data_call) (owner : Handle) :
  let doc := after_calls calls (new_Data owner) in
  Data._parent doc = owner ∧ Data_owned doc.
Proof.
  simpl. unfold after_calls.
  assert (Hgen : ∀ doc,
    Data_owned doc →
    Data._parent (fold_left (λ doc c, (run_data_call c doc).2) calls doc) = Data._parent doc
    ∧ Data_owned (fold_left (λ doc c, (run_data_call c doc).2) calls doc)).
  { induction calls as [|c calls IH]; intros doc Hown; simpl; [done|].
    destruct (run_data_call c doc) as [r doc'] eqn:Hrun. simpl.
    destruct (run_data_call_owned _ _ _ _ Hown Hrun) as [Hp Hown'].
    destruct (IH doc' Hown') as [Hp' Hown'']. split; [congruence | done]. }
  apply (Hgen (new_Data owner)). apply Forall_nil_2.
Qed.

(** In a document built through the methods every item has an image id:
    [Item.__init__] refuses to build one without, and no method takes it
    away. *)
Theorem built_items_have_image_id (calls : list data_call) (owner : Handle) :
  Forall (λ it, Item.image_id it ≠ VNone) (Data_items (after_calls calls (new_Data owner))).
Proof.
  destruct (after_calls_wf calls (new_Data owner) (new_Data_wf owner)) as [_ Hsec].
  unfold Data_items. apply Forall_concat. apply Forall_map.
  eapply Forall_impl; [exact Hsec|]. intros [k sec] [_ Hit]. simpl in *.
  apply Forall_map. eapply Forall_impl; [exact Hit|]. by intros [k' it].
Qed.

(** ** Resources of a handle *)

Lemma append_cons (x : Ascii.ascii) (a b : string) : String x a ++ b = String x (a ++ b).
Proof. reflexivity. Qed.

Lemma prefix_append (a b : string) : String.prefix a (a ++ b) = true.
Proof.
  induction a as [|c a IH]; [by destruct b|].
  rewrite append_cons. simpl. by destruct (Ascii.ascii_dec c c).
Qed.

Lemma append_assoc (a b c : string) : (a ++ b) ++ c = a ++ (b ++ c).
Proof. induction a as [|x a IH]; [done|]. rewrite !append_cons. by f_equal. Qed.

Lemma append_inj_l (a b c : string) : a ++ b = a ++ c → b = c.
Proof.
  induction a as [|x a IH]; [done|]. rewrite !append_cons. intros [= Heq]. by apply IH.
Qed.

Lemma plain_name_path (dir name : string) :
  plain_name name → path_join dir name = dir ++ "/" ++ name.
Proof.
  intros (Hslash & _). unfold path_join.
  assert (Hp : String.prefix "/" name = false).
  { destruct name as [|a name]; [done|].
    unfold str_in in Hslash. fold str_in in Hslash.
    by apply orb_false_iff in Hslash as [? _]. }
  by rewrite Hp.
Qed.

Lemma str_in_append (needle a b : string) : str_in needle (a ++ needle ++ b) = true.
Proof.
  induction a as [|x a IH].
  - change ("" ++ needle ++ b) with (needle ++ b).
    destruct (needle ++ b) eqn:E; unfold str_in; fold str_in; rewrite <- E;
      by rewrite prefix_append.
  - rewrite append_cons. unfold str_in. fold str_in. rewrite IH. apply orb_true_r.
Qed.

(** The directory of a file of one component under [dir] is [dir]. *)
Lemma Path_parent_child (dir name : string) :
  str_in "/" name = false → Path_parent (dir ++ "/" ++ name) = dir.
Proof.
  intros Hn. unfold Path_parent. induction dir as [|x d IH].
  - change ("" ++ "/" ++ name) with (String "/" name). simpl. by rewrite Hn.
  - rewrite append_cons. cbn [before_last]. rewrite str_in_append. by rewrite IH.
Qed.

Lemma plain_name_parent (dir name : string) :
  plain_name name → Path_parent (path_join dir name) = dir.
Proof.
  intros Hp. rewrite (plain_name_path _ _ Hp). apply Path_parent_child. apply Hp.
Qed.






(** An id is taken as soon as [add_file] has got to register it, whether
    the bytes have then been staged or not: on a handle that writes, after
    an [add_file] for an id that was free with a source that exists, a
    second [add_file] for the id raises [FileExistsError] whatever the
    source that exists and the internal name, and changes nothing. *)
Theorem add_file_twice (st st' : BDMFile.state) (uuid src file_id : string)
    (internal_name : option string) (r : result unit)
    (uuid2 src2 : string) (internal_name2 : option string) :
  writable (BDMFile.this (BDMFile.self st)) = true →
  is_Some (BDMFile.files st !! src) →
  dict_mem file_id (Info.files (BDMFile.info (BDMFile.self st))) = false →
  BDMFile.add_file uuid src file_id internal_name st = (r, st') →
  is_Some (BDMFile.files st' !! src2) →
  dict_get file_id (Info.files (BDMFile.info (BDMFile.self st')))
  = Some (registered_name uuid src internal_name)
  ∧ BDMFile.add_file uuid2 src2 file_id internal_name2 st'
    = (inl (FileExistsError file_id), st').
Proof.
  intros Hw [c Hsrc] Hreg Hrun Hsrc2.
  assert (Hget : dict_get file_id (Info.files (BDMFile.info (BDMFile.self st')))
                 = Some (registered_name uuid src internal_name)).
  { revert Hrun.
    unfold BDMFile.add_file, BDMFile.Path_exists, BDMFile.write_file, BDMFile.read_bytes,
      BDMFile.write_bytes, dict_getitem. py_unfold.
    rewrite bool_decide_eq_true_2 by (by rewrite Hsrc). simpl.
    rewrite Hreg, Hw. simpl. rewrite Hsrc. simpl. rewrite Hw. simpl.
    rewrite dict_get_set_eq. simpl.
    destruct (bool_decide _); [intros [= _ <-]; simpl; apply dict_get_set_eq|].
    destruct (_ || _); intros [= _ <-]; simpl; apply dict_get_set_eq. }
  split; [done|].
  unfold BDMFile.add_file, BDMFile.Path_exists. py_unfold.
  rewrite bool_decide_eq_true_2 by done. simpl. unfold dict_mem. by rewrite Hget.
Qed.

Lemma add_file_twice_witness :
  (dict_get "img2"
     (Info.files (BDMFile.info (BDMFile.self
        (BDMFile.add_file "u9" "a.bdm" "img2" None (saving_state disk_staged)).2)))
   = Some "u9.bdm"
   ∧ BDMFile.add_file "u10" "a.bdm" "img2" (Some "y.png")
       (BDMFile.add_file "u9" "a.bdm" "img2" None (saving_state disk_staged)).2
     = (inl (FileExistsError "img2"),
        (BDMFile.add_file "u9" "a.bdm" "img2" None (saving_state disk_staged)).2))
  ∧ BDMFile.add_file "u9" "a.bdm" "img2" (Some "sub/x.png") (saving_state disk_staged)
    = (inl (FileNotFoundError "/tmp/u1/files/sub/x.png"),
       (BDMFile.add_file "u9" "a.bdm" "img2" (Some "sub/x.png") (saving_state disk_staged)).2)
  ∧ dict_get "img2"
      (Info.files (BDMFile.info (BDMFile.self
         (BDMFile.add_file "u9" "a.bdm" "img2" (Some "sub/x.png")
            (saving_state disk_staged)).2)))
    = Some "sub/x.png"
  ∧ BDMFile.add_file "u10" "a.bdm" "img2" None
      (BDMFile.add_file "u9" "a.bdm" "img2" (Some "sub/x.png") (saving_state disk_staged)).2
    = (inl (FileExistsError "img2"),
       (BDMFile.add_file "u9" "a.bdm" "img2" (Some "sub/x.png") (saving_state disk_staged)).2).
Proof.
  split; [|split].
  - apply (add_file_twice (saving_state disk_staged) _ "u9" "a.bdm" "img2" None (inr tt)
             "u10" "a.bdm" (Some "y.png")); try reflexivity; by eexists.
  - vm_compute. reflexivity.
  - apply (add_file_twice (saving_state disk_staged) _ "u9" "a.bdm" "img2"
             (Some "sub/x.png") (inl (FileNotFoundError "/tmp/u1/files/sub/x.png"))
             "u10" "a.bdm" None); try (vm_compute; reflexivity); by eexists.
Defined.

(** ** Opening *)



(** A path that holds nothing opens, in the two modes that write, as an
    empty document named [NoName] without resources; the archive is not
    created before [save], and the disk is as it was.  In the mode that
    reads, it is refused with [FileNotFoundError]. *)
Theorem open_new_path `{Pickle} (id : nat) (tempdir uuid target mode : string) (d : disk) :
  valid_mode mode = true →
  d !! target = None →
  ∃ st,
    BDMFile.files st = d ∧ BDMFile.history st = []
    ∧ if String.eqb mode "r"
      then BDMFile.new id tempdir uuid target mode d = (inl (FileNotFoundError target), st)
      else
        BDMFile.new id tempdir uuid target mode d = (inr tt, st)
        ∧ BDMFile.data (BDMFile.self st) = Data.mk (opened id target mode) []
        ∧ BDMFile.info (BDMFile.self st) = Info.mk (opened id target mode) (VStr "NoName") []
        ∧ BDMFile._internal_files_dir (BDMFile.self st)
          = path_join (path_join tempdir uuid) "files".
Proof.
  intros Hmode Hd.
  unfold valid_mode in Hmode.
  unfold BDMFile.new, BDMFile.__init__, BDMFile.Path_exists, BDMFile._setup_temp_env,
    BDMFile.mkdir, valid_mode, writable. py_unfold. simpl.
  destruct (String.eqb mode "r") eqn:Hr.
  - apply String.eqb_eq in Hr. subst mode. simpl.
    rewrite bool_decide_eq_false_2 by (rewrite Hd; by intros [? ?]). simpl.
    eexists (BDMFile.mkState _ _ _ _ _). simpl. repeat split.
  - rewrite orb_false_r in *. rewrite Hmode. simpl.
    repeat (rewrite bool_decide_eq_false_2 by (rewrite Hd; by intros [? ?]); simpl).
    eexists (BDMFile.mkState _ _ _ _ _). simpl. repeat split.
Qed.

Lemma open_new_path_witness :
  ∃ st,
    BDMFile.files st = ∅ ∧ BDMFile.history st = []
    ∧ BDMFile.new 7 "/tmp" "u2" "new.bdm" "w" ∅ = (inr tt, st)
    ∧ BDMFile.data (BDMFile.self st) = Data.mk (opened 7 "new.bdm" "w") []
    ∧ BDMFile.info (BDMFile.self st) = Info.mk (opened 7 "new.bdm" "w") (VStr "NoName") []
    ∧ BDMFile._internal_files_dir (BDMFile.self st) = "/tmp/u2/files".
Proof.
  apply (open_new_path 7 "/tmp" "u2" "new.bdm" "w" ∅); reflexivity.
Defined.

(** Opening to read writes nothing, whatever the path holds and whether
    the archive is accepted or not: the disk is never touched. *)
Theorem open_to_read_never_writes `{Pickle} (id : nat) (tempdir uuid target : string)
    (d : disk) :
  let st := (BDMFile.new id tempdir uuid target "r" d).2 in
  BDMFile.files st = d ∧ BDMFile.history st = [].
Proof.
  unfold BDMFile.new, BDMFile.__init__, BDMFile.Path_exists, BDMFile._check_validity,
    BDMFile._load_data, BDMFile.ZipFile_r, BDMFile.zip_read, BDMFile.self_path.
  py_unfold. simpl. py_unfold. simpl.
  repeat case_match; simpl in *; simplify_eq; done.
Qed.

(** ** A save that meets no error *)

Lemma bind_run {S A B} (m : py S A) (k : A → py S B) (s s1 : S) (a : A) :
  m s = (inr a, s1) → (m ≫= k) s = k a s1.
Proof. intros Hm. unfold mbind, py_bind. by rewrite Hm. Qed.

Lemma syscall_quiet (s : BDMFile.state) :
  BDMFile.faults s = [] → BDMFile.syscall s = (inr tt, s).
Proof. unfold BDMFile.syscall. py_unfold. by intros ->. Qed.

Lemma zip_append_run (p arcname : string) (c : content) (entries : list (string * content))
    (s : BDMFile.state) :
  BDMFile.files s !! p = Some (Zip false entries) →
  BDMFile.zip_append p arcname c s
  = (inr tt,
     BDMFile.set_files (<[p := Zip false (entries ++ [(arcname, c)])]> (BDMFile.files s)) s).
Proof. intros Hp. unfold BDMFile.zip_append. py_unfold. by rewrite Hp. Qed.

Lemma staged_apart_entries (dir target : string) (d : disk) (index : dict string) :
  staged_apart dir target d index → ∃ res, resource_entries dir d index res.
Proof.
  unfold staged_apart, resource_entries. induction 1 as [|[k name] index [[c Hc] _] _ [res IH]].
  - exists []. constructor.
  - exists (("files/" ++ name, c) :: res). by constructor.
Qed.

Lemma Forall2_and_Forall_l {A B} (P : A → B → Prop) (Q : A → Prop) (l : list A)
    (k : list B) :
  Forall2 P l k → Forall Q l → Forall2 (λ x y, P x y ∧ Q x) l k.
Proof.
  induction 1 as [|x y l k HP _ IH]; intros HQ; [constructor|].
  apply Forall_cons in HQ as [HQx HQ]. constructor; [done | by apply IH].
Qed.

Lemma save_files_run (target dir : string) (index : dict string) (d2 : dict string) :
  ∀ (d1 : dict string) (res : list (string * content)) (s : BDMFile.state)
    (es : list (string * content)),
  index = (d1 ++ d2)%list → NoDup (dict_keys index) →
  Forall2 (λ kv e, (e.1 = "files/" ++ kv.2
                    ∧ BDMFile.files s !! path_join dir kv.2 = Some e.2)
                   ∧ path_join dir kv.2 ≠ target) d2 res →
  BDMFile.faults s = [] →
  BDMFile.files s !! target = Some (Zip false es) →
  ∃ s',
    for_each (dict_keys d2)
      (λ file_id,
         file ← lift (dict_getitem file_id index);
         BDMFile.syscall;;
         BDMFile.write target (path_join dir file) ("files/" ++ file)) s
    = (inr tt, s')
    ∧ BDMFile.self s' = BDMFile.self s ∧ BDMFile.faults s' = []
    ∧ BDMFile.files s' = <[target := Zip false (es ++ res)]> (BDMFile.files s).
Proof.
  induction d2 as [|[k name] d2 IH]; intros d1 res s es Hidx Hnd Hres Hf Ht.
  - apply Forall2_nil_inv_l in Hres as ->. exists s. simpl.
    split; [done|]. split; [done|]. split; [done|].
    rewrite app_nil_r. by rewrite insert_id.
  - apply Forall2_cons_inv_l in Hres as ([arc c] & res' & [[Harc Hc] Hne1] & Hres & ->).
    simpl in Harc, Hc, Hne1. subst arc.
    assert (Hk : dict_getitem k index = inr name).
    { unfold dict_getitem. rewrite Hidx. rewrite dict_get_app_absent.
      - simpl. by rewrite String.eqb_refl.
      - rewrite Hidx in Hnd. unfold dict_keys in *. rewrite map_app in Hnd.
        apply NoDup_app in Hnd as (_ & Hdisj & _). intros Hin.
        apply (Hdisj k Hin). simpl. rewrite elem_of_cons. by left. }
    set (e := (String.append "files/" name, c)).
    set (s1 := BDMFile.set_files (<[target := Zip false (es ++ [e])]> (BDMFile.files s)) s).
    destruct (IH (d1 ++ [(k, name)])%list res' s1 (es ++ [e])%list)
      as (s' & Hrun & Hself & Hf' & Hfiles).
    + by rewrite <- app_assoc.
    + done.
    + eapply Forall2_impl; [exact Hres|]. intros [k' n'] [a' c'] [[Ha Hc'] Hn'].
      simpl in *. split; [|done]. split; [done|]. by rewrite lookup_insert_ne.
    + done.
    + subst s1. simpl. by rewrite lookup_insert_eq.
    + exists s'. simpl. split; [|split; [done|split; [done|]]].
      * erewrite bind_run; [exact Hrun|].
        erewrite bind_run; [|unfold lift; rewrite Hk; reflexivity].
        erewrite bind_run; [|by apply syscall_quiet].
        unfold BDMFile.write. erewrite bind_run; [|reflexivity].
        rewrite Hc. by apply zip_append_run.
      * rewrite Hfiles. subst s1. simpl. rewrite insert_insert_eq.
        by rewrite <- app_assoc.
Qed.

Lemma save_entries_run `{Pickle} (target : string) (s : BDMFile.state) (bd bi : bytes)
    (res : list (string * content)) :
  let index := Info.files (BDMFile.info (BDMFile.self s)) in
  let dir := BDMFile._internal_files_dir (BDMFile.self s) in
  BDMFile.faults s = [] →
  Data.export_data (BDMFile.data (BDMFile.self s)) = inr bd →
  Info.export_data (BDMFile.info (BDMFile.self s)) = inr bi →
  NoDup (dict_keys index) →
  resource_entries dir (BDMFile.files s) index res →
  Forall (λ kv, path_join dir kv.2 ≠ target) index →
  ∃ s',
    BDMFile.save_entries target s = (inr tt, s')
    ∧ BDMFile.self s' = BDMFile.self s ∧ BDMFile.faults s' = []
    ∧ BDMFile.files s'
      = <[target := Zip false (("data", Raw bd) :: ("info", Raw bi) :: res)]>
          (BDMFile.files s).
Proof.
  intros index dir Hf Hbd Hbi Hnd Hres Hne.
  set (s1 := BDMFile.set_files (<[target := Zip false []]> (BDMFile.files s)) s).
  set (s2 := BDMFile.set_files
               (<[target := Zip false ([] ++ [("data", Raw bd)])]> (BDMFile.files s1)) s1).
  set (s3 := BDMFile.set_files
               (<[target := Zip false (([] ++ [("data", Raw bd)]) ++ [("info", Raw bi)])]>
                  (BDMFile.files s2)) s2).
  destruct (save_files_run target dir index index [] res s3
              (([] ++ [("data", Raw bd)]) ++ [("info", Raw bi)])%list)
    as (s' & Hrun & Hself & Hf' & Hfiles); [done|done| |done| |].
  - eapply Forall2_impl; [apply (Forall2_and_Forall_l _ _ _ _ Hres Hne)|].
    intros [k n] [a c] [[Ha Hc] Hn]. simpl in *. split; [|done]. split; [done|].
    by rewrite !lookup_insert_ne.
  - simpl. by rewrite lookup_insert_eq.
  - exists s'. split; [|split; [done|split; [done|]]].
    + unfold BDMFile.save_entries.
      erewrite bind_run; [|by apply syscall_quiet].
      erewrite bind_run; [|reflexivity].
      erewrite bind_run; [|reflexivity].
      erewrite bind_run; [|unfold lift; simpl; rewrite Hbd; reflexivity].
      erewrite bind_run; [|by apply syscall_quiet].
      erewrite bind_run;
        [|unfold BDMFile.writestr; apply zip_append_run; simpl; by rewrite lookup_insert_eq].
      erewrite bind_run; [|unfold lift; simpl; rewrite Hbi; reflexivity].
      erewrite bind_run; [|by apply syscall_quiet].
      erewrite bind_run;
        [|unfold BDMFile.writestr; apply zip_append_run; simpl; by rewrite lookup_insert_eq].
      exact Hrun.
    + rewrite Hfiles. simpl. by rewrite !insert_insert_eq.
Qed.

(** [save] on a target that holds nothing: the write phase runs, rolled
    back if it raises, and the container is closed if it does not. *)
Lemma save_unfold_new `{Pickle} (st : BDMFile.state) (arg : option path_arg)
    (target : string) :
  writable (BDMFile.this (BDMFile.self st)) = true →
  save_target st arg = Some target →
  BDMFile.files st !! target = None →
  BDMFile.save arg st
  = (try_except (BDMFile.save_write target None) (BDMFile.save_rollback target None);;
     BDMFile.ZipFile_close target) st.
Proof.
  intros Hw Ht Hp.
  unfold BDMFile.save. unfold mbind at 1, py_bind at 1, get at 1. rewrite Hw. simpl.
  assert (Hrun : ∀ k : option string → py BDMFile.state unit,
    (present ← BDMFile.Path_exists target;
     old_file ← (if (present : bool)
                 then BDMFile.rename target (old_marker target);;
                      mret (Some (old_marker target))
                 else mret None);
     k old_file) st
    = k None st).
  { intros k. unfold BDMFile.Path_exists. py_unfold.
    rewrite bool_decide_eq_false_2 by (rewrite Hp; by intros [? ?]). done. }
  destruct arg as [[s|p]|]; simpl in Ht; [done| |].
  - injection Ht as ->. apply (Hrun (λ old_file, _)).
  - injection Ht as <-. apply (Hrun (λ old_file, _)).
Qed.



(** A save that no error interrupts, in full. *)
Lemma save_quiet `{Pickle} (st : BDMFile.state) (arg : option path_arg) (target : string)
    (bd bi : bytes) (res : list (string * content)) :
  let index := Info.files (BDMFile.info (BDMFile.self st)) in
  let dir := BDMFile._internal_files_dir (BDMFile.self st) in
  writable (BDMFile.this (BDMFile.self st)) = true →
  save_target st arg = Some target →
  BDMFile.faults st = [] →
  Data.export_data (BDMFile.data (BDMFile.self st)) = inr bd →
  Info.export_data (BDMFile.info (BDMFile.self st)) = inr bi →
  NoDup (dict_keys index) →
  staged_apart dir target (BDMFile.files st) index →
  resource_entries dir (BDMFile.files st) index res →
  ∃ st',
    BDMFile.save arg st = (inr tt, st')
    ∧ BDMFile.self st' = BDMFile.self st
    ∧ BDMFile.files st' !! target
      = Some (Zip true (("data", Raw bd) :: ("info", Raw bi) :: res))
    ∧ ∀ p, p ≠ target → p ≠ old_marker target →
           BDMFile.files st' !! p = BDMFile.files st !! p.
Proof.
  intros index dir Hw Ht Hf Hbd Hbi Hnd Hst Hres.
  pose proof (old_marker_ne target) as Hne.
  assert (Hapart : Forall (λ kv : string * string, path_join dir kv.2 ≠ target) index).
  { eapply Forall_impl; [exact Hst|]. by intros kv (_ & ? & _). }
  destruct (BDMFile.files st !! target) as [previous|] eqn:Hp.
  - rewrite (save_unfold _ _ _ _ Hw Ht Hp).
    unfold renamed_aside. rewrite (renamed_aside_eq _ _ _ Hp). simpl.
    set (s1 := BDMFile.set_files _ st).
    destruct (save_entries_run target s1 bd bi res) as (s2 & Hrun & Hself & Hf2 & Hfiles);
      [done|done|done|done| |done|].
    { eapply Forall2_impl; [apply (Forall2_and_Forall_l _ _ _ _ Hres Hst)|].
      intros [k n] [a c] [[Ha Hc] (_ & Hn1 & Hn2)]. simpl in *. split; [done|].
      rewrite lookup_insert_ne by done. by rewrite lookup_delete_ne. }
    assert (Hold : BDMFile.files s2 !! old_marker target = Some previous).
    { rewrite Hfiles. rewrite lookup_insert_ne by done. subst s1. simpl.
      by rewrite lookup_insert_eq. }
    eexists. split; [|split; [|split]].
    + unfold mbind at 1, py_bind at 1, try_except, BDMFile.save_write.
      erewrite bind_run; [|exact Hrun].
      erewrite bind_run; [|by apply syscall_quiet].
      unfold BDMFile.remove. erewrite bind_run; [|reflexivity]. rewrite Hold.
      unfold put, BDMFile.ZipFile_close. erewrite bind_run; [|reflexivity]. simpl.
      rewrite lookup_delete_ne by done. rewrite Hfiles. rewrite lookup_insert_eq.
      reflexivity.
    + simpl. by rewrite Hself.
    + simpl. by rewrite lookup_insert_eq.
    + intros p Hpt Hpo. simpl. rewrite lookup_insert_ne by done.
      rewrite lookup_delete_ne by done. rewrite ?Hfiles. rewrite lookup_insert_ne by done.
      subst s1. simpl. rewrite lookup_insert_ne by done. by rewrite lookup_delete_ne.
  - rewrite (save_unfold_new _ _ _ Hw Ht Hp).
    destruct (save_entries_run target st bd bi res) as (s2 & Hrun & Hself & Hf2 & Hfiles);
      [done|done|done|done|done|done|].
    eexists. split; [|split; [|split]].
    + unfold mbind at 1, py_bind at 1, try_except, BDMFile.save_write.
      erewrite bind_run; [|exact Hrun].
      unfold mret at 1, py_ret at 1.
      unfold BDMFile.ZipFile_close. erewrite bind_run; [|reflexivity].
      rewrite Hfiles. rewrite lookup_insert_eq. reflexivity.
    + simpl. by rewrite Hself.
    + simpl. by rewrite lookup_insert_eq.
    + intros p Hpt Hpo. simpl. rewrite lookup_insert_ne by done.
      rewrite ?Hfiles. by rewrite lookup_insert_ne.
Qed.

(** ** Reading an archive back *)

Lemma dict_get_app {V} (k : string) (d1 d2 : dict V) :
  dict_get k (d1 ++ d2)%list
  = match dict_get k d1 with Some v => Some v | None => dict_get k d2 end.
Proof.
  induction d1 as [|[k' v'] d1 IH]; simpl; [done|]. by destruct (String.eqb k k').
Qed.

Lemma dict_get_Some_elem {V} (k : string) (v : V) (d : dict V) :
  dict_get k d = Some v → (k, v) ∈ d.
Proof.
  induction d as [|[k' v'] d IH]; simpl; [done|].
  destruct (String.eqb k k') eqn:E.
  - apply String.eqb_eq in E. intros [= ->]. subst. rewrite elem_of_cons. by left.
  - intros Hd. rewrite elem_of_cons. right. by apply IH.
Qed.

Lemma dict_get_functional {V} (k : string) (v : V) (d : dict V) :
  (k, v) ∈ d → (∀ v', (k, v') ∈ d → v' = v) → dict_get k d = Some v.
Proof.
  induction d as [|[k' v'] d IH]; simpl; intros Hin Hall.
  - by apply elem_of_nil in Hin.
  - destruct (String.eqb k k') eqn:E.
    + apply String.eqb_eq in E. subst k'. f_equal. apply Hall. rewrite elem_of_cons. by left.
    + apply String.eqb_neq in E. apply IH.
      * apply elem_of_cons in Hin as [[= ? ?]|Hin]; [done|done].
      * intros v0 Hv0. apply Hall. rewrite elem_of_cons. by right.
Qed.

Lemma elem_of_rev {A} (x : A) (l : list A) : x ∈ rev l ↔ x ∈ l.
Proof. rewrite !list_elem_of_In. symmetry. apply in_rev. Qed.

Lemma zip_entry_keys (name : string) (entries : list (string * content)) (c : content) :
  zip_entry name entries = Some c → name ∈ dict_keys entries.
Proof.
  unfold zip_entry. intros Hget. apply dict_get_Some_elem in Hget.
  apply (proj1 (elem_of_rev _ _)) in Hget. unfold dict_keys.
  apply list_elem_of_In. apply list_elem_of_In in Hget. apply (in_map fst) in Hget. exact Hget.
Qed.

Lemma zip_entry_cons_ne (name k : string) (c : content) (entries : list (string * content)) :
  name ≠ k → zip_entry name ((k, c) :: entries) = zip_entry name entries.
Proof.
  intros Hne. unfold zip_entry. simpl. rewrite dict_get_app. simpl.
  apply String.eqb_neq in Hne. rewrite Hne. by destruct (dict_get name (rev entries)).
Qed.

Lemma zip_entry_cons_absent (name : string) (c : content)
    (entries : list (string * content)) :
  name ∉ dict_keys entries → zip_entry name ((name, c) :: entries) = Some c.
Proof.
  intros Habs. unfold zip_entry. simpl. rewrite dict_get_app_absent.
  - simpl. by rewrite String.eqb_refl.
  - unfold dict_keys in *. rewrite map_rev. by rewrite elem_of_rev.
Qed.

Lemma resource_entries_keys (dir : string) (d : disk) (index : dict string)
    (res : list (string * content)) (k : string) :
  resource_entries dir d index res → k ∈ dict_keys res →
  ∃ name, k = String.append "files/" name.
Proof.
  induction 1 as [|[id name] [arc c] index res [Harc _] _ IH]; simpl.
  - intros Hin. by apply elem_of_nil in Hin.
  - rewrite elem_of_cons. intros [->|Hin]; [by exists name | by apply IH].
Qed.

Lemma resource_name_inj (a b : string) :
  String.append "files/" a = String.append "files/" b → a = b.
Proof. simpl. intros [= Heq]. exact Heq. Qed.

(** In the container that a save writes, the entry of a resource holds the
    bytes of its staged file. *)
Lemma resource_entries_entry (dir : string) (d : disk) (index : dict string)
    (res : list (string * content)) (file_id name : string) (c : content) :
  resource_entries dir d index res →
  dict_get file_id index = Some name →
  d !! path_join dir name = Some c →
  zip_entry (String.append "files/" name) res = Some c.
Proof.
  intros Hres Hget Hc. apply dict_get_Some_elem in Hget.
  unfold zip_entry. apply dict_get_functional.
  - apply elem_of_rev. clear -Hres Hget Hc.
    induction Hres as [|[id n] [arc c'] index res [Harc Hc'] _ IH]; cbn [fst snd] in *.
    + by apply elem_of_nil in Hget.
    + rewrite elem_of_cons. apply elem_of_cons in Hget as [Heq|Hget].
      * left. injection Heq as <- <-. subst arc. f_equal. congruence.
      * right. by apply IH.
  - intros c' Hin. apply (proj1 (elem_of_rev _ _)) in Hin. clear -Hres Hin Hc.
    induction Hres as [|[id n] [arc c0] index res [Harc Hc0] _ IH]; cbn [fst snd] in *.
    + by apply elem_of_nil in Hin.
    + apply elem_of_cons in Hin as [Heq|Hin]; [|by apply IH].
      injection Heq as Heq <-. rewrite Harc in Heq. apply resource_name_inj in Heq.
      subst n. congruence.
Qed.

Lemma Info_export_import `{Pickle} (info : Info.t) (parent : Handle) :
  NoDup (dict_keys (Info.files info)) →
  pickled (Info.export_dict info) →
  ∃ payload,
    Info.export_data info = inr payload
    ∧ Info.import_data payload parent = inr (Info_imported parent info).
Proof.
  intros Hnd (payload & Hdump & Hload). exists payload. split; [done|].
  unfold Info.import_data. rewrite Hload. simpl.
  rewrite <- (Info_round_trip parent info VERSION Hnd); [|done].
  reflexivity.
Qed.

(** Opening to read an archive whose two payloads import. *)
Lemma open_to_read_run `{Pickle} (id : nat) (tempdir uuid target : string) (d : disk)
    (entries : list (string * content)) (bd bi : bytes) (doc : Data.t) (info : Info.t) :
  d !! target = Some (Zip true entries) →
  zip_entry "data" entries = Some (Raw bd) →
  zip_entry "info" entries = Some (Raw bi) →
  Data.import_data bd (opened id target "r") = inr doc →
  Info.import_data bi (opened id target "r") = inr info →
  BDMFile.new id tempdir uuid target "r" d
  = (inr tt, BDMFile.mkState (BDMFile.mk (opened id target "r") "" "" info doc) d [] [] ∅).
Proof.
  intros Hd Hzd Hzi Hdoc Hinfo.
  pose proof (zip_entry_keys _ _ _ Hzd) as Hkd.
  pose proof (zip_entry_keys _ _ _ Hzi) as Hki.
  unfold BDMFile.new, BDMFile.__init__, BDMFile.Path_exists, BDMFile._check_validity,
    BDMFile._load_data, BDMFile.ZipFile_r, BDMFile.zip_read, BDMFile.self_path, opened in *.
  py_unfold. simpl. py_unfold. simpl.
  repeat (first [ rewrite Hd | rewrite bool_decide_eq_true_2 by (done || by rewrite Hd)
                | rewrite Hzd | rewrite Hdoc | rewrite Hzi | rewrite Hinfo ]; simpl).
  done.
Qed.

(** A save that no error interrupts, then the target opened to read: the
    new handle holds the same document and the same index, as its own, and
    every resource reads as the staged file it was saved from.  The
    internal names are single path components, which the container codec
    keeps as they are. *)
Theorem save_then_open_to_read `{Pickle} (st : BDMFile.state) (arg : option path_arg)
    (target : string) (id : nat) (tempdir uuid : string) :
  let doc := BDMFile.data (BDMFile.self st) in
  let info := BDMFile.info (BDMFile.self st) in
  let dir := BDMFile._internal_files_dir (BDMFile.self st) in
  writable (BDMFile.this (BDMFile.self st)) = true →
  save_target st arg = Some target →
  BDMFile.faults st = [] →
  Data_wf doc → pickled (Data.export_dict doc) →
  NoDup (dict_keys (Info.files info)) → pickled (Info.export_dict info) →
  Forall (λ kv, plain_name kv.2) (Info.files info) →
  staged_apart dir target (BDMFile.files st) (Info.files info) →
  ∃ st1 st2,
    BDMFile.save arg st = (inr tt, st1)
    ∧ BDMFile.new id tempdir uuid target "r" (BDMFile.files st1) = (inr tt, st2)
    ∧ BDMFile.data (BDMFile.self st2) = Data_adopt (opened id target "r") doc
    ∧ BDMFile.info (BDMFile.self st2) = Info_adopt (opened id target "r") info
    ∧ ∀ file_id name c,
        dict_get file_id (Info.files info) = Some name →
        BDMFile.files st !! path_join dir name = Some c →
        BDMFile.read_file file_id st2 = (inr c, st2).
Proof.
  intros doc info dir Hw Ht Hf Hwf Hpd Hnd Hpi Hplain Hst.
  destruct (Data_export_import doc (opened id target "r") Hwf Hpd) as (bd & Hbd & Hdoc).
  destruct (Info_export_import info (opened id target "r") Hnd Hpi) as (bi & Hbi & Hinfo).
  rewrite (Info_imported_plain _ _ Hplain) in Hinfo.
  destruct (staged_apart_entries _ _ _ _ Hst) as [res Hres].
  destruct (save_quiet st arg target bd bi res Hw Ht Hf Hbd Hbi Hnd Hst Hres)
    as (st1 & Hsave & Hself & Htarget & _).
  assert (Hkeys : ∀ k, k ∈ dict_keys res → k ≠ "data" ∧ k ≠ "info").
  { intros k Hk. destruct (resource_entries_keys _ _ _ _ _ Hres Hk) as [name ->].
    split; discriminate. }
  assert (Hzd : zip_entry "data" (("data", Raw bd) :: ("info", Raw bi) :: res)
                = Some (Raw bd)).
  { apply zip_entry_cons_absent. simpl. rewrite not_elem_of_cons. split; [done|].
    intros Hin. by apply Hkeys in Hin as [? _]. }
  assert (Hzi : zip_entry "info" (("data", Raw bd) :: ("info", Raw bi) :: res)
                = Some (Raw bi)).
  { rewrite zip_entry_cons_ne by done. apply zip_entry_cons_absent.
    intros Hin. by apply Hkeys in Hin as [_ ?]. }
  eexists st1, _. split; [exact Hsave|].
  split; [exact (open_to_read_run id tempdir uuid target _ _ bd bi _ _ Htarget Hzd Hzi
                   Hdoc Hinfo)|].
  split; [done|]. split; [done|].
  intros file_id name c Hname Hc.
  unfold BDMFile.read_file, BDMFile.ZipFile_r, BDMFile.zip_read, BDMFile.self_path,
    dict_getitem. py_unfold. simpl. rewrite Htarget. fold info. rewrite Hname. simpl.
  rewrite !zip_entry_cons_ne by discriminate.
  by rewrite (resource_entries_entry _ _ _ _ _ _ _ Hres Hname Hc).
Qed.

Lemma save_then_open_to_read_witness :
  ∃ st1 st2,
    BDMFile.save None (saving_state disk_staged) = (inr tt, st1)
    ∧ BDMFile.new 7 "/tmp" "u2" "a.bdm" "r" (BDMFile.files st1) = (inr tt, st2)
    ∧ BDMFile.data (BDMFile.self st2)
      = Data_adopt (opened 7 "a.bdm" "r") (sample_data handle_rw)
    ∧ BDMFile.info (BDMFile.self st2)
      = Info_adopt (opened 7 "a.bdm" "r") (sample_info_img handle_rw)
    ∧ ∀ file_id name c,
        dict_get file_id [("img1", "x.png")] = Some name →
        disk_staged !! path_join "/tmp/u1/files" name = Some c →
        BDMFile.read_file file_id st2 = (inr c, st2).
Proof.
  apply (save_then_open_to_read (saving_state disk_staged) None "a.bdm" 7 "/tmp" "u2").
  - reflexivity.
  - reflexivity.
  - reflexivity.
  - split; [apply NoDup_singleton|].
    apply Forall_singleton. split; [apply NoDup_singleton|].
    apply Forall_singleton. discriminate.
  - eexists. split; [reflexivity | vm_compute; reflexivity].
  - apply NoDup_singleton.
  - eexists. split; [reflexivity | vm_compute; reflexivity].
  - apply Forall_singleton. split; [reflexivity|]. split; [reflexivity|].
    apply (bool_decide_unpack _). vm_compute. exact I.
  - apply Forall_singleton. split; [by eexists|]. split; discriminate.
Defined.

(** ** Staging *)

Lemma under_child (root name : string) : under root (root ++ "/" ++ name) = true.
Proof. unfold under. rewrite <- append_assoc. apply prefix_append. Qed.

Lemma staging_at_refl (root : string) (s : BDMFile.state) : staging_at root s s.
Proof. by repeat split. Qed.

Lemma staging_at_trans (root : string) (s1 s2 s3 : BDMFile.state) :
  staging_at root s1 s2 → staging_at root s2 s3 → staging_at root s1 s3.
Proof.
  intros (Hs1 & Hf1 & Hd1) (Hs2 & Hf2 & Hd2). split; [congruence|]. split.
  - intros p Hp. by rewrite Hf2, Hf1.
  - by etrans.
Qed.

(** Making a directory touches no file. *)
Lemma mkdir_missing_inv (q next : string) (s s' : BDMFile.state) (r : result unit) :
  BDMFile.mkdir_missing q next s = (r, s') →
  BDMFile.self s' = BDMFile.self s ∧ BDMFile.files s' = BDMFile.files s
  ∧ BDMFile.dirs s ⊆ BDMFile.dirs s'
  ∧ (r = inr tt → q ∈ BDMFile.dirs s').
Proof.
  unfold BDMFile.mkdir_missing. py_unfold.
  destruct (bool_decide (q ∈ BDMFile.dirs s)) eqn:Hq.
  { apply bool_decide_eq_true_1 in Hq. by intros [= <- <-]. }
  destruct (bool_decide (is_Some _)); intros [= <- <-]; simpl; [done|].
  repeat split; set_solver.
Qed.

Lemma mkdir_member_inv (p : string) (s s' : BDMFile.state) (r : result unit) :
  BDMFile.mkdir_member p s = (r, s') →
  BDMFile.self s' = BDMFile.self s ∧ BDMFile.files s' = BDMFile.files s
  ∧ BDMFile.dirs s ⊆ BDMFile.dirs s'
  ∧ (r = inr tt → p ∈ BDMFile.dirs s').
Proof.
  unfold BDMFile.mkdir_member. py_unfold.
  destruct (bool_decide (p ∈ BDMFile.dirs s)) eqn:Hq.
  { apply bool_decide_eq_true_1 in Hq. by intros [= <- <-]. }
  destruct (bool_decide (is_Some _)); intros [= <- <-]; simpl; [done|].
  repeat split; set_solver.
Qed.

Lemma makedirs_inv (upper : list (string * string)) (s s' : BDMFile.state)
    (r : result unit) :
  for_each upper (λ qn, BDMFile.mkdir_missing qn.1 qn.2) s = (r, s') →
  BDMFile.self s' = BDMFile.self s ∧ BDMFile.files s' = BDMFile.files s
  ∧ BDMFile.dirs s ⊆ BDMFile.dirs s'.
Proof.
  revert s. induction upper as [|[q next] upper IH]; intros s; simpl.
  - by intros [= _ <-].
  - intros Hrun. apply bind_inv in Hrun as [(e & Hm & _)|([] & s1 & Hm & Hrun)].
    + by apply mkdir_missing_inv in Hm as (? & ? & ? & _).
    + apply mkdir_missing_inv in Hm as (Hs1 & Hf1 & Hd1 & _).
      apply IH in Hrun as (Hs & Hf & Hd). split; [congruence|]. split; [congruence|].
      by etrans.
Qed.

(** What [write_bytes] does when it returns, and what it leaves in any
    case. *)
Lemma write_bytes_inv (p : string) (c : content) (s s' : BDMFile.state) (r : result unit) :
  BDMFile.write_bytes p c s = (r, s') →
  BDMFile.self s' = BDMFile.self s ∧ BDMFile.dirs s' = BDMFile.dirs s
  ∧ (∀ q, q ≠ p → BDMFile.files s' !! q = BDMFile.files s !! q)
  ∧ (r = inr tt → BDMFile.files s' = <[p := c]> (BDMFile.files s)).
Proof.
  unfold BDMFile.write_bytes. py_unfold.
  destruct (bool_decide (p ∈ BDMFile.dirs s)); [by intros [= <- <-]|].
  destruct (_ || _); intros [= <- <-]; simpl; [|done].
  split; [done|]. split; [done|]. split; [|done].
  intros q Hq. by rewrite lookup_insert_ne.
Qed.

(** Extraction writes under its directory only. *)
Lemma extract_member_staged (entries : list (string * content)) (root member : string)
    (s s' : BDMFile.state) (r : result unit) :
  BDMFile._extract_member entries root member s = (r, s') →
  staging_at root s s'.
Proof.
  unfold BDMFile._extract_member, BDMFile.zip_read. intros Hrun.
  apply bind_inv in Hrun as [(e & Hz & _)|(c & s0 & Hz & Hrun)].
  { destruct (zip_entry member entries); injection Hz as _ <-; apply staging_at_refl. }
  destruct (zip_entry member entries); [|done]. injection Hz as _ <-.
  destruct (negb (ends_with_slash member) && _) eqn:Hempty.
  { injection Hrun as _ <-. apply staging_at_refl. }
  apply bind_inv in Hrun as [(e & Hm & _)|([] & s1 & Hm & Hrun)].
  { apply makedirs_inv in Hm as (Hs & Hf & Hd). split; [done|]. split; [|done].
    intros p _. by rewrite Hf. }
  apply makedirs_inv in Hm as (Hs1 & Hf1 & Hd1).
  destruct (ends_with_slash member).
  - apply mkdir_member_inv in Hrun as (Hs & Hf & Hd & _).
    split; [congruence|]. split; [|by etrans]. intros p _. congruence.
  - simpl in Hempty. rewrite Hempty in Hrun.
    apply write_bytes_inv in Hrun as (Hs & Hd & Hf & _).
    split; [congruence|]. split; [|by rewrite Hd]. intros p Hp.
    rewrite Hf; [by rewrite Hf1|].
    intros ->. by rewrite under_child in Hp.
Qed.

Lemma extract_members_staged (entries : list (string * content)) (root : string)
    (members : list string) (s s' : BDMFile.state) (r : result unit) :
  for_each members (BDMFile._extract_member entries root) s = (r, s') →
  staging_at root s s'.
Proof.
  revert s. induction members as [|m members IH]; intros s; simpl.
  - intros [= _ <-]. apply staging_at_refl.
  - intros Hrun. apply bind_inv in Hrun as [(e & Hm & _)|([] & s1 & Hm & Hrun)].
    + by apply extract_member_staged in Hm.
    + apply extract_member_staged in Hm. apply IH in Hrun.
      by apply (staging_at_trans _ _ s1).
Qed.

Lemma ZipFile_r_state (p : string) (s s' : BDMFile.state)
    (r : result (list (string * content))) :
  BDMFile.ZipFile_r p s = (r, s') → s' = s.
Proof.
  unfold BDMFile.ZipFile_r. py_unfold. repeat case_match; by intros [= _ <-].
Qed.

Lemma extract_files_staged (s s' : BDMFile.state) (r : result unit) :
  BDMFile._extract_files s = (r, s') →
  staging_at (BDMFile._internal_root_dir (BDMFile.self s)) s s'.
Proof.
  unfold BDMFile._extract_files. intros Hrun.
  apply bind_inv in Hrun as [(e & Hg & _)|(st & s0 & Hg & Hrun)]; [discriminate Hg|].
  injection Hg as <- <-.
  apply bind_inv in Hrun as [(e & Hz & _)|(entries & s1 & Hz & Hrun)].
  { apply ZipFile_r_state in Hz as ->. apply staging_at_refl. }
  apply ZipFile_r_state in Hz as ->.
  apply bind_inv in Hrun as [(e & Hl & _)|(namelist & s1 & Hl & Hrun)].
  { unfold lift in Hl. injection Hl as _ <-. apply staging_at_refl. }
  unfold lift in Hl. injection Hl as _ <-.
  by apply extract_members_staged in Hrun.
Qed.

Lemma check_validity_state (s s' : BDMFile.state) (r : result unit) :
  BDMFile._check_validity s = (r, s') → s' = s.
Proof.
  unfold BDMFile._check_validity. py_unfold. simpl. py_unfold.
  repeat case_match; simplify_eq; by intros [= _ <-].
Qed.

Lemma load_data_inv `{Pickle} (s s' : BDMFile.state) (r : result unit) :
  BDMFile._load_data s = (r, s') →
  BDMFile.files s' = BDMFile.files s
  ∧ BDMFile.dirs s' = BDMFile.dirs s
  ∧ BDMFile.this (BDMFile.self s') = BDMFile.this (BDMFile.self s)
  ∧ BDMFile._internal_root_dir (BDMFile.self s') = BDMFile._internal_root_dir (BDMFile.self s)
  ∧ BDMFile._internal_files_dir (BDMFile.self s')
    = BDMFile._internal_files_dir (BDMFile.self s).
Proof.
  unfold BDMFile._load_data, BDMFile.ZipFile_r, BDMFile.zip_read. py_unfold.
  repeat case_match; simplify_eq; by intros [= _ <-].
Qed.

Lemma Path_exists_run (p : string) (s : BDMFile.state) :
  BDMFile.Path_exists p s = (inr (bool_decide (is_Some (BDMFile.files s !! p))), s).
Proof. reflexivity. Qed.

(** The staging area when it has been set up: the two directories are
    there, and what has been extracted is under the first. *)
Lemma setup_temp_env_inv (tempdir uuid : string) (s s' : BDMFile.state) :
  let root := path_join tempdir uuid in
  BDMFile._setup_temp_env tempdir uuid s = (inr tt, s') →
  BDMFile.this (BDMFile.self s') = BDMFile.this (BDMFile.self s)
  ∧ BDMFile._internal_root_dir (BDMFile.self s') = root
  ∧ BDMFile._internal_files_dir (BDMFile.self s') = path_join root "files"
  ∧ (∀ p, under root p = false → BDMFile.files s' !! p = BDMFile.files s !! p)
  ∧ root ∈ BDMFile.dirs s' ∧ path_join root "files" ∈ BDMFile.dirs s'.
Proof.
  intros root. unfold BDMFile._setup_temp_env. fold root. intros Hrun.
  apply bind_inr in Hrun as (? & ? & Hg & Hrun). injection Hg as <- <-.
  apply bind_inr in Hrun as ([] & s1 & Hp & Hrun). injection Hp as <-.
  apply bind_inr in Hrun as ([] & s2 & Hmk & Hrun). injection Hmk as <-.
  apply bind_inr in Hrun as (present & s3 & Hpe & Hrun).
  rewrite Path_exists_run in Hpe. injection Hpe as <- <-.
  apply bind_inr in Hrun as ([] & s4 & Hext & Hrun).
  apply bind_inr in Hrun as (? & ? & Hg & Hrun). injection Hg as <- <-.
  apply bind_inr in Hrun as ([] & s5 & Hp & Hrun). injection Hp as <-.
  simpl in Hext, Hrun.
  destruct (bool_decide _).
  - apply extract_files_staged in Hext as (Hs & Hf & Hd). simpl in Hs, Hf, Hd.
    apply mkdir_member_inv in Hrun as (Hs' & Hf' & Hd' & Hin). simpl in Hs', Hf', Hd'.
    rewrite Hs', Hf'. simpl. rewrite Hs. simpl.
    split; [done|]. split; [done|]. split; [done|]. split; [exact Hf|].
    split; [set_solver | by apply Hin].
  - injection Hext as <-. injection Hrun as <-. simpl.
    split; [done|]. split; [done|]. split; [done|]. split; [done|]. set_solver.
Qed.

(** What a handle has staged when it has been opened: nothing if it only
    reads, and files under its own directory only if it writes. *)
Lemma open_staged `{Pickle} (id : nat) (tempdir uuid target mode : string)
    (d : disk) (st : BDMFile.state) :
  BDMFile.new id tempdir uuid target mode d = (inr tt, st) →
  BDMFile.this (BDMFile.self st) = opened id target mode
  ∧ valid_mode mode = true
  ∧ (writable (opened id target mode) = true →
     BDMFile._internal_root_dir (BDMFile.self st) = path_join tempdir uuid
     ∧ BDMFile._internal_files_dir (BDMFile.self st)
       = path_join (path_join tempdir uuid) "files"
     ∧ (∀ p, under (path_join tempdir uuid) p = false → BDMFile.files st !! p = d !! p)
     ∧ path_join tempdir uuid ∈ BDMFile.dirs st
     ∧ path_join (path_join tempdir uuid) "files" ∈ BDMFile.dirs st)
  ∧ (writable (opened id target mode) = false → BDMFile.files st = d).
Proof.
  unfold BDMFile.new, BDMFile.__init__, opened. intros Hnew.
  apply bind_inr in Hnew as (? & ? & Hg & Hnew). injection Hg as <- <-.
  apply bind_inr in Hnew as ([] & s1 & Hp & Hnew). injection Hp as <-.
  destruct (valid_mode mode) eqn:Hvm; [|discriminate Hnew]. simpl in Hnew.
  apply bind_inr in Hnew as ([] & s2 & Hp & Hnew). injection Hp as <-.
  apply bind_inr in Hnew as (present & s3 & Hpe & Hnew).
  rewrite Path_exists_run in Hpe. injection Hpe as <- <-. simpl in Hnew.
  apply bind_inr in Hnew as ([] & s4 & Hcv & Hnew).
  assert (s4 = BDMFile.set_self
                 (BDMFile.mk (mkHandle id target mode) "" "" (Info.mk (mkHandle id "" "") VNone [])
                    (Data.mk (mkHandle id "" "") []))
                 (BDMFile.mkState (BDMFile.allocated id) d [] [] ∅)) as ->.
  { destruct (bool_decide (is_Some (d !! target)));
      [by apply check_validity_state in Hcv | by injection Hcv]. }
  clear Hcv.
  set (s0 := BDMFile.set_self _ _) in Hnew.
  assert (Hthis0 : BDMFile.this (BDMFile.self s0) = mkHandle id target mode) by done.
  assert (Hfiles0 : BDMFile.files s0 = d) by done.
  clearbody s0.
  destruct (negb (bool_decide (is_Some (d !! target))) && String.eqb mode "r");
    [discriminate Hnew|].
  apply bind_inr in Hnew as ([] & s5 & Hsetup & Hnew).
  assert (Htail : BDMFile.files st = BDMFile.files s5
                  ∧ BDMFile.dirs st = BDMFile.dirs s5
                  ∧ BDMFile.this (BDMFile.self st) = BDMFile.this (BDMFile.self s5)
                  ∧ BDMFile._internal_root_dir (BDMFile.self st)
                    = BDMFile._internal_root_dir (BDMFile.self s5)
                  ∧ BDMFile._internal_files_dir (BDMFile.self st)
                    = BDMFile._internal_files_dir (BDMFile.self s5)).
  { destruct (negb (bool_decide (is_Some (d !! target)))).
    - revert Hnew. py_unfold. simpl. by intros [= <-].
    - by apply load_data_inv in Hnew. }
  destruct Htail as (Hf & Hd & Ht & Hr & Hfd). clear Hnew.
  destruct (writable (mkHandle id target mode)) eqn:Hw.
  - apply setup_temp_env_inv in Hsetup as (Ht5 & Hr5 & Hfd5 & Hf5 & Hd5 & Hd5').
    split; [by rewrite Ht, Ht5|]. split; [done|]. split; [|done]. intros _.
    split; [by rewrite Hr|]. split; [by rewrite Hfd|].
    split; [intros p Hp; by rewrite Hf, Hf5, Hfiles0|]. by rewrite Hd.
  - injection Hsetup as <-.
    split; [by rewrite Ht|]. split; [done|]. split; [done|]. intros _.
    by rewrite Hf.
Qed.

(** Opening and closing leaves no trace: when [BDMFile(path, mode)] has
    returned, in any mode, [close] gives back the disk as it was before the
    handle was opened, the staging directory being a new one. *)
Theorem open_then_close_leaves_no_trace `{Pickle} (id : nat)
    (tempdir uuid target mode : string) (d : disk) (st : BDMFile.state) :
  (∀ p, under (path_join tempdir uuid) p = true → d !! p = None) →
  BDMFile.new id tempdir uuid target mode d = (inr tt, st) →
  ∃ st', BDMFile.close st = (inr tt, st') ∧ BDMFile.files st' = d.
Proof.
  intros Hfresh Hnew.
  destruct (open_staged _ _ _ _ _ _ _ Hnew) as (Hthis & _ & Hwr & Hro).
  unfold BDMFile.close, BDMFile.rmtree. py_unfold. rewrite Hthis.
  destruct (writable (opened id target mode)) eqn:Hw.
  - destruct (Hwr eq_refl) as (Hroot & _ & Hfiles & Hdir & _).
    rewrite Hroot. rewrite bool_decide_eq_true_2 by done. simpl.
    eexists. split; [done|]. simpl.
    apply map_eq. intros p.
    destruct (under (path_join tempdir uuid) p) eqn:Hp.
    + rewrite (Hfresh p Hp). apply map_lookup_filter_None_2. right.
      intros c _. simpl. unfold under in Hp. by rewrite Hp.
    + rewrite <- (Hfiles p Hp).
      destruct (BDMFile.files st !! p) as [c|] eqn:Hc.
      * by apply map_lookup_filter_Some_2.
      * apply map_lookup_filter_None_2. by left.
  - exists st. split; [done|]. by apply Hro.
Qed.

Lemma open_then_close_leaves_no_trace_witness :
  ∃ st',
    BDMFile.close (BDMFile.new 7 "/tmp" "u2" "a.bdm" "r+" sample_saved).2 = (inr tt, st')
    ∧ BDMFile.files st' = sample_saved.
Proof.
  apply (open_then_close_leaves_no_trace 7 "/tmp" "u2" "a.bdm" "r+").
  - intros p Hp. unfold sample_saved. rewrite lookup_insert_ne; [apply lookup_empty|].
    intros <-. vm_compute in Hp. discriminate Hp.
  - vm_compute. reflexivity.
Defined.

Lemma list_remove_inv (x : string) (l l' : list string) :
  list_remove x l = inr l' →
  (∀ y, y ∈ l' → y ∈ l) ∧ (∀ y, y ≠ x → y ∈ l → y ∈ l').
Proof.
  revert l'. induction l as [|z l IH]; intros l'; simpl; [done|].
  destruct (String.eqb x z) eqn:E.
  - apply String.eqb_eq in E. subst z. intros [= <-]. split.
    + intros y Hy. rewrite elem_of_cons. by right.
    + intros y Hne Hy. apply elem_of_cons in Hy as [->|Hy]; done.
  - destruct (list_remove x l) as [e|l0]; simpl; [done|]. intros [= <-].
    destruct (IH l0 eq_refl) as [IH1 IH2]. split.
    + intros y Hy. rewrite elem_of_cons. apply elem_of_cons in Hy as [->|Hy]; auto.
    + intros y Hne Hy. rewrite elem_of_cons. apply elem_of_cons in Hy as [->|Hy]; auto.
Qed.

Lemma zip_entry_None (name : string) (entries : list (string * content)) :
  zip_entry name entries = None → name ∉ dict_keys entries.
Proof.
  unfold zip_entry. intros Hnone. apply dict_get_None in Hnone.
  unfold dict_keys in *. rewrite map_rev in Hnone. by rewrite elem_of_rev in Hnone.
Qed.

(** A member that is a file under a name that is kept, when it has been
    extracted: its bytes are at its name under the directory. *)
Lemma extract_member_clean (entries : list (string * content)) (root member : string)
    (s s' : BDMFile.state) :
  clean_name member →
  BDMFile._extract_member entries root member s = (inr tt, s') →
  ∃ c, zip_entry member entries = Some c
       ∧ BDMFile.files s' = <[root ++ "/" ++ member := c]> (BDMFile.files s).
Proof.
  intros (Hslash & Harc & Hne) Hrun. apply String.eqb_neq in Hne.
  unfold BDMFile._extract_member, BDMFile.zip_read in Hrun.
  apply bind_inr in Hrun as (c & s0 & Hz & Hrun).
  destruct (zip_entry member entries) as [c'|]; [|done]. injection Hz as <- <-.
  rewrite Hslash, Harc, Hne in Hrun. simpl in Hrun.
  apply bind_inr in Hrun as ([] & s1 & Hm & Hrun).
  apply makedirs_inv in Hm as (_ & Hf1 & _).
  apply write_bytes_inv in Hrun as (_ & _ & _ & Hf).
  exists c'. split; [done|]. rewrite Hf by done. by rewrite Hf1.
Qed.

(** What extraction has written when it has returned: every member is at
    its name under the directory, and nothing else has changed. *)
Lemma extract_members_done (entries : list (string * content)) (root : string)
    (members : list string) (s s' : BDMFile.state) :
  Forall clean_name members →
  for_each members (BDMFile._extract_member entries root) s = (inr tt, s') →
  (∀ m, m ∈ members → BDMFile.files s' !! (root ++ "/" ++ m) = zip_entry m entries)
  ∧ (∀ p, (∀ m, m ∈ members → p ≠ root ++ "/" ++ m) →
          BDMFile.files s' !! p = BDMFile.files s !! p).
Proof.
  revert s. induction members as [|m members IH]; intros s Hclean; simpl.
  - intros [= <-]. split; [|done]. intros m Hm. by apply elem_of_nil in Hm.
  - apply Forall_cons in Hclean as [Hm Hclean].
    intros Hrun. apply bind_inr in Hrun as ([] & s1 & Hext & Hrun).
    destruct (IH s1 Hclean Hrun) as [IH1 IH2].
    destruct (extract_member_clean _ _ _ _ _ Hm Hext) as (c & Hc & Hf1).
    split.
    + intros m0 Hm0. destruct (decide (m0 ∈ members)) as [Hin|Hout]; [by apply IH1|].
      apply elem_of_cons in Hm0 as [->|Hm0]; [|done].
      rewrite IH2.
      * rewrite Hf1, lookup_insert_eq. done.
      * intros m' Hm' Heq. apply append_inj_l in Heq. apply append_inj_l in Heq.
        by subst m'.
    + intros p Hp. rewrite IH2.
      * rewrite Hf1. apply lookup_insert_ne. intros <-. apply (Hp m); [|done].
        rewrite elem_of_cons. by left.
      * intros m' Hm'. apply Hp. rewrite elem_of_cons. by right.
Qed.

Lemma extract_files_done (s s' : BDMFile.state) (entries : list (string * content)) :
  let root := BDMFile._internal_root_dir (BDMFile.self s) in
  BDMFile.files s !! BDMFile.self_path s = Some (Zip true entries) →
  Forall clean_name (dict_keys entries) →
  BDMFile._extract_files s = (inr tt, s') →
  ∀ m, m ≠ "info" → m ≠ "data" →
       BDMFile.files s' !! (root ++ "/" ++ m)
       = match zip_entry m entries with
         | Some c => Some c
         | None => BDMFile.files s !! (root ++ "/" ++ m)
         end.
Proof.
  intros root Hz Hclean. unfold BDMFile._extract_files, BDMFile.ZipFile_r. intros Hrun.
  apply bind_inr in Hrun as (st & s0 & Hg & Hrun). injection Hg as <- <-.
  apply bind_inr in Hrun as (es & s1 & Hes & Hrun).
  revert Hes. py_unfold. rewrite Hz. intros [= <- <-].
  simpl in Hrun.
  destruct (list_remove "info" (dict_keys entries)) as [e|l1] eqn:H1; [done|].
  simpl in Hrun. destruct (list_remove "data" l1) as [e|l2] eqn:H2; [done|].
  simpl in Hrun.
  destruct (list_remove_inv _ _ _ H1) as [H1a H1b].
  destruct (list_remove_inv _ _ _ H2) as [H2a H2b].
  assert (Hcl : Forall clean_name l2).
  { apply Forall_forall. intros m Hm.
    apply (proj1 (Forall_forall _ _) Hclean). auto. }
  destruct (extract_members_done _ _ _ _ _ Hcl Hrun) as [Hin Hout].
  intros m Hmi Hmd. destruct (zip_entry m entries) as [c|] eqn:Hc.
  - rewrite <- Hc. apply Hin. apply H2b; [done|]. apply H1b; [done|].
    by apply zip_entry_keys in Hc.
  - apply Hout. intros m' Hm' Heq. apply append_inj_l in Heq. apply append_inj_l in Heq.
    subst m'. apply zip_entry_None in Hc. apply Hc. auto.
Qed.

Lemma mkdir_member_dirs (p : string) (s s' : BDMFile.state) (r : result unit) :
  BDMFile.mkdir_member p s = (r, s') →
  ∀ x, x ∈ BDMFile.dirs s' → x ∈ BDMFile.dirs s ∨ x = p.
Proof.
  unfold BDMFile.mkdir_member. py_unfold.
  destruct (bool_decide (p ∈ BDMFile.dirs s)); [intros [= _ <-]; auto|].
  destruct (bool_decide (is_Some _)); intros [= _ <-]; simpl; [auto|].
  intros x Hx. apply elem_of_union in Hx as [Hx|Hx]; [|by left].
  right. by apply elem_of_singleton in Hx.
Qed.

(** Opening an archive to read and write, when it has returned: the files
    of the handle are those that extraction has left, and its directories
    those that extraction has made, with the two of the staging area. *)
Lemma open_to_edit_inv `{Pickle} (id : nat) (tempdir uuid target : string) (d : disk)
    (entries : list (string * content)) (st : BDMFile.state) :
  d !! target = Some (Zip true entries) →
  BDMFile.new id tempdir uuid target "r+" d = (inr tt, st) →
  ∃ s0 s1,
    BDMFile.files s0 = d ∧ BDMFile.self_path s0 = target
    ∧ BDMFile._internal_root_dir (BDMFile.self s0) = path_join tempdir uuid
    ∧ (∀ x, x ∈ BDMFile.dirs s0 → x = path_join tempdir uuid)
    ∧ BDMFile._extract_files s0 = (inr tt, s1)
    ∧ BDMFile.files st = BDMFile.files s1
    ∧ (∀ x, x ∈ BDMFile.dirs st →
            x ∈ BDMFile.dirs s1 ∨ x = path_join (path_join tempdir uuid) "files").
Proof.
  intros Hd Hnew.
  assert (Hex : bool_decide (is_Some (d !! target)) = true).
  { apply bool_decide_eq_true_2. by rewrite Hd. }
  unfold BDMFile.new, BDMFile.__init__ in Hnew.
  apply bind_inr in Hnew as (st0 & s0 & Hg & Hnew). injection Hg as <- <-.
  cbn [BDMFile.self BDMFile.allocated BDMFile.this hid Handle_mode mode
       BDMFile._internal_root_dir BDMFile._internal_files_dir BDMFile.info BDMFile.data]
    in Hnew.
  apply bind_inr in Hnew as ([] & s1 & Hp1 & Hnew). injection Hp1 as <-.
  change (negb (valid_mode "r+")) with false in Hnew. cbv iota in Hnew.
  apply bind_inr in Hnew as ([] & s2 & Hp2 & Hnew). injection Hp2 as <-.
  apply bind_inr in Hnew as (present & s3 & Hpe & Hnew).
  unfold BDMFile.Path_exists in Hpe. apply bind_inr in Hpe as (? & ? & Hg & Hpe).
  injection Hg as <- <-. injection Hpe as <- <-.
  cbn [BDMFile.files BDMFile.set_self] in Hnew. rewrite Hex in Hnew.
  apply bind_inr in Hnew as ([] & s4 & Hcv & Hnew).
  apply check_validity_state in Hcv as ->.
  change (negb true && String.eqb "r+" "r") with false in Hnew. cbv iota in Hnew.
  change (writable {| hid := id; path := target; mode := "r+" |}) with true in Hnew.
  cbv iota in Hnew.
  apply bind_inr in Hnew as ([] & s5 & Hsetup & Hnew).
  change (negb true) with false in Hnew. cbv iota in Hnew.
  apply load_data_inv in Hnew as (Hfiles & Hdirs & _).
  unfold BDMFile._setup_temp_env in Hsetup.
  apply bind_inr in Hsetup as (? & ? & Hg & Hsetup). injection Hg as <- <-.
  cbn [BDMFile.self BDMFile.set_self BDMFile.this BDMFile._internal_files_dir
       BDMFile.info BDMFile.data path] in Hsetup.
  apply bind_inr in Hsetup as ([] & s6 & Hp6 & Hsetup). injection Hp6 as <-.
  apply bind_inr in Hsetup as ([] & s6' & Hmk & Hsetup). injection Hmk as <-.
  apply bind_inr in Hsetup as (present & s7 & Hpe & Hsetup).
  unfold BDMFile.Path_exists in Hpe. apply bind_inr in Hpe as (? & ? & Hg & Hpe).
  injection Hg as <- <-. injection Hpe as <- <-.
  cbn [BDMFile.files BDMFile.set_self BDMFile.set_dirs] in Hsetup. rewrite Hex in Hsetup.
  apply bind_inr in Hsetup as ([] & s8 & Hext & Hsetup).
  apply bind_inr in Hsetup as (? & ? & Hg & Hsetup). injection Hg as <- <-.
  apply bind_inr in Hsetup as ([] & s9 & Hp9 & Hsetup). injection Hp9 as <-.
  pose proof (mkdir_member_dirs _ _ _ _ Hsetup) as Hd9.
  apply mkdir_member_inv in Hsetup as (_ & Hf9 & _).
  refine (ex_intro _ _ (ex_intro _ s8
            (conj _ (conj _ (conj _ (conj _ (conj Hext (conj _ _)))))))).
  - reflexivity.
  - reflexivity.
  - reflexivity.
  - simpl. intros x Hx. apply elem_of_union in Hx as [Hx|Hx].
    + by apply elem_of_singleton in Hx.
    + by apply elem_of_empty in Hx.
  - by rewrite Hfiles, Hf9.
  - intros x Hx. rewrite Hdirs in Hx. exact (Hd9 x Hx).
Qed.

(** ** Payloads of an older version *)

(** A payload whose version tag is this version or an older one is
    imported without migration: if its layout is the one of this version,
    the tree that it holds is what the import returns, owned by the
    importing handle, and so is the index, with every internal name as the
    text of the [Path] made of it. *)
Theorem older_payload_imports `{Pickle} (parent : Handle) (version : Z)
    (doc : Data.t) (info : Info.t) (data_payload info_payload : bytes) :
  (version ≤ VERSION)%Z →
  Data_wf doc →
  NoDup (dict_keys (Info.files info)) →
  pickle_loads data_payload = inr (with_version version (Data.export_dict doc)) →
  pickle_loads info_payload = inr (with_version version (Info.export_dict info)) →
  Data.import_data data_payload parent = inr (Data_adopt parent doc)
  ∧ Info.import_data info_payload parent
    = inr (Info.mk parent (Info.name info)
             (map (λ kv, (kv.1, Path_str kv.2)) (Info.files info)))
  ∧ (Forall (λ kv, plain_name kv.2) (Info.files info) →
     Info.import_data info_payload parent = inr (Info_adopt parent info)).
Proof.
  intros Hv Hwf Hnd Hd Hi.
  assert (Hinfo : Info.import_data info_payload parent = inr (Info_imported parent info)).
  { unfold Info.import_data. rewrite Hi. simpl. by apply Info_round_trip. }
  split; [|split].
  - unfold Data.import_data. rewrite Hd. simpl. by apply older_version_imports.
  - exact Hinfo.
  - intros Hplain. by rewrite <- (Info_imported_plain _ _ Hplain).
Qed.

Lemma older_payload_imports_witness :
  Data.import_data (enc_value (with_version 1 (Data.export_dict (sample_data handle_rw))))
    handle_r
  = inr (Data_adopt handle_r (sample_data handle_rw))
  ∧ Info.import_data
      (enc_value
         (with_version 1
            (Info.export_dict
               (Info.mk handle_rw (VStr "NoName")
                  [("img1", "./x.png"); ("img2", "d//y.png"); ("img3", "")]))))
      handle_r
    = inr (Info.mk handle_r (VStr "NoName")
             [("img1", "x.png"); ("img2", "d/y.png"); ("img3", ".")]).
Proof.
  refine (let H := older_payload_imports handle_r 1 (sample_data handle_rw)
                     (Info.mk handle_rw (VStr "NoName")
                        [("img1", "./x.png"); ("img2", "d//y.png"); ("img3", "")])
                     _ _ _ _ _ _ _ in conj (proj1 H) (proj1 (proj2 H))).
  - unfold VERSION. lia.
  - split; [apply NoDup_singleton|].
    apply Forall_singleton. split; [apply NoDup_singleton|].
    apply Forall_singleton. discriminate.
  - apply (bool_decide_unpack _). vm_compute. exact I.
  - vm_compute. reflexivity.
  - vm_compute. reflexivity.
Defined.

(** ** Item metadata through the methods *)

(** Adding a metadata entry under a name that is new and removing it again
    gives back the item as it was: with no metadata if it had none.  The
    metadata the item starts with is [None] or a mapping with an entry. *)
Theorem add_data_then_remove_data (it : Item.t) (name : string) (v : value) :
  writable (Item._parent it) = true →
  Item.data it = VNone
  ∨ (∃ d, Item.data it = VDict d ∧ d ≠ [] ∧ name ∉ dict_keys d) →
  (Item.add_data name v;; Item.remove_data name) it = (inr tt, it).
Proof.
  intros Hw Hdata. destruct it as [p ti co im le da]. simpl in *.
  unfold Item.add_data, Item.remove_data, Item.set_data, dict_delitem. py_unfold. simpl.
  rewrite Hw. simpl.
  destruct Hdata as [->|(d & -> & Hne & Habs)]; simpl.
  - rewrite Hw. simpl. unfold dict_delitem, dict_mem. simpl.
    rewrite !String.eqb_refl. simpl. py_unfold. simpl. by rewrite ?String.eqb_refl.
  - rewrite Hw. simpl. unfold dict_delitem. rewrite !dict_mem_set. simpl.
    py_unfold. simpl. rewrite dict_del_set_absent by done.
    destruct d as [|kv d]; [done|]. reflexivity.
Qed.

Lemma add_data_then_remove_data_witness :
  (Item.add_data "tag" (VStr "a");; Item.remove_data "tag") (sample_item handle_rw)
  = (inr tt, sample_item handle_rw).
Proof.
  apply (add_data_then_remove_data (sample_item handle_rw) "tag" (VStr "a")).
  - reflexivity.
  - vm_compute. by left.
Defined.

(** [remove_data] never raises the [ValueError("No data yet")] of its
    text: the membership test comes first, and on an item without metadata
    it is the test that raises, a [TypeError]; the item is unchanged. *)
Theorem remove_data_without_metadata (it : Item.t) (name : string) :
  (Item.remove_data name it).1 ≠ inl (ValueError "No data yet")
  ∧ (writable (Item._parent it) = true → Item.data it = VNone →
     Item.remove_data name it = (inl TypeError, it)).
Proof.
  destruct it as [p ti co im le da]. unfold Item.remove_data, dict_delitem. py_unfold. simpl.
  split.
  - destruct (writable p); simpl; [|done].
    destruct da as [|z|s|d]; simpl; try done.
    + destruct (str_in name s); simpl; done.
    + unfold dict_delitem. destruct (dict_mem name d); simpl; [|done].
      py_unfold. simpl. destruct (dict_del name d); simpl; done.
  - intros -> ->. reflexivity.
Qed.

Lemma remove_data_without_metadata_witness :
  Item.remove_data "tag" (Item.set_data VNone (sample_item handle_rw))
  = (inl TypeError, Item.set_data VNone (sample_item handle_rw)).
Proof.
  apply (proj2 (remove_data_without_metadata
                  (Item.set_data VNone (sample_item handle_rw)) "tag")); reflexivity.
Defined.

(** ** What opening loads *)

(** [_load_data], when it has returned: the document and the index are
    those the two payloads of the archive import as. *)
Lemma load_data_loaded `{Pickle} (s s' : BDMFile.state) (entries : list (string * content)) :
  BDMFile.files s !! BDMFile.self_path s = Some (Zip true entries) →
  BDMFile._load_data s = (inr tt, s') →
  ∃ bd bi,
    zip_entry "data" entries = Some (Raw bd)
    ∧ zip_entry "info" entries = Some (Raw bi)
    ∧ Data.import_data bd (BDMFile.this (BDMFile.self s))
      = inr (BDMFile.data (BDMFile.self s'))
    ∧ Info.import_data bi (BDMFile.this (BDMFile.self s))
      = inr (BDMFile.info (BDMFile.self s')).
Proof.
  intros Hz. unfold BDMFile._load_data, BDMFile.ZipFile_r, BDMFile.zip_read,
    BDMFile.entry_bytes. py_unfold. rewrite Hz.
  destruct (zip_entry "data" entries) as [[bd|? ?|?]|]; simpl; try done.
  destruct (Data.import_data bd _) as [e|doc] eqn:Hdoc; simpl; [done|].
  destruct (zip_entry "info" entries) as [[bi|? ?|?]|]; simpl; try done.
  destruct (Info.import_data bi _) as [e|info] eqn:Hinfo; simpl; [done|].
  intros [= <-]. by exists bd, bi.
Qed.

(** Opening a path that holds a file, when it has returned: the files are
    those of the disk but for what is staged, and [_load_data] has run
    last. *)
Lemma open_existing_inv `{Pickle} (id : nat) (tempdir uuid target mode : string)
    (d : disk) (c : content) (st : BDMFile.state) :
  d !! target = Some c →
  BDMFile.new id tempdir uuid target mode d = (inr tt, st) →
  ∃ s5,
    BDMFile.this (BDMFile.self s5) = opened id target mode
    ∧ (∀ p, under (path_join tempdir uuid) p = false → BDMFile.files s5 !! p = d !! p)
    ∧ BDMFile._load_data s5 = (inr tt, st).
Proof.
  intros Hd. assert (Hex : bool_decide (is_Some (d !! target)) = true).
  { apply bool_decide_eq_true_2. by rewrite Hd. }
  unfold BDMFile.new, BDMFile.__init__, opened. intros Hnew.
  apply bind_inr in Hnew as (? & ? & Hg & Hnew). injection Hg as <- <-.
  apply bind_inr in Hnew as ([] & s1 & Hp & Hnew). injection Hp as <-.
  destruct (valid_mode mode) eqn:Hvm; [|discriminate Hnew]. simpl in Hnew.
  apply bind_inr in Hnew as ([] & s2 & Hp & Hnew). injection Hp as <-.
  apply bind_inr in Hnew as (present & s3 & Hpe & Hnew).
  rewrite Path_exists_run in Hpe. injection Hpe as <- <-. simpl in Hnew.
  rewrite Hex in Hnew. simpl in Hnew.
  apply bind_inr in Hnew as ([] & s4 & Hcv & Hnew).
  apply check_validity_state in Hcv as ->.
  set (s0 := BDMFile.set_self _ _) in Hnew.
  assert (Hthis0 : BDMFile.this (BDMFile.self s0) = mkHandle id target mode) by done.
  assert (Hfiles0 : BDMFile.files s0 = d) by done.
  clearbody s0.
  apply bind_inr in Hnew as ([] & s5 & Hsetup & Hnew).
  exists s5. split; [|split; [|exact Hnew]].
  - destruct (writable (mkHandle id target mode)).
    + apply setup_temp_env_inv in Hsetup as (Ht5 & _). by rewrite Ht5.
    + by injection Hsetup as <-.
  - intros p Hp. destruct (writable (mkHandle id target mode)).
    + apply setup_temp_env_inv in Hsetup as (_ & _ & _ & Hf5 & _).
      by rewrite Hf5, Hfiles0.
    + injection Hsetup as <-. by rewrite Hfiles0.
Qed.

(** What opening has loaded: the document and the index are those the two
    payloads of the archive import as. *)
Lemma open_loaded `{Pickle} (id : nat) (tempdir uuid target mode : string)
    (d : disk) (entries : list (string * content)) (st : BDMFile.state) :
  d !! target = Some (Zip true entries) →
  under (path_join tempdir uuid) target = false →
  BDMFile.new id tempdir uuid target mode d = (inr tt, st) →
  ∃ bd bi,
    zip_entry "data" entries = Some (Raw bd)
    ∧ zip_entry "info" entries = Some (Raw bi)
    ∧ Data.import_data bd (opened id target mode) = inr (BDMFile.data (BDMFile.self st))
    ∧ Info.import_data bi (opened id target mode) = inr (BDMFile.info (BDMFile.self st)).
Proof.
  intros Hd Hout Hnew.
  destruct (open_existing_inv _ _ _ _ _ _ _ _ Hd Hnew) as (s5 & Hthis & Hfiles & Hload).
  rewrite <- Hthis. apply (load_data_loaded s5 st entries); [|done].
  unfold BDMFile.self_path. rewrite Hthis. simpl. by rewrite Hfiles.
Qed.


(** No mode starts an archive that exists from nothing: when
    [BDMFile(path, mode)] has returned on a path that holds an archive, in
    the mode that only writes as in the others, the handle holds the
    document and the index that the two payloads of the archive import
    as.  The archive is not in the staging directory. *)
Theorem open_loads_the_archive `{Pickle} (id : nat) (tempdir uuid target mode : string)
    (d : disk) (entries : list (string * content)) (st : BDMFile.state) :
  d !! target = Some (Zip true entries) →
  under (path_join tempdir uuid) target = false →
  BDMFile.new id tempdir uuid target mode d = (inr tt, st) →
  ∃ bd bi,
    zip_entry "data" entries = Some (Raw bd)
    ∧ zip_entry "info" entries = Some (Raw bi)
    ∧ Data.import_data bd (opened id target mode) = inr (BDMFile.data (BDMFile.self st))
    ∧ Info.import_data bi (opened id target mode) = inr (BDMFile.info (BDMFile.self st)).
Proof. apply open_loaded. Qed.

Lemma open_loads_the_archive_witness :
  ∃ bd bi,
    zip_entry "data" sample_saved_entries = Some (Raw bd)
    ∧ zip_entry "info" sample_saved_entries = Some (Raw bi)
    ∧ Data.import_data bd (opened 7 "a.bdm" "w")
      = inr (BDMFile.data (BDMFile.self (BDMFile.new 7 "/tmp" "u2" "a.bdm" "w" sample_saved).2))
    ∧ Info.import_data bi (opened 7 "a.bdm" "w")
      = inr (BDMFile.info (BDMFile.self (BDMFile.new 7 "/tmp" "u2" "a.bdm" "w" sample_saved).2)).
Proof.
  apply (open_loads_the_archive 7 "/tmp" "u2" "a.bdm" "w" sample_saved sample_saved_entries
           (BDMFile.new 7 "/tmp" "u2" "a.bdm" "w" sample_saved).2).
  - reflexivity.
  - reflexivity.
  - vm_compute. reflexivity.
Defined.

(** ** What a handle that reads and writes has staged *)

Lemma append_empty_r (a : string) : a ++ "" = a.
Proof. induction a as [|x a IH]; [done|]. rewrite append_cons. by f_equal. Qed.

Lemma append_ne_self (a : string) (c : Ascii.ascii) (b : string) : a ++ String c b ≠ a.
Proof.
  intros Heq. rewrite <- (append_empty_r a) in Heq at 2. by apply append_inj_l in Heq.
Qed.

(** The directories that are made on the way to a member are above it. *)
Lemma upper_dirs_above (root : string) (parts : list string) (q next : string) :
  (q, next) ∈ upper_dirs root parts →
  ∃ rest, root ++ "/" ++ join "/" parts = q ++ "/" ++ rest.
Proof.
  revert root. induction parts as [|c parts IH]; intros root; simpl.
  { intros Hin. by apply elem_of_nil in Hin. }
  destruct parts as [|c' ps].
  { intros Hin. by apply elem_of_nil in Hin. }
  intros Hin. apply elem_of_cons in Hin as [[= -> ->]|Hin].
  - exists (join "/" (c' :: ps)). by rewrite !append_assoc.
  - apply IH in Hin as [rest Heq]. exists rest. rewrite <- Heq. by rewrite !append_assoc.
Qed.

Lemma mkdir_missing_dirs (q next : string) (s s' : BDMFile.state) (r : result unit) :
  BDMFile.mkdir_missing q next s = (r, s') →
  ∀ x, x ∈ BDMFile.dirs s' → x ∈ BDMFile.dirs s ∨ x = q.
Proof.
  unfold BDMFile.mkdir_missing. py_unfold.
  destruct (bool_decide (q ∈ BDMFile.dirs s)); [intros [= _ <-]; auto|].
  destruct (bool_decide (is_Some _)); intros [= _ <-]; simpl; [auto|].
  intros x Hx. apply elem_of_union in Hx as [Hx|Hx]; [|by left].
  right. by apply elem_of_singleton in Hx.
Qed.

Lemma makedirs_dirs (upper : list (string * string)) (s s' : BDMFile.state)
    (r : result unit) :
  for_each upper (λ qn, BDMFile.mkdir_missing qn.1 qn.2) s = (r, s') →
  ∀ x, x ∈ BDMFile.dirs s' → x ∈ BDMFile.dirs s ∨ ∃ next, (x, next) ∈ upper.
Proof.
  revert s. induction upper as [|[q next] upper IH]; intros s; simpl.
  - intros [= _ <-]. auto.
  - intros Hrun x Hx.
    apply bind_inv in Hrun as [(e & Hm & _)|([] & s1 & Hm & Hrun)].
    + destruct (mkdir_missing_dirs _ _ _ _ _ Hm x Hx) as [?| ->]; [by left|].
      right. exists next. apply elem_of_cons. by left.
    + destruct (IH _ Hrun x Hx) as [Hx1|[next' Hin]].
      * destruct (mkdir_missing_dirs _ _ _ _ _ Hm x Hx1) as [?| ->]; [by left|].
        right. exists next. apply elem_of_cons. by left.
      * right. exists next'. apply elem_of_cons. by right.
Qed.

(** The directories that extraction makes are above the members. *)
Lemma extract_member_dirs (entries : list (string * content)) (root member : string)
    (s s' : BDMFile.state) (r : result unit) :
  clean_name member →
  BDMFile._extract_member entries root member s = (r, s') →
  ∀ x, x ∈ BDMFile.dirs s' →
       x ∈ BDMFile.dirs s ∨ ∃ rest, root ++ "/" ++ member = x ++ "/" ++ rest.
Proof.
  intros (Hslash & Harc & Hne) Hrun. apply String.eqb_neq in Hne.
  unfold BDMFile._extract_member, BDMFile.zip_read in Hrun.
  apply bind_inv in Hrun as [(e & Hz & _)|(c & s0 & Hz & Hrun)].
  { destruct (zip_entry member entries); injection Hz as _ <-; auto. }
  destruct (zip_entry member entries); [|done]. injection Hz as _ <-.
  rewrite Hslash, Harc, Hne in Hrun. simpl in Hrun.
  assert (Hup : ∀ s1 r1,
            for_each (upper_dirs root (arcname_parts member))
              (λ qn, BDMFile.mkdir_missing qn.1 qn.2) s = (r1, s1) →
            ∀ x, x ∈ BDMFile.dirs s1 →
                 x ∈ BDMFile.dirs s ∨ ∃ rest, root ++ "/" ++ member = x ++ "/" ++ rest).
  { intros s1 r1 Hm x Hx.
    destruct (makedirs_dirs _ _ _ _ Hm x Hx) as [?|[next Hin]]; [by left|]. right.
    apply upper_dirs_above in Hin as [rest Heq]. exists rest.
    unfold member_arcname in Harc. by rewrite Harc in Heq. }
  apply bind_inv in Hrun as [(e & Hm & _)|([] & s1 & Hm & Hrun)]; [by eapply Hup|].
  apply write_bytes_inv in Hrun as (_ & Hd & _). intros x Hx. rewrite Hd in Hx.
  by eapply Hup.
Qed.

Lemma extract_members_dirs (entries : list (string * content)) (root : string)
    (members : list string) (s s' : BDMFile.state) (r : result unit) :
  Forall clean_name members →
  for_each members (BDMFile._extract_member entries root) s = (r, s') →
  ∀ x, x ∈ BDMFile.dirs s' →
       x ∈ BDMFile.dirs s
       ∨ ∃ m rest, m ∈ members ∧ root ++ "/" ++ m = x ++ "/" ++ rest.
Proof.
  revert s. induction members as [|m members IH]; intros s Hclean; simpl.
  - intros [= _ <-]. auto.
  - apply Forall_cons in Hclean as [Hm Hclean]. intros Hrun x Hx.
    assert (Hfirst : ∀ s1 r1, BDMFile._extract_member entries root m s = (r1, s1) →
              x ∈ BDMFile.dirs s1 →
              x ∈ BDMFile.dirs s
              ∨ ∃ m0 rest, m0 ∈ m :: members ∧ root ++ "/" ++ m0 = x ++ "/" ++ rest).
    { intros s1 r1 Hext Hx1.
      destruct (extract_member_dirs _ _ _ _ _ _ Hm Hext x Hx1) as [?|[rest Heq]];
        [by left|].
      right. exists m, rest. split; [|done]. apply elem_of_cons. by left. }
    apply bind_inv in Hrun as [(e & Hext & _)|([] & s1 & Hext & Hrun)];
      [by eapply Hfirst|].
    destruct (IH _ Hclean Hrun x Hx) as [Hx1|(m0 & rest & Hin & Heq)];
      [by eapply Hfirst|].
    right. exists m0, rest. split; [|done]. apply elem_of_cons. by right.
Qed.

Lemma extract_files_dirs (s s' : BDMFile.state) (entries : list (string * content))
    (r : result unit) :
  let root := BDMFile._internal_root_dir (BDMFile.self s) in
  BDMFile.files s !! BDMFile.self_path s = Some (Zip true entries) →
  Forall clean_name (dict_keys entries) →
  BDMFile._extract_files s = (r, s') →
  ∀ x, x ∈ BDMFile.dirs s' →
       x ∈ BDMFile.dirs s
       ∨ ∃ m rest, m ∈ dict_keys entries ∧ root ++ "/" ++ m = x ++ "/" ++ rest.
Proof.
  intros root Hz Hclean. unfold BDMFile._extract_files, BDMFile.ZipFile_r. intros Hrun.
  apply bind_inv in Hrun as [(e & Hg & _)|(st & s0 & Hg & Hrun)]; [discriminate Hg|].
  injection Hg as <- <-.
  apply bind_inv in Hrun as [(e & Hes & _)|(es & s1 & Hes & Hrun)].
  { revert Hes. py_unfold. rewrite Hz. done. }
  revert Hes. py_unfold. rewrite Hz. intros [= <- <-].
  simpl in Hrun.
  destruct (list_remove "info" (dict_keys entries)) as [e|l1] eqn:H1.
  { injection Hrun as _ <-. auto. }
  simpl in Hrun. destruct (list_remove "data" l1) as [e|l2] eqn:H2.
  { injection Hrun as _ <-. auto. }
  simpl in Hrun.
  destruct (list_remove_inv _ _ _ H1) as [H1a _].
  destruct (list_remove_inv _ _ _ H2) as [H2a _].
  assert (Hcl : Forall clean_name l2).
  { apply Forall_forall. intros m Hm.
    apply (proj1 (Forall_forall _ _) Hclean). auto. }
  intros x Hx.
  destruct (extract_members_dirs _ _ _ _ _ _ Hcl Hrun x Hx) as [?|(m & rest & Hin & Heq)];
    [by left|].
  right. exists m, rest. split; [auto|done].
Qed.

(** The index that the info payload imports as does not depend on the
    handle that imports it. *)
Lemma Info_import_files `{Pickle} (payload : bytes) (h1 h2 : Handle) (i1 i2 : Info.t) :
  Info.import_data payload h1 = inr i1 →
  Info.import_data payload h2 = inr i2 →
  Info.files i1 = Info.files i2.
Proof.
  unfold Info.import_data, Info.import_value, Info.__init__, raise_VersionError.
  py_unfold.
  destruct (pickle_loads payload) as [e|v]; [done|].
  destruct (negb (is_dict v)); [done|].
  destruct (py_getitem v "version") as [e|version]; [done|].
  destruct (py_gt version VERSION) as [e|[]]; [done|by destruct version|].
  destruct (py_delitem v "version") as [e|v']; [done|].
  destruct (py_getitem v' "name") as [e|name]; [done|].
  destruct (py_getitem v' "files") as [e|files]; [done|].
  destruct (dict_build Info.Path files) as [e|fs]; [done|].
  by intros [= <-] [= <-].
Qed.

(** Where the staged file of a name of one component is missing, [open]
    fails for a directory that is there or for nothing being there. *)
Lemma open_error_child (st : BDMFile.state) (dir name : string) :
  plain_name name → dir ∈ BDMFile.dirs st →
  BDMFile.open_error st (path_join dir name)
  = if bool_decide (path_join dir name ∈ BDMFile.dirs st)
    then IsADirectoryError (path_join dir name)
    else FileNotFoundError (path_join dir name).
Proof.
  intros Hplain Hdir. unfold BDMFile.open_error.
  destruct (bool_decide (path_join dir name ∈ BDMFile.dirs st)); [done|].
  rewrite (plain_name_parent _ _ Hplain).
  destruct (String.length (path_join dir name)); [done|]. simpl.
  by rewrite bool_decide_eq_true_2.
Qed.

(** A handle that reads and writes has every resource of the archive
    staged: [read_file] returns the bytes of the entry [files/<internal
    name>], as does a handle that only reads.  Where the archive has no
    such entry, the handle that only reads raises [KeyError]; the one that
    reads and writes raises [FileNotFoundError], or [IsADirectoryError] when
    extraction has made a directory at the name, which takes a member
    under [files/<internal name>/].  The names of the members are those
    [extractall] keeps, the internal name is one path component, and the
    staging directory is a new one. *)
Theorem open_to_edit_stages_resources `{Pickle} (id id_r : nat)
    (tempdir uuid target : string) (d : disk) (entries : list (string * content))
    (st st_r : BDMFile.state) (file_id name : string) :
  let staged := path_join (path_join (path_join tempdir uuid) "files") name in
  d !! target = Some (Zip true entries) →
  Forall clean_name (dict_keys entries) →
  (∀ p, under (path_join tempdir uuid) p = true → d !! p = None) →
  BDMFile.new id tempdir uuid target "r+" d = (inr tt, st) →
  BDMFile.new id_r tempdir uuid target "r" d = (inr tt, st_r) →
  dict_get file_id (Info.files (BDMFile.info (BDMFile.self st))) = Some name →
  plain_name name →
  dict_get file_id (Info.files (BDMFile.info (BDMFile.self st_r))) = Some name
  ∧ match zip_entry ("files/" ++ name) entries with
    | Some c =>
        BDMFile.read_file file_id st = (inr c, st)
        ∧ BDMFile.read_file file_id st_r = (inr c, st_r)
    | None =>
        BDMFile.read_file file_id st
        = (inl (if bool_decide (staged ∈ BDMFile.dirs st)
                then IsADirectoryError staged
                else FileNotFoundError staged), st)
        ∧ BDMFile.read_file file_id st_r = (inl (KeyError ("files/" ++ name)), st_r)
    end
  ∧ ((∀ m, m ∈ dict_keys entries → String.prefix ("files/" ++ name ++ "/") m = false) →
     staged ∉ BDMFile.dirs st).
Proof.
  intros staged Hd Hclean Hfresh Hnew Hnew_r Hname Hplain.
  set (root := path_join tempdir uuid) in *.
  assert (Hout : under root target = false).
  { destruct (under root target) eqn:E; [|done]. by rewrite (Hfresh _ E) in Hd. }
  (* the two handles hold the same index *)
  destruct (open_loaded _ _ _ _ _ _ _ _ Hd Hout Hnew) as (bd & bi & _ & Hbi & _ & Hinfo).
  destruct (open_loaded _ _ _ _ _ _ _ _ Hd Hout Hnew_r)
    as (bd' & bi' & _ & Hbi' & _ & Hinfo_r).
  rewrite Hbi in Hbi'. injection Hbi' as <-.
  pose proof (Info_import_files _ _ _ _ _ Hinfo Hinfo_r) as Hindex.
  assert (Hname_r : dict_get file_id (Info.files (BDMFile.info (BDMFile.self st_r)))
                    = Some name) by (by rewrite <- Hindex).
  (* the handle that only reads *)
  destruct (open_staged _ _ _ _ _ _ _ Hnew_r) as (Hthis_r & _ & _ & Hfiles_r).
  specialize (Hfiles_r eq_refl).
  assert (Hread_r : BDMFile.read_file file_id st_r
                    = (match zip_entry ("files/" ++ name) entries with
                       | Some c => inr c
                       | None => inl (KeyError ("files/" ++ name))
                       end, st_r)).
  { unfold BDMFile.read_file, BDMFile.ZipFile_r, BDMFile.zip_read, BDMFile.self_path,
      dict_getitem. py_unfold. rewrite Hthis_r. simpl. rewrite Hfiles_r, Hd, Hname_r.
    simpl. destruct (zip_entry ("files/" ++ name) entries); reflexivity. }
  (* the handle that reads and writes *)
  destruct (open_staged _ _ _ _ _ _ _ Hnew) as (Hthis & _ & Hwr & _).
  destruct (Hwr eq_refl) as (Hroot & Hdir & _ & _ & Hfd). fold root in Hroot, Hdir, Hfd.
  destruct (open_to_edit_inv _ _ _ _ _ _ _ Hd Hnew)
    as (s0 & s1 & Hf0 & Hp0 & Hroot0 & Hd0 & Hext & Hfiles & Hdirs).
  fold root in Hroot0, Hd0, Hdirs.
  assert (Hz : BDMFile.files s0 !! BDMFile.self_path s0 = Some (Zip true entries)).
  { by rewrite Hf0, Hp0. }
  pose proof (extract_files_done s0 s1 entries Hz Hclean Hext ("files/" ++ name)) as Hm.
  rewrite Hroot0 in Hm.
  assert (Hpath : staged = root ++ "/" ++ "files/" ++ name).
  { unfold staged. rewrite (plain_name_path _ _ Hplain). unfold path_join at 1.
    simpl. by rewrite append_assoc. }
  assert (Hread : BDMFile.read_file file_id st
                  = (match zip_entry ("files/" ++ name) entries with
                     | Some c => inr c
                     | None => inl (if bool_decide (staged ∈ BDMFile.dirs st)
                                    then IsADirectoryError staged
                                    else FileNotFoundError staged)
                     end, st)).
  { unfold BDMFile.read_file, BDMFile.read_bytes, dict_getitem. py_unfold.
    rewrite Hthis. simpl. rewrite Hname. simpl. rewrite Hdir. fold staged.
    rewrite Hfiles, Hpath, Hm by discriminate.
    destruct (zip_entry ("files/" ++ name) entries) as [c|]; [done|].
    rewrite Hf0. rewrite Hfresh by apply under_child. rewrite <- Hpath.
    unfold staged. by rewrite (open_error_child _ _ _ Hplain Hfd). }
  split; [done|]. split.
  { rewrite Hread, Hread_r. by destruct (zip_entry ("files/" ++ name) entries). }
  (* the directories of the staging area *)
  intros Hnone Hin.
  destruct Hplain as (_ & _ & Hinv). unfold invalid_path_parts in Hinv.
  rewrite not_elem_of_cons in Hinv. destruct Hinv as [Hne _].
  destruct name as [|a name']; [done|]. clear Hne.
  destruct (Hdirs _ Hin) as [Hin1| Heq].
  - destruct (extract_files_dirs s0 s1 entries _ Hz Hclean Hext _ Hin1)
      as [Hin0|(m & rest & Hmem & Heq)].
    + apply Hd0 in Hin0. rewrite Hpath in Hin0. by apply append_ne_self in Hin0.
    + rewrite Hroot0, Hpath in Heq. rewrite !append_assoc in Heq.
      apply append_inj_l in Heq. apply append_inj_l in Heq.
      specialize (Hnone m Hmem). rewrite Heq in Hnone.
      rewrite <- !append_assoc in Hnone. by rewrite prefix_append in Hnone.
  - rewrite Hpath in Heq. unfold path_join in Heq. simpl in Heq.
    apply append_inj_l in Heq. apply append_inj_l in Heq. cbv in Heq. discriminate Heq.
Qed.

Lemma open_to_edit_stages_resources_witness :
  (BDMFile.read_file "img1" (BDMFile.new 7 "/tmp" "u2" "a.bdm" "r+" sample_saved).2
   = (inr (Raw [Byte.x89; Byte.x50]), (BDMFile.new 7 "/tmp" "u2" "a.bdm" "r+" sample_saved).2)
   ∧ BDMFile.read_file "img1" (BDMFile.new 8 "/tmp" "u2" "a.bdm" "r" sample_saved).2
     = (inr (Raw [Byte.x89; Byte.x50]),
        (BDMFile.new 8 "/tmp" "u2" "a.bdm" "r" sample_saved).2))
  ∧ ("/tmp/u2/files/x.png"
     ∉ BDMFile.dirs (BDMFile.new 7 "/tmp" "u2" "a.bdm" "r+" sample_saved).2)
  ∧ BDMFile.read_file "img1" (BDMFile.new 7 "/tmp" "u2" "n.bdm" "r+" sample_nested).2
    = (inl (IsADirectoryError "/tmp/u2/files/d"),
       (BDMFile.new 7 "/tmp" "u2" "n.bdm" "r+" sample_nested).2)
  ∧ BDMFile.read_file "img1" (BDMFile.new 8 "/tmp" "u2" "n.bdm" "r" sample_nested).2
    = (inl (KeyError "files/d"), (BDMFile.new 8 "/tmp" "u2" "n.bdm" "r" sample_nested).2).
Proof.
  assert (Hfresh : ∀ (target : string) (c : content) (p : string),
            under "/tmp/u2" target = false →
            under (path_join "/tmp" "u2") p = true →
            (<[target := c]> ∅ : disk) !! p = None).
  { intros target c p Ht Hp. rewrite lookup_insert_ne; [apply lookup_empty|].
    intros <-. change (path_join "/tmp" "u2") with "/tmp/u2" in Hp. congruence. }
  pose proof (open_to_edit_stages_resources 7 8 "/tmp" "u2" "a.bdm" sample_saved
                sample_saved_entries
                (BDMFile.new 7 "/tmp" "u2" "a.bdm" "r+" sample_saved).2
                (BDMFile.new 8 "/tmp" "u2" "a.bdm" "r" sample_saved).2 "img1" "x.png") as Ha.
  pose proof (open_to_edit_stages_resources 7 8 "/tmp" "u2" "n.bdm" sample_nested
                sample_nested_entries
                (BDMFile.new 7 "/tmp" "u2" "n.bdm" "r+" sample_nested).2
                (BDMFile.new 8 "/tmp" "u2" "n.bdm" "r" sample_nested).2 "img1" "d") as Hb.
  cbv zeta in Ha, Hb.
  destruct Ha as (_ & Ha & Ha').
  - reflexivity.
  - repeat (apply Forall_cons; split; [by repeat split|]). apply Forall_nil_2.
  - intros p Hp. unfold sample_saved. by apply Hfresh.
  - vm_compute. reflexivity.
  - vm_compute. reflexivity.
  - vm_compute. reflexivity.
  - split; [reflexivity|]. split; [reflexivity|].
    apply (bool_decide_unpack _). vm_compute. exact I.
  - destruct Hb as (_ & Hb & _).
    + reflexivity.
    + repeat (apply Forall_cons; split; [by repeat split|]). apply Forall_nil_2.
    + intros p Hp. unfold sample_nested. by apply Hfresh.
    + vm_compute. reflexivity.
    + vm_compute. reflexivity.
    + vm_compute. reflexivity.
    + split; [reflexivity|]. split; [reflexivity|].
      apply (bool_decide_unpack _). vm_compute. exact I.
    + split; [exact Ha|]. split.
      { apply Ha'. intros m Hm. vm_compute in Hm.
        repeat (apply elem_of_cons in Hm as [->|Hm]; [reflexivity|]).
        by apply elem_of_nil in Hm. }
      exact Hb.
Defined.

(** ** The instant at which the marker is deleted *)



